(** * DevSkill tracker: paste classifier, code feature extractor, skill scorer

    A shallow embedding of
      - [TrackingService.detectPaste] and [TrackingService.handleTextChange],
      - [CodeFeatureExtractor] (the static feature extractor),
      - [SkillAnalysisService] (behavioural metrics, scores, recommendations),
    followed by the properties established about them.

    Conventions of the embedding.
      - Integer-valued JavaScript numbers (string lengths, counters,
        millisecond clocks) are [Z].
      - Numbers that come out of a division are [number]: an exact rational,
        an infinity or NaN.  The rounding error of IEEE doubles is not
        modelled; division by zero is.
      - Source text is a list of UTF-16 code units ([jsstring]).
      - A method that can throw returns in an exception-aware type; the
        resource limits of an engine (stack depth, heap) are not modelled.
      - The wall clock, the identifier generator and [LanguageDetector]
        are collaborators: the definitions take them as parameters and the
        properties hold for every choice of them.
      - [LanguageDetector] is embedded as well (module
        [LanguageDetector]); the properties of the detector, and of its
        use by the extractor, are about that embedding. *)

From Stdlib Require Import ZArith NArith QArith Qround List Bool Lia Lqa String Ascii.
From Stdlib Require Import Sorted Permutation.
From stdpp Require Import gmap.
Import ListNotations.

Local Open Scope Z_scope.

(* ===================================================================== *)
(** ** JavaScript numbers *)
(* ===================================================================== *)

Module JsNumber.

Inductive number : Type :=
| Fin (q : Q)
| PosInf
| NegInf
| NaN.

Definition of_Z (z : Z) : number := Fin (inject_Z z).

Definition isFinite (x : number) : bool :=
  match x with Fin _ => true | _ => false end.

Definition Qpos_b (q : Q) : bool := negb (Qle_bool q 0).
Definition Qzero_b (q : Q) : bool := Qeq_bool q 0.

(** [x + y] *)
Definition add (x y : number) : number :=
  match x, y with
  | NaN, _ | _, NaN => NaN
  | Fin a, Fin b => Fin (a + b)
  | PosInf, NegInf | NegInf, PosInf => NaN
  | PosInf, _ | _, PosInf => PosInf
  | NegInf, _ | _, NegInf => NegInf
  end.

Definition neg (x : number) : number :=
  match x with
  | Fin a => Fin (- a)
  | PosInf => NegInf
  | NegInf => PosInf
  | NaN => NaN
  end.

(** [x - y] *)
Definition sub (x y : number) : number := add x (neg y).

Definition signed_inf (positive : bool) : number :=
  if positive then PosInf else NegInf.

(** [x * y] *)
Definition mul (x y : number) : number :=
  match x, y with
  | NaN, _ | _, NaN => NaN
  | Fin a, Fin b => Fin (a * b)
  | Fin a, PosInf | PosInf, Fin a =>
      if Qzero_b a then NaN else signed_inf (Qpos_b a)
  | Fin a, NegInf | NegInf, Fin a =>
      if Qzero_b a then NaN else signed_inf (negb (Qpos_b a))
  | PosInf, PosInf | NegInf, NegInf => PosInf
  | PosInf, NegInf | NegInf, PosInf => NegInf
  end.

(** [x / y]; a zero divisor gives NaN or an infinity, never an exception.
    The sign of a zero is not tracked: every zero divisor counts as +0. *)
Definition div (x y : number) : number :=
  match x, y with
  | NaN, _ | _, NaN => NaN
  | Fin a, Fin b =>
      if Qzero_b b
      then (if Qzero_b a then NaN else signed_inf (Qpos_b a))
      else Fin (a / b)
  | Fin _, (PosInf | NegInf) => Fin 0
  | PosInf, Fin b => signed_inf (Qpos_b b || Qzero_b b)
  | NegInf, Fin b => signed_inf (negb (Qpos_b b || Qzero_b b))
  | (PosInf | NegInf), (PosInf | NegInf) => NaN
  end.

Definition Qtrunc (q : Q) : Z :=
  if Qle_bool 0 q then Qfloor q else Qceiling q.

(** [x % y]: the remainder takes the sign of the dividend. *)
Definition rem (x y : number) : number :=
  match x, y with
  | NaN, _ | _, NaN => NaN
  | (PosInf | NegInf), _ => NaN
  | Fin a, (PosInf | NegInf) => Fin a
  | Fin a, Fin b =>
      if Qzero_b b then NaN
      else Fin (a - b * inject_Z (Qtrunc (a / b)))
  end.

(** [x < y]; false as soon as one side is NaN. *)
Definition ltb (x y : number) : bool :=
  match x, y with
  | NaN, _ | _, NaN => false
  | Fin a, Fin b => Qpos_b (b - a)
  | NegInf, NegInf => false
  | NegInf, _ => true
  | _, NegInf => false
  | PosInf, _ => false
  | Fin _, PosInf => true
  end.

(** [x > y] *)
Definition gtb (x y : number) : bool := ltb y x.

(** [x >= y] *)
Definition geb (x y : number) : bool :=
  match x, y with
  | NaN, _ | _, NaN => false
  | _, _ => negb (ltb x y)
  end.

(** [Math.max(x, y)] *)
Definition max (x y : number) : number :=
  match x, y with
  | NaN, _ | _, NaN => NaN
  | _, _ => if ltb x y then y else x
  end.

(** [Math.min(x, y)] *)
Definition min (x y : number) : number :=
  match x, y with
  | NaN, _ | _, NaN => NaN
  | _, _ => if ltb y x then y else x
  end.

(** [Math.round(x)]: the nearest integer, halves going up. *)
Definition round (x : number) : number :=
  match x with
  | Fin a => Fin (inject_Z (Qfloor (a + (1 # 2))))
  | other => other
  end.

(** [Math.round(x * 100) / 100] *)
Definition round2 (x : number) : number :=
  div (round (mul x (of_Z 100))) (of_Z 100).

(** Equality of numbers as JavaScript's [===] sees it. *)
Definition num_eqb (x y : number) : bool :=
  match x, y with
  | Fin a, Fin b => Qeq_bool a b
  | PosInf, PosInf | NegInf, NegInf => true
  | _, _ => false
  end.

End JsNumber.
Export JsNumber.

(* ===================================================================== *)
(** ** TrackingService: the paste classifier *)
(* ===================================================================== *)

Module PasteClassifier.

(** [detectPaste(charactersAdded, timeSinceLastChange, linesAdded = 0)]:
    [true] is a paste, [false] is typing. *)
Definition detectPaste (charactersAdded timeSinceLastChange linesAdded : Z)
  : bool :=
  if charactersAdded <=? 30 then false
  else if (linesAdded >=? 3) && (timeSinceLastChange <? 50) then true
  else if charactersAdded >? 300 then true
  else if (charactersAdded >? 150) && (timeSinceLastChange <? 20) then true
  else if (charactersAdded >? 100) && (timeSinceLastChange <? 10) then true
  else if (charactersAdded >? 50) && (timeSinceLastChange <? 5) then true
  else false.

End PasteClassifier.

(* ===================================================================== *)
(** ** JavaScript strings *)
(* ===================================================================== *)

Module JsString.

(** A string is its sequence of UTF-16 code units. *)
Definition jsstring := list N.

(** The code units of an ASCII literal. *)
Definition lit (s : string) : jsstring :=
  List.map N_of_ascii (list_ascii_of_string s).

Definition between (lo hi c : N) : bool := ((lo <=? c) && (c <=? hi))%N.

(** LineTerminator: LF, CR, LS, PS. *)
Definition isLineTerminator (c : N) : bool :=
  ((c =? 10) || (c =? 13) || (c =? 8232) || (c =? 8233))%N.

(** WhiteSpace and LineTerminator together: what [trim] strips and what
    the class escape [\s] matches. *)
Definition isSpace (c : N) : bool :=
  ((c =? 9) || (c =? 11) || (c =? 12) || (c =? 32) || (c =? 160)
   || (c =? 5760) || between 8192 8202 c || (c =? 8239) || (c =? 8287)
   || (c =? 12288) || (c =? 65279))%N
  || isLineTerminator c.

Definition isUpper (c : N) : bool := between 65 90 c.
Definition isLower (c : N) : bool := between 97 122 c.
Definition isDigit (c : N) : bool := between 48 57 c.
Definition isLetter (c : N) : bool := isUpper c || isLower c.

(** The class escape [\w]. *)
Definition isWordChar (c : N) : bool :=
  isLetter c || isDigit c || (c =? 95)%N.

Fixpoint trimStart (s : jsstring) : jsstring :=
  match s with
  | c :: t => if isSpace c then trimStart t else s
  | [] => []
  end.

Definition trimEnd (s : jsstring) : jsstring := rev (trimStart (rev s)).

(** [s.trim()] *)
Definition trim (s : jsstring) : jsstring := trimEnd (trimStart s).

(** [s.split(sep)] for a one-unit separator; the result is never empty. *)
Fixpoint split (sep : N) (s : jsstring) : list jsstring :=
  match s with
  | [] => [[]]
  | c :: t =>
      if (c =? sep)%N then [] :: split sep t
      else match split sep t with
           | cur :: more => (c :: cur) :: more
           | [] => [[c]]
           end
  end.

(** [parts.join(sep)] *)
Fixpoint join (sep : jsstring) (parts : list jsstring) : jsstring :=
  match parts with
  | [] => []
  | [p] => p
  | p :: more => p ++ sep ++ join sep more
  end.

Fixpoint str_eqb (a b : jsstring) : bool :=
  match a, b with
  | [], [] => true
  | x :: a', y :: b' => (x =? y)%N && str_eqb a' b'
  | _, _ => false
  end.

(** [list.includes(s)] on a list of strings. *)
Definition member (s : jsstring) (l : list jsstring) : bool :=
  existsb (str_eqb s) l.

Fixpoint startsWith (p s : jsstring) : bool :=
  match p, s with
  | [], _ => true
  | x :: p', y :: s' => (x =? y)%N && startsWith p' s'
  | _ :: _, [] => false
  end.

(** [s.includes(p)] *)
Fixpoint includes (p s : jsstring) : bool :=
  startsWith p s ||
  match s with
  | [] => false
  | _ :: t => includes p t
  end.

(** [s.toLowerCase()] on the letters A-Z.  The extractor lower-cases
    identifiers matched by [[a-zA-Z_][a-zA-Z0-9_]*], where nothing else
    changes, and language names in which it then looks for ASCII words;
    the case mapping of other code units never completes nor breaks an
    occurrence of one of these words. *)
Definition toLowerCase (s : jsstring) : jsstring :=
  List.map (fun c => if isUpper c then (c + 32)%N else c) s.

End JsString.
Export JsString.

(* ===================================================================== *)
(** ** Regular expressions *)
(* ===================================================================== *)

Module Regex.

(** The fragment of the pattern language that the sources use.  There are
    no back-references, so groups are only brackets. *)
Inductive regex : Type :=
| Eps                          (* the empty pattern *)
| Chr (c : N)                  (* one literal code unit *)
| Cls (f : N -> bool)          (* a class: [\s], [\w], [[a-z]], [[^)]], [.] *)
| Seq (a b : regex)
| Alt (a b : regex)            (* [a|b], left alternative first *)
| Star (a : regex)             (* [a*], greedy *)
| Opt (a : regex)              (* [a?], greedy *)
| Bol                          (* [^] *)
| Eol                          (* [$] *)
| BolM                         (* [^] under the [m] flag *)
| EolM                         (* [$] under the [m] flag *)
| WordB.                       (* [\b] *)

(** [a+] *)
Definition Plus (a : regex) : regex := Seq a (Star a).

(** A literal string. *)
Fixpoint Str (s : jsstring) : regex :=
  match s with
  | [] => Eps
  | [c] => Chr c
  | c :: t => Seq (Chr c) (Str t)
  end.

Fixpoint Alts (l : list regex) : regex :=
  match l with
  | [] => Eps
  | [a] => a
  | a :: more => Alt a (Alts more)
  end.

Fixpoint Seqs (l : list regex) : regex :=
  match l with
  | [] => Eps
  | [a] => a
  | a :: more => Seq a (Seqs more)
  end.

(** A position in the input: the code unit just before it, if any, and the
    input that remains. *)
Record cursor : Type := Cursor { before : option N; rest : jsstring }.

Definition isWordAt (o : option N) : bool :=
  match o with Some c => isWordChar c | None => false end.

Definition advanced (from to : cursor) : bool :=
  (length (rest to) <? length (rest from))%nat.

(** The backtracking matcher, in continuation-passing style as in the
    language definition: [run r c k] tries [r] at [c] and hands every end
    position to [k], in priority order, until [k] accepts one.  An
    iteration of [*] or [?] that consumes nothing is rejected. *)
Fixpoint run (r : regex) (c : cursor) (k : cursor -> option cursor)
  : option cursor :=
  match r with
  | Eps => k c
  | Chr x =>
      match rest c with
      | y :: t => if (x =? y)%N then k (Cursor (Some y) t) else None
      | [] => None
      end
  | Cls f =>
      match rest c with
      | y :: t => if f y then k (Cursor (Some y) t) else None
      | [] => None
      end
  | Seq a b => run a c (fun c' => run b c' k)
  | Alt a b =>
      match run a c k with
      | Some e => Some e
      | None => run b c k
      end
  | Star a =>
      (fix loop (fuel : nat) (c : cursor) {struct fuel} : option cursor :=
         match fuel with
         | O => k c
         | S fuel' =>
             match run a c (fun c' => if advanced c c' then loop fuel' c'
                                      else None) with
             | Some e => Some e
             | None => k c
             end
         end) (S (length (rest c))) c
  | Opt a =>
      match run a c (fun c' => if advanced c c' then k c' else None) with
      | Some e => Some e
      | None => k c
      end
  | Bol => match before c with None => k c | Some _ => None end
  | Eol => match rest c with [] => k c | _ :: _ => None end
  | BolM =>
      match before c with
      | None => k c
      | Some p => if isLineTerminator p then k c else None
      end
  | EolM =>
      match rest c with
      | [] => k c
      | y :: _ => if isLineTerminator y then k c else None
      end
  | WordB =>
      if xorb (isWordAt (before c)) (isWordAt (hd_error (rest c)))
      then k c else None
  end.

(** One match attempt at a position: the end of the match. *)
Definition matchAt (r : regex) (c : cursor) : option cursor :=
  run r c Some.

(** The first match at or after a position: the text skipped before it,
    the matched text and the text after it. *)
Fixpoint search (r : regex) (prev : option N) (s : jsstring)
  : option (jsstring * jsstring * jsstring) :=
  match matchAt r (Cursor prev s) with
  | Some e =>
      Some ([], firstn (length s - length (rest e)) s, rest e)
  | None =>
      match s with
      | [] => None
      | c :: t =>
          match search r (Some c) t with
          | Some (skipped, m, after) => Some (c :: skipped, m, after)
          | None => None
          end
      end
  end.

(** [r.test(s)] for a pattern without the [g] flag. *)
Definition test (r : regex) (s : jsstring) : bool :=
  match search r None s with Some _ => true | None => false end.

(** [s.match(r)] for a pattern without the [g] flag: the matched text. *)
Definition match1 (r : regex) (s : jsstring) : option jsstring :=
  match search r None s with
  | Some (_, m, _) => Some m
  | None => None
  end.

(** [s.replace(r, '')] for a pattern without the [g] flag. *)
Definition removeFirst (r : regex) (s : jsstring) : jsstring :=
  match search r None s with
  | Some (skipped, _, after) => skipped ++ after
  | None => s
  end.

(** [s.match(r)] for a pattern with the [g] flag, and equally the loop
    [while ((m = r.exec(s)) !== null)]: every match from left to right.
    After a match of length [n > 0] the search resumes [n] units further
    ([skip] counts the units still covered by it); after an empty match
    it resumes one unit further. *)
Fixpoint matchAllFrom (r : regex) (prev : option N) (s : jsstring)
    (skip : nat) {struct s} : list jsstring :=
  match skip with
  | S n =>
      match s with
      | [] => []
      | c :: t => matchAllFrom r (Some c) t n
      end
  | O =>
      match matchAt r (Cursor prev s) with
      | Some e =>
          let n := (length s - length (rest e))%nat in
          firstn n s ::
            match s with
            | [] => []
            | c :: t => matchAllFrom r (Some c) t (n - 1)
            end
      | None =>
          match s with
          | [] => []
          | c :: t => matchAllFrom r (Some c) t 0
          end
      end
  end.

Definition matchAll (r : regex) (s : jsstring) : list jsstring :=
  matchAllFrom r None s 0.

(** [(s.match(r) || []).length] for a pattern with the [g] flag. *)
Definition countMatches (r : regex) (s : jsstring) : Z :=
  Z.of_nat (length (matchAll r s)).

(** *** [new RegExp(source)]

    The constructor, for sources built from literal characters, escapes,
    the anchors, [.], [|] and the greedy quantifiers [? * +].  [None]
    stands for a SyntaxError, and also for syntax outside this fragment
    (brackets, braces, lazy quantifiers, the remaining letter escapes). *)

(** What follows a backslash: the term, and whether a quantifier may
    follow it.  A character without a meaning of its own stands for
    itself (the identity escape of patterns without the [u] flag). *)
Definition escape (e : N) : option (regex * bool) :=
  if (e =? 98)%N then Some (WordB, false)                   (* \b *)
  else if (e =? 115)%N then Some (Cls isSpace, true)        (* \s *)
  else if (e =? 119)%N then Some (Cls isWordChar, true)     (* \w *)
  else if (e =? 100)%N then Some (Cls isDigit, true)        (* \d *)
  else if isDigit e
          || member [e] (List.map lit
               ["B"; "D"; "S"; "W"; "t"; "n"; "v"; "f"; "r"; "c"; "x";
                "u"; "k"; "p"; "P"])%string
       then None
  else Some (Chr e, true).

Definition quantify (q : N) (a : regex) : regex :=
  if (q =? 63)%N then Opt a
  else if (q =? 42)%N then Star a
  else Plus a.

(** [alts]: the alternatives already closed by a [|], last one first;
    [cur]: the terms of the current alternative, last one first;
    [q]: whether the last term can take a quantifier. *)
Fixpoint parse (src : jsstring) (alts cur : list regex) (q : bool)
  : option regex :=
  match src with
  | [] => Some (Alts (rev (Seqs (rev cur) :: alts)))
  | c :: t =>
      if (c =? 92)%N then                                   (* backslash *)
        match t with
        | [] => None
        | e :: t' =>
            match escape e with
            | Some (r, quantifiable) => parse t' alts (r :: cur) quantifiable
            | None => None
            end
        end
      else if (c =? 124)%N then                             (* | *)
        parse t (Seqs (rev cur) :: alts) [] false
      else if ((c =? 63) || (c =? 42) || (c =? 43))%N then  (* ? * + *)
        match q, cur with
        | true, a :: cur' => parse t alts (quantify c a :: cur') false
        | _, _ => None
        end
      else if (c =? 94)%N then parse t alts (Bol :: cur) false
      else if (c =? 36)%N then parse t alts (Eol :: cur) false
      else if (c =? 46)%N then
        parse t alts (Cls (fun x => negb (isLineTerminator x)) :: cur) true
      else if member [c] (List.map lit ["("; ")"; "["; "]"; "{"; "}"])%string
        then None
      else parse t alts (Chr c :: cur) true
  end.

Definition RegExp_new (source : jsstring) : option regex :=
  parse source [] [] false.

End Regex.
Export Regex.

(* ===================================================================== *)
(** ** Tracking types (types/tracking.types.ts) *)
(* ===================================================================== *)

Module TrackingTypes.

Inductive EventType : Type :=
| SESSION_START | SESSION_STOP | KEYSTROKE | PASTE | TEXT_EDIT
| FILE_SWITCH | FILE_OPEN | FILE_CLOSE | WINDOW_FOCUS | WINDOW_BLUR
| IDLE_START | IDLE_END | CODE_ANALYSIS.

Definition EventType_eqb (a b : EventType) : bool :=
  match a, b with
  | SESSION_START, SESSION_START | SESSION_STOP, SESSION_STOP
  | KEYSTROKE, KEYSTROKE | PASTE, PASTE | TEXT_EDIT, TEXT_EDIT
  | FILE_SWITCH, FILE_SWITCH | FILE_OPEN, FILE_OPEN
  | FILE_CLOSE, FILE_CLOSE | WINDOW_FOCUS, WINDOW_FOCUS
  | WINDOW_BLUR, WINDOW_BLUR | IDLE_START, IDLE_START
  | IDLE_END, IDLE_END | CODE_ANALYSIS, CODE_ANALYSIS => true
  | _, _ => false
  end.

Record KeystrokeDetail : Type := {
  kd_file : jsstring;
  kd_language : jsstring;
  kd_charactersAdded : Z;
  kd_charactersDeleted : Z;
  kd_linesAdded : Z;
  kd_linesDeleted : Z;
  kd_isTyping : bool
}.

Inductive PasteSource : Type := clipboard | autocomplete | unknown.

Record PasteDetail : Type := {
  pd_file : jsstring;
  pd_language : jsstring;
  pd_charactersAdded : Z;
  pd_linesAdded : Z;
  pd_estimatedSource : PasteSource
}.

(** The details that the text-change handler records; [NoDetail] is the
    empty object of the idle-end event. *)
Inductive EventDetail : Type :=
| OfKeystroke (d : KeystrokeDetail)
| OfPaste (d : PasteDetail)
| NoDetail.

Record TrackingEvent : Type := {
  ev_id : jsstring;
  ev_sessionId : jsstring;
  ev_timestamp : Z;
  ev_type : EventType;
  ev_detail : EventDetail;
  ev_userId : option jsstring
}.

Record FileMetrics : Type := {
  file : jsstring;
  language : jsstring;
  firstSeen : Z;
  lastActive : Z;
  keystrokeCount : Z;
  pasteCount : Z;
  typingToTotalRatio : number;
  linesAdded : Z;
  linesDeleted : Z;
  editCount : Z;
  averageEditSize : Z;
  activeTimeMs : Z;
  idleTimeMs : Z;
  totalTimeMs : Z;
  switchToCount : Z;
  switchFromCount : Z;
  openCount : Z;
  codeAnalysisCount : Z;
  lastAnalysisTimestamp : option Z
}.

Inductive SessionStatus : Type :=
| active | stopped | uploaded | error.

Record TrackingSession : Type := {
  id : jsstring;
  userId : option jsstring;
  startTime : Z;
  endTime : option Z;
  totalDuration : Z;
  activeDuration : Z;
  idleDuration : Z;
  totalKeystrokes : Z;
  totalPastes : Z;
  totalEdits : Z;
  filesEdited : list jsstring;
  languagesUsed : list jsstring;
  codeAnalysesPerformed : Z;
  status : SessionStatus;
  uploadAttempts : Z;
  lastUploadAttempt : option Z
}.

End TrackingTypes.
Export TrackingTypes.

(* ===================================================================== *)
(** ** TrackingService: the text-change handler *)
(* ===================================================================== *)

Module TrackingService.

Import PasteClassifier.

(** Field updates ([m.f = v]). *)
Definition set_lastActive (v : Z) (m : FileMetrics) : FileMetrics :=
  {| file := file m; language := language m; firstSeen := firstSeen m;
  lastActive := v; keystrokeCount := keystrokeCount m; pasteCount :=
  pasteCount m; typingToTotalRatio := typingToTotalRatio m; linesAdded :=
  linesAdded m; linesDeleted := linesDeleted m; editCount := editCount m;
  averageEditSize := averageEditSize m; activeTimeMs := activeTimeMs m;
  idleTimeMs := idleTimeMs m; totalTimeMs := totalTimeMs m; switchToCount
  := switchToCount m; switchFromCount := switchFromCount m; openCount :=
  openCount m; codeAnalysisCount := codeAnalysisCount m;
  lastAnalysisTimestamp := lastAnalysisTimestamp m |}.

Definition set_keystrokeCount (v : Z) (m : FileMetrics) : FileMetrics :=
  {| file := file m; language := language m; firstSeen := firstSeen m;
  lastActive := lastActive m; keystrokeCount := v; pasteCount :=
  pasteCount m; typingToTotalRatio := typingToTotalRatio m; linesAdded :=
  linesAdded m; linesDeleted := linesDeleted m; editCount := editCount m;
  averageEditSize := averageEditSize m; activeTimeMs := activeTimeMs m;
  idleTimeMs := idleTimeMs m; totalTimeMs := totalTimeMs m; switchToCount
  := switchToCount m; switchFromCount := switchFromCount m; openCount :=
  openCount m; codeAnalysisCount := codeAnalysisCount m;
  lastAnalysisTimestamp := lastAnalysisTimestamp m |}.

Definition set_pasteCount (v : Z) (m : FileMetrics) : FileMetrics :=
  {| file := file m; language := language m; firstSeen := firstSeen m;
  lastActive := lastActive m; keystrokeCount := keystrokeCount m;
  pasteCount := v; typingToTotalRatio := typingToTotalRatio m; linesAdded
  := linesAdded m; linesDeleted := linesDeleted m; editCount := editCount
  m; averageEditSize := averageEditSize m; activeTimeMs := activeTimeMs m;
  idleTimeMs := idleTimeMs m; totalTimeMs := totalTimeMs m; switchToCount
  := switchToCount m; switchFromCount := switchFromCount m; openCount :=
  openCount m; codeAnalysisCount := codeAnalysisCount m;
  lastAnalysisTimestamp := lastAnalysisTimestamp m |}.

Definition set_typingToTotalRatio (v : number) (m : FileMetrics) : FileMetrics :=
  {| file := file m; language := language m; firstSeen := firstSeen m;
  lastActive := lastActive m; keystrokeCount := keystrokeCount m;
  pasteCount := pasteCount m; typingToTotalRatio := v; linesAdded :=
  linesAdded m; linesDeleted := linesDeleted m; editCount := editCount m;
  averageEditSize := averageEditSize m; activeTimeMs := activeTimeMs m;
  idleTimeMs := idleTimeMs m; totalTimeMs := totalTimeMs m; switchToCount
  := switchToCount m; switchFromCount := switchFromCount m; openCount :=
  openCount m; codeAnalysisCount := codeAnalysisCount m;
  lastAnalysisTimestamp := lastAnalysisTimestamp m |}.

Definition set_linesAdded (v : Z) (m : FileMetrics) : FileMetrics :=
  {| file := file m; language := language m; firstSeen := firstSeen m;
  lastActive := lastActive m; keystrokeCount := keystrokeCount m;
  pasteCount := pasteCount m; typingToTotalRatio := typingToTotalRatio m;
  linesAdded := v; linesDeleted := linesDeleted m; editCount := editCount
  m; averageEditSize := averageEditSize m; activeTimeMs := activeTimeMs m;
  idleTimeMs := idleTimeMs m; totalTimeMs := totalTimeMs m; switchToCount
  := switchToCount m; switchFromCount := switchFromCount m; openCount :=
  openCount m; codeAnalysisCount := codeAnalysisCount m;
  lastAnalysisTimestamp := lastAnalysisTimestamp m |}.

Definition set_linesDeleted (v : Z) (m : FileMetrics) : FileMetrics :=
  {| file := file m; language := language m; firstSeen := firstSeen m;
  lastActive := lastActive m; keystrokeCount := keystrokeCount m;
  pasteCount := pasteCount m; typingToTotalRatio := typingToTotalRatio m;
  linesAdded := linesAdded m; linesDeleted := v; editCount := editCount m;
  averageEditSize := averageEditSize m; activeTimeMs := activeTimeMs m;
  idleTimeMs := idleTimeMs m; totalTimeMs := totalTimeMs m; switchToCount
  := switchToCount m; switchFromCount := switchFromCount m; openCount :=
  openCount m; codeAnalysisCount := codeAnalysisCount m;
  lastAnalysisTimestamp := lastAnalysisTimestamp m |}.

Definition set_editCount (v : Z) (m : FileMetrics) : FileMetrics :=
  {| file := file m; language := language m; firstSeen := firstSeen m;
  lastActive := lastActive m; keystrokeCount := keystrokeCount m;
  pasteCount := pasteCount m; typingToTotalRatio := typingToTotalRatio m;
  linesAdded := linesAdded m; linesDeleted := linesDeleted m; editCount :=
  v; averageEditSize := averageEditSize m; activeTimeMs := activeTimeMs m;
  idleTimeMs := idleTimeMs m; totalTimeMs := totalTimeMs m; switchToCount
  := switchToCount m; switchFromCount := switchFromCount m; openCount :=
  openCount m; codeAnalysisCount := codeAnalysisCount m;
  lastAnalysisTimestamp := lastAnalysisTimestamp m |}.

Definition set_activeTimeMs (v : Z) (m : FileMetrics) : FileMetrics :=
  {| file := file m; language := language m; firstSeen := firstSeen m;
  lastActive := lastActive m; keystrokeCount := keystrokeCount m;
  pasteCount := pasteCount m; typingToTotalRatio := typingToTotalRatio m;
  linesAdded := linesAdded m; linesDeleted := linesDeleted m; editCount :=
  editCount m; averageEditSize := averageEditSize m; activeTimeMs := v;
  idleTimeMs := idleTimeMs m; totalTimeMs := totalTimeMs m; switchToCount
  := switchToCount m; switchFromCount := switchFromCount m; openCount :=
  openCount m; codeAnalysisCount := codeAnalysisCount m;
  lastAnalysisTimestamp := lastAnalysisTimestamp m |}.

Definition set_totalTimeMs (v : Z) (m : FileMetrics) : FileMetrics :=
  {| file := file m; language := language m; firstSeen := firstSeen m;
  lastActive := lastActive m; keystrokeCount := keystrokeCount m;
  pasteCount := pasteCount m; typingToTotalRatio := typingToTotalRatio m;
  linesAdded := linesAdded m; linesDeleted := linesDeleted m; editCount :=
  editCount m; averageEditSize := averageEditSize m; activeTimeMs :=
  activeTimeMs m; idleTimeMs := idleTimeMs m; totalTimeMs := v;
  switchToCount := switchToCount m; switchFromCount := switchFromCount m;
  openCount := openCount m; codeAnalysisCount := codeAnalysisCount m;
  lastAnalysisTimestamp := lastAnalysisTimestamp m |}.

Definition set_totalPastes (v : Z) (s : TrackingSession) : TrackingSession :=
  {| id := id s; userId := userId s; startTime := startTime s; endTime :=
  endTime s; totalDuration := totalDuration s; activeDuration :=
  activeDuration s; idleDuration := idleDuration s; totalKeystrokes :=
  totalKeystrokes s; totalPastes := v; totalEdits := totalEdits s;
  filesEdited := filesEdited s; languagesUsed := languagesUsed s;
  codeAnalysesPerformed := codeAnalysesPerformed s; status := status s;
  uploadAttempts := uploadAttempts s; lastUploadAttempt :=
  lastUploadAttempt s |}.

Definition set_totalEdits (v : Z) (s : TrackingSession) : TrackingSession :=
  {| id := id s; userId := userId s; startTime := startTime s; endTime :=
  endTime s; totalDuration := totalDuration s; activeDuration :=
  activeDuration s; idleDuration := idleDuration s; totalKeystrokes :=
  totalKeystrokes s; totalPastes := totalPastes s; totalEdits := v;
  filesEdited := filesEdited s; languagesUsed := languagesUsed s;
  codeAnalysesPerformed := codeAnalysesPerformed s; status := status s;
  uploadAttempts := uploadAttempts s; lastUploadAttempt :=
  lastUploadAttempt s |}.

Definition set_filesEdited (v : list jsstring) (s : TrackingSession) : TrackingSession :=
  {| id := id s; userId := userId s; startTime := startTime s; endTime :=
  endTime s; totalDuration := totalDuration s; activeDuration :=
  activeDuration s; idleDuration := idleDuration s; totalKeystrokes :=
  totalKeystrokes s; totalPastes := totalPastes s; totalEdits :=
  totalEdits s; filesEdited := v; languagesUsed := languagesUsed s;
  codeAnalysesPerformed := codeAnalysesPerformed s; status := status s;
  uploadAttempts := uploadAttempts s; lastUploadAttempt :=
  lastUploadAttempt s |}.

Definition set_languagesUsed (v : list jsstring) (s : TrackingSession) : TrackingSession :=
  {| id := id s; userId := userId s; startTime := startTime s; endTime :=
  endTime s; totalDuration := totalDuration s; activeDuration :=
  activeDuration s; idleDuration := idleDuration s; totalKeystrokes :=
  totalKeystrokes s; totalPastes := totalPastes s; totalEdits :=
  totalEdits s; filesEdited := filesEdited s; languagesUsed := v;
  codeAnalysesPerformed := codeAnalysesPerformed s; status := status s;
  uploadAttempts := uploadAttempts s; lastUploadAttempt :=
  lastUploadAttempt s |}.

(** What the handler reads of a text document and of a content change. *)
Record TextDocument : Type := {
  uri_scheme : jsstring;
  uri_fsPath : jsstring;
  getText : jsstring
}.

Record ContentChange : Type := {
  text : jsstring;
  rangeLength : Z;
  range_start_line : Z;
  range_end_line : Z
}.

Record TextDocumentChangeEvent : Type := {
  document : TextDocument;
  contentChanges : list ContentChange
}.

(** The mutable fields of the service, with the number of clock readings
    and of identifiers drawn so far. *)
Record Service : Type := {
  running : bool;
  session : option TrackingSession;
  lastActivity : Z;
  svc_keystrokeCount : Z;
  events : list TrackingEvent;
  fileMetrics : gmap (list N) FileMetrics;
  currentFile : option jsstring;
  currentLanguage : option jsstring;
  lastTextChangeTime : Z;
  svc_userId : option jsstring;
  clockReads : nat;
  uuidReads : nat
}.

Definition set_session (v : option TrackingSession) (s : Service) : Service :=
  {| running := running s; session := v; lastActivity := lastActivity s;
  svc_keystrokeCount := svc_keystrokeCount s; events := events s;
  fileMetrics := fileMetrics s; currentFile := currentFile s;
  currentLanguage := currentLanguage s; lastTextChangeTime :=
  lastTextChangeTime s; svc_userId := svc_userId s; clockReads :=
  clockReads s; uuidReads := uuidReads s |}.

Definition set_lastActivity (v : Z) (s : Service) : Service :=
  {| running := running s; session := session s; lastActivity := v;
  svc_keystrokeCount := svc_keystrokeCount s; events := events s;
  fileMetrics := fileMetrics s; currentFile := currentFile s;
  currentLanguage := currentLanguage s; lastTextChangeTime :=
  lastTextChangeTime s; svc_userId := svc_userId s; clockReads :=
  clockReads s; uuidReads := uuidReads s |}.

Definition set_svc_keystrokeCount (v : Z) (s : Service) : Service :=
  {| running := running s; session := session s; lastActivity :=
  lastActivity s; svc_keystrokeCount := v; events := events s; fileMetrics
  := fileMetrics s; currentFile := currentFile s; currentLanguage :=
  currentLanguage s; lastTextChangeTime := lastTextChangeTime s;
  svc_userId := svc_userId s; clockReads := clockReads s; uuidReads :=
  uuidReads s |}.

Definition set_events (v : list TrackingEvent) (s : Service) : Service :=
  {| running := running s; session := session s; lastActivity :=
  lastActivity s; svc_keystrokeCount := svc_keystrokeCount s; events := v;
  fileMetrics := fileMetrics s; currentFile := currentFile s;
  currentLanguage := currentLanguage s; lastTextChangeTime :=
  lastTextChangeTime s; svc_userId := svc_userId s; clockReads :=
  clockReads s; uuidReads := uuidReads s |}.

Definition set_fileMetrics (v : gmap (list N) FileMetrics) (s : Service) : Service :=
  {| running := running s; session := session s; lastActivity :=
  lastActivity s; svc_keystrokeCount := svc_keystrokeCount s; events :=
  events s; fileMetrics := v; currentFile := currentFile s;
  currentLanguage := currentLanguage s; lastTextChangeTime :=
  lastTextChangeTime s; svc_userId := svc_userId s; clockReads :=
  clockReads s; uuidReads := uuidReads s |}.

Definition set_lastTextChangeTime (v : Z) (s : Service) : Service :=
  {| running := running s; session := session s; lastActivity :=
  lastActivity s; svc_keystrokeCount := svc_keystrokeCount s; events :=
  events s; fileMetrics := fileMetrics s; currentFile := currentFile s;
  currentLanguage := currentLanguage s; lastTextChangeTime := v;
  svc_userId := svc_userId s; clockReads := clockReads s; uuidReads :=
  uuidReads s |}.

Definition set_clockReads (v : nat) (s : Service) : Service :=
  {| running := running s; session := session s; lastActivity :=
  lastActivity s; svc_keystrokeCount := svc_keystrokeCount s; events :=
  events s; fileMetrics := fileMetrics s; currentFile := currentFile s;
  currentLanguage := currentLanguage s; lastTextChangeTime :=
  lastTextChangeTime s; svc_userId := svc_userId s; clockReads := v;
  uuidReads := uuidReads s |}.

Definition set_uuidReads (v : nat) (s : Service) : Service :=
  {| running := running s; session := session s; lastActivity :=
  lastActivity s; svc_keystrokeCount := svc_keystrokeCount s; events :=
  events s; fileMetrics := fileMetrics s; currentFile := currentFile s;
  currentLanguage := currentLanguage s; lastTextChangeTime :=
  lastTextChangeTime s; svc_userId := svc_userId s; clockReads :=
  clockReads s; uuidReads := v |}.

(** A method body: it changes the service and returns, or throws after
    the changes made so far. *)
Inductive outcome (A : Type) : Type :=
| Returned (a : A)
| Thrown.
Arguments Returned {A} a.
Arguments Thrown {A}.

Definition M (A : Type) : Type := Service -> outcome A * Service.

Definition ret {A} (a : A) : M A := fun s => (Returned a, s).

Definition bind {A B} (m : M A) (f : A -> M B) : M B :=
  fun s =>
    match m s with
    | (Returned a, s') => f a s'
    | (Thrown, s') => (Thrown, s')
    end.

Definition throw {A} : M A := fun s => (Thrown, s).
Definition get : M Service := fun s => (Returned s, s).
Definition modify (f : Service -> Service) : M unit :=
  fun s => (Returned tt, f s).

Notation "x <- m ;; k" := (bind m (fun x => k))
  (at level 100, m at level 99, right associativity).
Notation "m ;;; k" := (bind m (fun _ => k))
  (at level 100, right associativity).

Definition when (b : bool) (m : M unit) : M unit :=
  if b then m else ret tt.

Section Handler.

(** The collaborators of the handler: the wall clock ([Date.now()], by
    reading number), the identifier source ([generateUUID()], by draw
    number), the language detector and the configured idle threshold. *)
Variable clock : nat -> Z.
Variable uuid : nat -> jsstring.
Variable detectLanguage : jsstring -> jsstring.
Variable idleThresholdMs : Z.

(** [Date.now()] *)
Definition Date_now : M Z :=
  fun s => (Returned (clock (clockReads s)),
            set_clockReads (S (clockReads s)) s).

(** [generateUUID()] *)
Definition generateUUID : M jsstring :=
  fun s => (Returned (uuid (uuidReads s)),
            set_uuidReads (S (uuidReads s)) s).

(** [this.fileMetrics[file].f = ...]; a TypeError when the entry is
    missing. *)
Definition updateFile (f : jsstring) (g : FileMetrics -> FileMetrics)
  : M unit :=
  s <- get ;;
  match fileMetrics s !! f with
  | Some m => modify (set_fileMetrics (<[f := g m]> (fileMetrics s)))
  | None => throw
  end.

(** [this.session!.f = ...]; a TypeError when there is no session. *)
Definition updateSession (g : TrackingSession -> TrackingSession)
  : M unit :=
  s <- get ;;
  match session s with
  | Some x => modify (set_session (Some (g x)))
  | None => throw
  end.

(** [recordEvent(event)] *)
Definition recordEvent (timestamp : Z) (type : EventType)
    (detail : EventDetail) : M unit :=
  i <- generateUUID ;;
  modify (fun s =>
    set_events
      (events s ++
         [{| ev_id := i;
             ev_sessionId :=
               match session s with
               | Some x => id x
               | None => lit "unknown"
               end;
             ev_timestamp := timestamp;
             ev_type := type;
             ev_detail := detail;
             ev_userId := svc_userId s |}]) s).

(** [ensureFileMetrics(file, language)] *)
Definition ensureFileMetrics (f lang : jsstring) : M unit :=
  s <- get ;;
  match fileMetrics s !! f with
  | Some _ => ret tt
  | None =>
      t1 <- Date_now ;;
      t2 <- Date_now ;;
      modify (fun s => set_fileMetrics
        (<[f := {| file := f; language := lang;
                   firstSeen := t1; lastActive := t2;
                   keystrokeCount := 0; pasteCount := 0;
                   typingToTotalRatio := of_Z 0;
                   linesAdded := 0; linesDeleted := 0; editCount := 0;
                   averageEditSize := 0;
                   activeTimeMs := 0; idleTimeMs := 0; totalTimeMs := 0;
                   switchToCount := 0; switchFromCount := 0;
                   openCount := 0; codeAnalysisCount := 0;
                   lastAnalysisTimestamp := None |}]> (fileMetrics s)) s) ;;;
      modify (fun s =>
        match session s with
        | Some x =>
            let x1 := if member f (filesEdited x) then x
                      else set_filesEdited (filesEdited x ++ [f]) x in
            let x2 := if member lang (languagesUsed x1) then x1
                      else set_languagesUsed (languagesUsed x1 ++ [lang]) x1 in
            set_session (Some x2) s
        | None => s
        end)
  end.

(** [updateFileActiveTime(file, now)] *)
Definition updateFileActiveTime (f : jsstring) (now : Z) : M unit :=
  s <- get ;;
  match fileMetrics s !! f with
  | None => ret tt
  | Some m =>
      let elapsed := now - lastActive m in
      when (elapsed <? idleThresholdMs)
        (updateFile f (fun m => set_activeTimeMs (activeTimeMs m + elapsed) m)) ;;;
      updateFile f (set_lastActive now) ;;;
      updateFile f (fun m => set_totalTimeMs (totalTimeMs m + elapsed) m)
  end.

(** [markActivity()] *)
Definition markActivity : M unit :=
  now <- Date_now ;;
  s <- get ;;
  let wasIdle :=
    match List.last (List.map (fun e => Some (ev_type e)) (events s)) None with
    | Some t => EventType_eqb t IDLE_START
    | None => false
    end in
  modify (set_lastActivity now) ;;;
  when wasIdle (recordEvent now IDLE_END NoDetail).

(** [shouldTrackDocument(doc)] *)
Definition shouldTrackDocument (doc : TextDocument) : bool :=
  if negb (str_eqb (uri_scheme doc) (lit "file")) then false
  else if includes (lit "extension-output-") (uri_fsPath doc)
          || includes (lit "output-") (uri_fsPath doc)
          || includes (lit "[Extension Host]") (uri_fsPath doc)
  then false
  else if Z.of_nat (length (getText doc)) >? 10 * 1024 * 1024 then false
  else true.

(** The totals of the loop over [e.contentChanges]. *)
Definition totalAdded (cs : list ContentChange) : Z :=
  fold_left (fun acc c => acc + Z.of_nat (length (text c))) cs 0.
Definition totalDeleted (cs : list ContentChange) : Z :=
  fold_left (fun acc c => acc + rangeLength c) cs 0.
Definition changeLinesAdded (cs : list ContentChange) : Z :=
  fold_left (fun acc c => acc + countMatches (Chr 10) (text c)) cs 0.
Definition changeLinesDeleted (cs : list ContentChange) : Z :=
  fold_left (fun acc c => acc + (range_end_line c - range_start_line c))
    cs 0.

(** [handleTextChange(e)] *)
Definition handleTextChange (e : TextDocumentChangeEvent) : M unit :=
  if negb (shouldTrackDocument (document e)) then ret tt
  else
    let f := uri_fsPath (document e) in
    let lang := detectLanguage f in
    now <- Date_now ;;
    let added := totalAdded (contentChanges e) in
    let deleted := totalDeleted (contentChanges e) in
    let lAdded := changeLinesAdded (contentChanges e) in
    let lDeleted := changeLinesDeleted (contentChanges e) in
    if (added =? 0) && (deleted =? 0) then ret tt
    else
      s <- get ;;
      let timeSinceLastChange := now - lastTextChangeTime s in
      let isPaste := detectPaste added timeSinceLastChange lAdded in
      ensureFileMetrics f lang ;;;
      (if isPaste then
         updateFile f (fun m => set_pasteCount (pasteCount m + 1) m) ;;;
         updateSession (fun x => set_totalPastes (totalPastes x + 1) x) ;;;
         recordEvent now PASTE
           (OfPaste {| pd_file := f; pd_language := lang;
                       pd_charactersAdded := added;
                       pd_linesAdded := lAdded;
                       pd_estimatedSource :=
                         if added >? 200 then clipboard
                         else autocomplete |})
       else
         updateFile f
           (fun m => set_keystrokeCount (keystrokeCount m + added) m) ;;;
         modify (fun s =>
           set_svc_keystrokeCount (svc_keystrokeCount s + added) s) ;;;
         recordEvent now KEYSTROKE
           (OfKeystroke {| kd_file := f; kd_language := lang;
                           kd_charactersAdded := added;
                           kd_charactersDeleted := deleted;
                           kd_linesAdded := lAdded;
                           kd_linesDeleted := lDeleted;
                           kd_isTyping := true |})) ;;;
      updateFile f (fun m => set_editCount (editCount m + 1) m) ;;;
      updateFile f (fun m => set_linesAdded (linesAdded m + lAdded) m) ;;;
      updateFile f
        (fun m => set_linesDeleted (linesDeleted m + lDeleted) m) ;;;
      updateSession (fun x => set_totalEdits (totalEdits x + 1) x) ;;;
      updateFile f (fun m =>
        let total := keystrokeCount m + pasteCount m in
        set_typingToTotalRatio
          (if total >? 0
           then div (of_Z (keystrokeCount m)) (of_Z total)
           else of_Z 0) m) ;;;
      updateFileActiveTime f now ;;;
      modify (set_lastTextChangeTime now) ;;;
      markActivity.

End Handler.

End TrackingService.

(* ===================================================================== *)
(** ** CodeFeatureExtractor: pattern tables *)
(* ===================================================================== *)

Module Patterns.

Local Open Scope string_scope.

Definition ws : regex := Cls isSpace.                  (* \s *)
Definition wd : regex := Cls isWordChar.               (* \w *)
Definition L (s : string) : regex := Str (lit s).
Definition anyBut (c : N) : regex := Cls (fun x => negb (x =? c)%N).
Definition dot : regex := Cls (fun x => negb (isLineTerminator x)).

(** The keys that [getLanguageKey] can return. *)
Inductive LangKey : Type :=
| python | java | csharp | go | rust | ruby | html | css | shell
| default.

Record CommentPatterns : Type := {
  singleLine : list regex;
  blockStart : regex;
  blockEnd : regex;
  docstring : option regex
}.

Definition hashComment : regex := Seqs [Bol; Star ws; Chr 35].

(** [COMMENT_PATTERNS[langKey]]; [None] where the table has no entry. *)
Definition COMMENT_PATTERNS (k : LangKey) : option CommentPatterns :=
  match k with
  | default => Some
      {| singleLine := [Seqs [Bol; Star ws; L "//"]];
         blockStart := L "/*"; blockEnd := L "*/"; docstring := None |}
  | python => Some
      {| singleLine := [hashComment];
         blockStart := L "'''"; blockEnd := L "'''";
         docstring := Some (Seqs [Bol; Star ws; Chr 34; Chr 34; Chr 34]) |}
  | ruby => Some
      {| singleLine := [hashComment];
         blockStart := L "=begin"; blockEnd := L "=end";
         docstring := None |}
  | html => Some
      {| singleLine := [];
         blockStart := L "<!--"; blockEnd := L "-->"; docstring := None |}
  | css => Some
      {| singleLine := [];
         blockStart := L "/*"; blockEnd := L "*/"; docstring := None |}
  | shell => Some
      {| singleLine := [hashComment];
         blockStart := L ": '"; blockEnd := L "'"; docstring := None |}
  | java | csharp | go | rust => None
  end.

(** [table[langKey] || table.default] *)
Definition orDefault {A} (table : LangKey -> option A) (k : LangKey)
    (d : A) : A :=
  match table k with
  | Some x => x
  | None => match table default with Some x => x | None => d end
  end.

Definition commentPatternsFor (k : LangKey) : CommentPatterns :=
  orDefault COMMENT_PATTERNS k
    {| singleLine := []; blockStart := Eps; blockEnd := Eps;
       docstring := None |}.

Definition modifiers (l : list string) : regex := Opt (Alts (List.map L l)).

Definition FUNCTION_PATTERNS (k : LangKey) : option (list regex) :=
  match k with
  | default => Some
      [ Seqs [L "function"; Plus ws; Plus wd];
        Seqs [Plus wd; Star ws; Chr 61; Star ws; L "function"];
        Seqs [Plus wd; Star ws; Chr 61; Star ws; Chr 40;
              Star (anyBut 41); Chr 41; Star ws; L "=>"];
        Seqs [Plus wd; Star ws; Chr 58; Star ws; L "function"] ]
  | python => Some
      [ Seqs [Bol; Star ws; L "def"; Plus ws; Plus wd];
        Seqs [Bol; Star ws; L "async"; Plus ws; L "def"; Plus ws; Plus wd] ]
  | java => Some
      [ Seqs [WordB;
              modifiers ["public"; "private"; "protected"; "static"];
              Star ws;
              Alts [L "void"; L "int"; L "String"; L "boolean"; Plus wd];
              Plus ws; Plus wd; Star ws; Chr 40] ]
  | csharp => Some
      [ Seqs [WordB;
              modifiers ["public"; "private"; "protected"; "internal";
                         "static"];
              Star ws;
              Alts [L "void"; L "int"; L "string"; L "bool"; Plus wd];
              Plus ws; Plus wd; Star ws; Chr 40] ]
  | go => Some
      [ Seqs [Bol; Star ws; L "func"; Plus ws;
              Opt (Seqs [Chr 40; Plus (anyBut 41); Chr 41; Star ws]);
              Plus wd] ]
  | rust => Some
      [ Seqs [Bol; Star ws; Opt (Seq (L "pub") (Plus ws));
              L "fn"; Plus ws; Plus wd] ]
  | ruby => Some
      [ Seqs [Bol; Star ws; L "def"; Plus ws; Plus wd] ]
  | html | css | shell => None
  end.

Definition CLASS_PATTERNS (k : LangKey) : option (list regex) :=
  match k with
  | default => Some [ Seqs [WordB; L "class"; Plus ws; Plus wd] ]
  | python => Some [ Seqs [Bol; Star ws; L "class"; Plus ws; Plus wd] ]
  | java => Some
      [ Seqs [WordB; modifiers ["public"; "private"; "protected"];
              Star ws; L "class"; Plus ws; Plus wd];
        Seqs [WordB; L "interface"; Plus ws; Plus wd] ]
  | go => Some
      [ Seqs [Bol; Star ws; L "type"; Plus ws; Plus wd; Plus ws;
              L "struct"] ]
  | rust => Some
      [ Seqs [Bol; Star ws; Opt (Seq (L "pub") (Plus ws));
              L "struct"; Plus ws; Plus wd];
        Seqs [Bol; Star ws; Opt (Seq (L "pub") (Plus ws));
              L "enum"; Plus ws; Plus wd] ]
  | csharp | ruby | html | css | shell => None
  end.

Definition importLine : regex := Seqs [Bol; Star ws; L "import"; Plus ws].
Definition fromImportLine : regex :=
  Seqs [Bol; Star ws; L "from"; Plus ws; Plus dot; Plus ws; L "import"].

Definition IMPORT_PATTERNS (k : LangKey) : option (list regex) :=
  match k with
  | default => Some
      [ importLine; fromImportLine;
        Seqs [WordB; L "require"; Star ws; Chr 40] ]
  | python => Some [ importLine; fromImportLine ]
  | java => Some
      [ importLine; Seqs [Bol; Star ws; L "package"; Plus ws] ]
  | go => Some [ importLine ]
  | rust => Some
      [ Seqs [Bol; Star ws; L "use"; Plus ws];
        Seqs [Bol; Star ws; L "extern"; Plus ws; L "crate"] ]
  | csharp => Some [ Seqs [Bol; Star ws; L "using"; Plus ws] ]
  | ruby | html | css | shell => None
  end.

(** [CONTROL_FLOW_KEYWORDS] *)
Definition CONTROL_FLOW_KEYWORDS : list jsstring :=
  List.map lit
    [ "if"; "else"; "elif"; "for"; "while"; "switch"; "case";
      "try"; "catch"; "except"; "finally"; "with"; "match";
      "&&"; "||"; "?"; "??" ]%string.

(** The keyword list of [isKeyword]. *)
Definition commonKeywords : list jsstring :=
  List.map lit
    [ "if"; "else"; "for"; "while"; "do"; "switch"; "case"; "break";
      "continue"; "return"; "function"; "class"; "const"; "let"; "var";
      "import"; "export"; "from"; "try"; "catch"; "finally"; "throw";
      "new"; "this"; "super"; "public"; "private"; "protected"; "static";
      "void"; "int"; "string"; "boolean"; "true"; "false"; "null";
      "undefined"; "async"; "await"; "def"; "self"; "None"; "True";
      "False"; "and"; "or"; "not"; "in"; "fn"; "let"; "mut"; "pub";
      "impl"; "struct"; "enum"; "trait"; "func"; "package"; "type";
      "interface"; "map"; "range"; "defer" ]%string.

(** [getLanguageKey(language)] *)
Definition getLanguageKey (language : jsstring) : LangKey :=
  let langLower := toLowerCase language in
  let has (s : string) := includes (lit s) langLower in
  if has "python" then python
  else if has "java" && negb (has "javascript") then java
  else if has "c#" then csharp
  else if has "go" then go
  else if has "rust" then rust
  else if has "ruby" then ruby
  else if has "html" then html
  else if has "css" || has "scss" || has "sass" then css
  else if has "shell" || has "bash" then shell
  else default.

End Patterns.
Export Patterns.

(* ===================================================================== *)
(** ** CodeFeatureExtractor: the scanners *)
(* ===================================================================== *)

Module CodeFeatureExtractor.

Definition EXTRACTION_VERSION : jsstring := lit "1.0.0".

Definition count {A} (f : A -> bool) (l : list A) : Z :=
  Z.of_nat (length (List.filter f l)).

Definition sumZ (l : list Z) : Z := fold_left Z.add l 0.

Definition len {A} (l : list A) : Z := Z.of_nat (length l).

(** *** extractBasicMetrics *)

Record BasicMetrics : Type := {
  totalLines : Z;
  codeLines : Z;
  commentLines : Z;
  blankLines : Z
}.

(** The variables of the loop over the lines. *)
Record LineScan : Type := {
  blank : Z;
  comment : Z;
  inBlockComment : bool
}.

(** One turn of the loop. *)
Definition classifyLine (p : CommentPatterns) (st : LineScan)
    (line : jsstring) : LineScan :=
  let trimmed := trim line in
  if (len trimmed =? 0) then
    {| blank := blank st + 1; comment := comment st;
       inBlockComment := inBlockComment st |}
  else if inBlockComment st then
    {| blank := blank st; comment := comment st + 1;
       inBlockComment :=
         if test (blockEnd p) trimmed then false else inBlockComment st |}
  else if test (blockStart p) trimmed then
    {| blank := blank st; comment := comment st + 1;
       inBlockComment :=
         if negb (test (blockEnd p) (removeFirst (blockStart p) trimmed))
         then true else inBlockComment st |}
  else if existsb (fun r => test r trimmed) (singleLine p) then
    {| blank := blank st; comment := comment st + 1;
       inBlockComment := inBlockComment st |}
  else st.

Definition extractBasicMetrics (lines : list jsstring) (langKey : LangKey)
  : BasicMetrics :=
  let patterns := commentPatternsFor langKey in
  let st := fold_left (classifyLine patterns) lines
              {| blank := 0; comment := 0; inBlockComment := false |} in
  let totalLines := len lines in
  let codeLines := totalLines - blank st - comment st in
  {| totalLines := totalLines;
     codeLines := Z.max 0 codeLines;
     commentLines := comment st;
     blankLines := blank st |}.

(** *** extractStructuralMetrics *)

Inductive IndentationStyle : Type := spaces | tabs | mixed.

Record StructuralMetrics : Type := {
  averageLineLength : number;
  maxLineLength : Z;
  indentationConsistency : number;
  indentationStyle : IndentationStyle;
  indentationSize : number
}.

(** [Math.min(...l)]: infinity on the empty list. *)
Definition Math_min (l : list Z) : number :=
  fold_left (fun acc x => JsNumber.min acc (of_Z x)) l PosInf.

(** The variables of the loop over the indented lines. *)
Record IndentScan : Type := {
  tabCount : Z;
  spaceCount : Z;
  indentSizes : list Z
}.

Definition leadingSpace : regex := Seq Bol (Plus ws).        (* ^\s+ *)

Definition scanIndent (st : IndentScan) (line : jsstring) : IndentScan :=
  match match1 leadingSpace line with
  | Some indent =>
      if includes [9%N] indent then
        {| tabCount := tabCount st + 1; spaceCount := spaceCount st;
           indentSizes := indentSizes st |}
      else
        {| tabCount := tabCount st; spaceCount := spaceCount st + 1;
           indentSizes := indentSizes st ++ [len indent] |}
  | None => st
  end.

(** The loop over the indented lines. *)
Definition scanIndents (lines : list jsstring) : IndentScan :=
  let indentedLines :=
    List.filter (fun l => (len l >? 0) && test leadingSpace l) lines in
  fold_left scanIndent indentedLines
    {| tabCount := 0; spaceCount := 0; indentSizes := [] |}.

Definition extractStructuralMetrics (lines : list jsstring)
  : StructuralMetrics :=
  let lineLengths := List.map len lines in
  let avgLength :=
    if len lineLengths >? 0
    then div (of_Z (sumZ lineLengths)) (of_Z (len lineLengths))
    else of_Z 0 in
  let maxLength := fold_left Z.max lineLengths 0 in
  let st := scanIndents lines in
  let style :=
    if (tabCount st >? 0) && (spaceCount st >? 0) then mixed
    else if tabCount st >? spaceCount st then tabs
    else spaces in
  let size :=
    if len (indentSizes st) >? 0 then
      let minIndent :=
        Math_min (List.filter (fun s => s >? 0) (indentSizes st)) in
      if gtb minIndent (of_Z 0) then JsNumber.min minIndent (of_Z 8)
      else of_Z 2
    else of_Z 2 in
  let consistentIndents :=
    count (fun s => num_eqb (rem (of_Z s) size) (of_Z 0)) (indentSizes st) in
  let consistency :=
    if len (indentSizes st) >? 0
    then div (of_Z consistentIndents) (of_Z (len (indentSizes st)))
    else of_Z 1 in
  {| averageLineLength := round2 avgLength;
     maxLineLength := maxLength;
     indentationConsistency := round2 consistency;
     indentationStyle := style;
     indentationSize := size |}.

(** *** extractCommentMetrics *)

Record CommentMetrics : Type := {
  commentDensity : number;
  blockCommentCount : Z;
  inlineCommentCount : Z;
  docstringCount : Z
}.

Record CommentScan : Type := {
  blocks : Z;
  inlines : Z;
  docstrings : Z;
  inBlock : bool
}.

Definition scanComment (p : CommentPatterns) (st : CommentScan)
    (line : jsstring) : CommentScan :=
  let trimmed := trim line in
  if inBlock st then
    {| blocks := blocks st; inlines := inlines st;
       docstrings := docstrings st;
       inBlock := if test (blockEnd p) trimmed then false else inBlock st |}
  else if match docstring p with
          | Some d => test d trimmed
          | None => false
          end then
    {| blocks := blocks st; inlines := inlines st;
       docstrings := docstrings st + 1; inBlock := inBlock st |}
  else if test (blockStart p) trimmed then
    {| blocks := blocks st + 1; inlines := inlines st;
       docstrings := docstrings st;
       inBlock :=
         if negb (test (blockEnd p) (removeFirst (blockStart p) trimmed))
         then true else inBlock st |}
  else if existsb (fun r => test r trimmed) (singleLine p) then
    {| blocks := blocks st; inlines := inlines st + 1;
       docstrings := docstrings st; inBlock := inBlock st |}
  else st.

Definition extractCommentMetrics (lines : list jsstring)
    (langKey : LangKey) (codeLines : Z) : CommentMetrics :=
  let patterns := commentPatternsFor langKey in
  let st := fold_left (scanComment patterns) lines
              {| blocks := 0; inlines := 0; docstrings := 0;
                 inBlock := false |} in
  let totalComments := blocks st + inlines st + docstrings st in
  let density :=
    if codeLines >? 0 then div (of_Z totalComments) (of_Z codeLines)
    else of_Z 0 in
  {| commentDensity := round2 density;
     blockCommentCount := blocks st;
     inlineCommentCount := inlines st;
     docstringCount := docstrings st |}.

(** *** extractCodeStructure *)

Record CodeStructure : Type := {
  functionCount : Z;
  classCount : Z;
  importCount : Z
}.

Definition someMatch (ps : list regex) (line : jsstring) : bool :=
  existsb (fun p => test p line) ps.

Definition extractCodeStructure (lines : list jsstring) (langKey : LangKey)
  : CodeStructure :=
  let functionPatterns := orDefault FUNCTION_PATTERNS langKey [] in
  let classPatterns := orDefault CLASS_PATTERNS langKey [] in
  let importPatterns := orDefault IMPORT_PATTERNS langKey [] in
  {| functionCount := count (someMatch functionPatterns) lines;
     classCount := count (someMatch classPatterns) lines;
     importCount := count (someMatch importPatterns) lines |}.

(** *** extractComplexityMetrics *)

Record ComplexityMetrics : Type := {
  cyclomaticComplexity : Z;
  nestingDepth : Z
}.

(** The pattern built for one keyword:
    [new RegExp(`\\${keyword}`, 'g')] when [keyword.length <= 2],
    [new RegExp(`\\b${keyword}\\b`, 'g')] otherwise. *)
Definition keywordRegex (keyword : jsstring) : option regex :=
  if len keyword <=? 2
  then RegExp_new ([92%N] ++ keyword)
  else RegExp_new ([92%N; 98%N] ++ keyword ++ [92%N; 98%N]).

(** The inner loop over the keywords: what one line adds to the
    complexity; [None] when a pattern cannot be built. *)
Fixpoint keywordMatches (keywords : list jsstring) (trimmed : jsstring)
  : option Z :=
  match keywords with
  | [] => Some 0
  | keyword :: more =>
      match keywordRegex keyword with
      | None => None
      | Some regex =>
          match keywordMatches more trimmed with
          | None => None
          | Some n => Some (countMatches regex trimmed + n)
          end
      end
  end.

Record ComplexityScan : Type := {
  complexity : Z;
  maxNesting : Z;
  currentNesting : Z
}.

Definition scanComplexity (st : option ComplexityScan) (line : jsstring)
  : option ComplexityScan :=
  match st with
  | None => None
  | Some st =>
      let trimmed := trim line in
      match keywordMatches CONTROL_FLOW_KEYWORDS trimmed with
      | None => None
      | Some n =>
          let openBraces := countMatches (Chr 123) trimmed in
          let closeBraces := countMatches (Chr 125) trimmed in
          let nesting := currentNesting st + (openBraces - closeBraces) in
          Some {| complexity := complexity st + n;
                  maxNesting := Z.max (maxNesting st) nesting;
                  currentNesting := nesting |}
      end
  end.

(** [None]: an exception. *)
Definition extractComplexityMetrics (lines : list jsstring)
  : option ComplexityMetrics :=
  match fold_left scanComplexity lines
          (Some {| complexity := 1; maxNesting := 0;
                   currentNesting := 0 |}) with
  | Some st => Some {| cyclomaticComplexity := complexity st;
                       nestingDepth := maxNesting st |}
  | None => None
  end.

(** *** extractNamingMetrics *)

Record NamingMetrics : Type := {
  averageVariableNameLength : number;
  camelCaseRatio : number;
  snake_caseRatio : number;
  singleCharVarCount : Z
}.

(** [isKeyword(word, langKey)] *)
Definition isKeyword (word : jsstring) (langKey : LangKey) : bool :=
  member (toLowerCase word) commonKeywords || member word commonKeywords.

Definition identifierPattern : regex :=
  Seqs [WordB; Cls (fun c => isLetter c || (c =? 95)%N); Star wd; WordB].
Definition singleCharPattern : regex := Seqs [WordB; Cls isLetter; WordB].
Definition camelPattern : regex := Seq (Cls isLower) (Cls isUpper).
Definition snakePattern : regex :=
  Seqs [Cls isLower; Chr 95; Cls isLower].

(** The loop over the matches of [identifierPattern]. *)
Definition identifiersOf (code : jsstring) (langKey : LangKey)
  : list jsstring :=
  List.filter (fun name => (len name >? 1) && negb (isKeyword name langKey))
    (matchAll identifierPattern code).

Definition extractNamingMetrics (code : jsstring) (langKey : LangKey)
  : NamingMetrics :=
  let identifiers := identifiersOf code langKey in
  if len identifiers =? 0 then
    {| averageVariableNameLength := of_Z 0; camelCaseRatio := of_Z 0;
       snake_caseRatio := of_Z 0; singleCharVarCount := 0 |}
  else
    let totalLength := sumZ (List.map len identifiers) in
    let avgLength := div (of_Z totalLength) (of_Z (len identifiers)) in
    let singleCharCount :=
      count (fun name => negb (isKeyword name langKey))
        (matchAll singleCharPattern code) in
    let camelCaseCount := count (test camelPattern) identifiers in
    let snakeCaseCount := count (test snakePattern) identifiers in
    {| averageVariableNameLength := round2 avgLength;
       camelCaseRatio :=
         round2 (div (of_Z camelCaseCount) (of_Z (len identifiers)));
       snake_caseRatio :=
         round2 (div (of_Z snakeCaseCount) (of_Z (len identifiers)));
       singleCharVarCount := singleCharCount |}.

(** *** extractQualityMetrics *)

Record QualityMetrics : Type := {
  duplicateLineRatio : number;
  longLineRatio : number;
  emptyBlockCount : Z
}.

(** The object [lineCount], created as [{}] and indexed by arbitrary line
    text.  A property holds a count, or the text that results from adding
    1 to a member inherited from [Object.prototype] (or to such a text). *)
Inductive tally : Type :=
| Tally (n : Z)
| Text.

Definition objectPrototypeMembers : list jsstring :=
  List.map lit
    [ "constructor"; "hasOwnProperty"; "isPrototypeOf";
      "propertyIsEnumerable"; "toLocaleString"; "toString"; "valueOf";
      "__defineGetter__"; "__defineSetter__"; "__lookupGetter__";
      "__lookupSetter__" ]%string.

Fixpoint getOwn (o : list (jsstring * tally)) (k : jsstring)
  : option tally :=
  match o with
  | [] => None
  | (k', v) :: more => if str_eqb k k' then Some v else getOwn more k
  end.

Fixpoint setOwn (o : list (jsstring * tally)) (k : jsstring) (v : tally)
  : list (jsstring * tally) :=
  match o with
  | [] => [(k, v)]
  | (k', v') :: more =>
      if str_eqb k k' then (k', v) :: more else (k', v') :: setOwn more k v
  end.

(** [o[k] = (o[k] || 0) + 1].  The accessor [__proto__] ignores the text
    assigned to it. *)
Definition increment (o : list (jsstring * tally)) (k : jsstring)
  : list (jsstring * tally) :=
  match getOwn o k with
  | Some (Tally n) => setOwn o k (Tally ((if n =? 0 then 0 else n) + 1))
  | Some Text => setOwn o k Text
  | None =>
      if str_eqb k (lit "__proto__") then o
      else if member k objectPrototypeMembers then setOwn o k Text
      else setOwn o k (Tally 1)
  end.

(** The loop over [Object.values(lineCount)]: a text is not greater
    than 1. *)
Definition duplicates (o : list (jsstring * tally)) : Z :=
  fold_left
    (fun acc kv =>
       match snd kv with
       | Tally n => if n >? 1 then acc + (n - 1) else acc
       | Text => acc
       end) o 0.

Definition emptyBraces : regex := Seqs [Chr 123; Star ws; Chr 125].
Definition passStatement : regex :=
  Seqs [BolM; Star ws; L "pass"; Star ws; EolM].

Definition normalizedLinesOf (lines : list jsstring) : list jsstring :=
  List.filter (fun l => len l >? 0) (List.map trim lines).

Definition extractQualityMetrics (lines : list jsstring) : QualityMetrics :=
  let normalizedLines := normalizedLinesOf lines in
  let lineCount := fold_left increment normalizedLines [] in
  let duplicateCount := duplicates lineCount in
  let duplicateLineRatio :=
    if len normalizedLines >? 0
    then div (of_Z duplicateCount) (of_Z (len normalizedLines))
    else of_Z 0 in
  let longLines := count (fun l => len l >? 100) lines in
  let longLineRatio :=
    if len lines >? 0 then div (of_Z longLines) (of_Z (len lines))
    else of_Z 0 in
  let fullCode := join [10%N] lines in
  let emptyBlockCount :=
    countMatches emptyBraces fullCode
    + countMatches passStatement fullCode in
  {| duplicateLineRatio := round2 duplicateLineRatio;
     longLineRatio := round2 longLineRatio;
     emptyBlockCount := emptyBlockCount |}.

(** *** extractTemporalMetrics *)

Record TemporalMetrics : Type := {
  typingSpeed : number;
  editFrequency : number;
  pasteRatio : number
}.

Definition extractTemporalMetrics (trackingMetrics : option FileMetrics)
  : TemporalMetrics :=
  match trackingMetrics with
  | None =>
      {| typingSpeed := of_Z 0; editFrequency := of_Z 0;
         pasteRatio := of_Z 0 |}
  | Some t =>
      let activeTimeSeconds := div (of_Z (activeTimeMs t)) (of_Z 1000) in
      let typingSpeed :=
        if gtb activeTimeSeconds (of_Z 0)
        then div (of_Z (keystrokeCount t)) activeTimeSeconds
        else of_Z 0 in
      let activeTimeMinutes := div (of_Z (activeTimeMs t)) (of_Z 60000) in
      let editFrequency :=
        if gtb activeTimeMinutes (of_Z 0)
        then div (of_Z (editCount t)) activeTimeMinutes
        else of_Z 0 in
      let totalInputs := keystrokeCount t + pasteCount t in
      let pasteRatio :=
        if totalInputs >? 0
        then div (of_Z (pasteCount t)) (of_Z totalInputs)
        else of_Z 0 in
      {| typingSpeed := round2 typingSpeed;
         editFrequency := round2 editFrequency;
         pasteRatio := round2 pasteRatio |}
  end.

(** *** extract *)

Record CodeFeatures : Type := {
  basic : BasicMetrics;
  structural : StructuralMetrics;
  comments : CommentMetrics;
  structure : CodeStructure;
  complexityMetrics : ComplexityMetrics;
  naming : NamingMetrics;
  quality : QualityMetrics;
  temporal : TemporalMetrics;
  cf_language : jsstring;
  fileExtension : jsstring;
  extractionTimestamp : Z;
  extractionVersion : jsstring
}.

Section Extract.

(** [LanguageDetector.detectLanguage] and [LanguageDetector.getExtension]
    are collaborators; [now] is the reading of [Date.now()]. *)
Variable detectLanguage : jsstring -> jsstring.
Variable getExtension : jsstring -> jsstring.

(** [extract(code, filePath, trackingMetrics?)]; the record groups the
    fields that the source spreads into one object.  [None]: an
    exception. *)
Definition extract (code filePath : jsstring)
    (trackingMetrics : option FileMetrics) (now : Z)
  : option CodeFeatures :=
  let language := detectLanguage filePath in
  let extension := getExtension filePath in
  let lines := JsString.split 10 code in
  let langKey := getLanguageKey language in
  let basicMetrics := extractBasicMetrics lines langKey in
  let structuralMetrics := extractStructuralMetrics lines in
  let commentMetrics :=
    extractCommentMetrics lines langKey (codeLines basicMetrics) in
  let codeStructure := extractCodeStructure lines langKey in
  match extractComplexityMetrics lines with
  | None => None
  | Some complexityMetrics =>
      let namingMetrics := extractNamingMetrics code langKey in
      let qualityMetrics := extractQualityMetrics lines in
      let temporalMetrics := extractTemporalMetrics trackingMetrics in
      Some {| basic := basicMetrics;
              structural := structuralMetrics;
              comments := commentMetrics;
              structure := codeStructure;
              complexityMetrics := complexityMetrics;
              naming := namingMetrics;
              quality := qualityMetrics;
              temporal := temporalMetrics;
              cf_language := language;
              fileExtension := extension;
              extractionTimestamp := now;
              extractionVersion := EXTRACTION_VERSION |}
  end.

End Extract.

(** The fields of a feature record that come out of a division. *)
Definition ratioFields (f : CodeFeatures) : list number :=
  [ averageLineLength (structural f);
    indentationConsistency (structural f);
    indentationSize (structural f);
    commentDensity (comments f);
    averageVariableNameLength (naming f);
    camelCaseRatio (naming f);
    snake_caseRatio (naming f);
    duplicateLineRatio (quality f);
    longLineRatio (quality f);
    typingSpeed (temporal f);
    editFrequency (temporal f);
    pasteRatio (temporal f) ].

(** [shouldAnalyze(filePath, codeLength)], given [LanguageDetector.isCodeFile]. *)
Definition shouldAnalyze (isCodeFile : jsstring -> bool)
    (filePath : jsstring) (codeLength : Z) : bool :=
  if negb (isCodeFile filePath) then false
  else if codeLength <? 100 then false
  else if codeLength >? 1024 * 1024 then false
  else true.

End CodeFeatureExtractor.

(* ===================================================================== *)
(** ** SkillAnalysisService *)
(* ===================================================================== *)

Module SkillAnalysisService.

Import CodeFeatureExtractor.

(** *** types/skill.types.ts.  The display text [description] of a score
    and the date [analyzedAt] of a profile are left out. *)

Inductive SkillLevel : Type := BEGINNER | INTERMEDIATE | ADVANCED | EXPERT.

Inductive SkillCategory : Type :=
| CODING_PROFICIENCY
| PROBLEM_SOLVING
| FOCUS_CONSISTENCY
| CODE_QUALITY
| LANGUAGE_VERSATILITY.

Record SkillScore : Type := {
  category : SkillCategory;
  score : number;
  level : SkillLevel
}.

Record SkillProfile : Type := {
  overallScore : number;
  overallLevel : SkillLevel;
  categoryScores : list SkillScore;
  strengths : list jsstring;
  weaknesses : list jsstring
}.

Inductive Priority : Type := high | medium | low.

Inductive ResourceType : Type :=
| article | video | course | documentation | practice.

Record LearningResource : Type := {
  title : jsstring;
  type : ResourceType;
  url : jsstring;
  description : jsstring
}.

Record Recommendation : Type := {
  rec_category : SkillCategory;
  priority : Priority;
  issue : jsstring;
  suggestion : jsstring;
  learningResources : list LearningResource
}.

Record BehavioralMetrics : Type := {
  bm_typingToTotalRatio : number;
  bm_averageTypingSpeed : number;
  bm_keystrokeCount : Z;
  bm_pasteCount : Z;
  bm_editCount : Z;
  bm_linesAdded : Z;
  bm_linesDeleted : Z;
  bm_backspaceRatio : number;
  bm_activeTimeMs : Z;
  bm_idleTimeMs : Z;
  bm_focusRatio : number;
  bm_languages : list jsstring;
  bm_primaryLanguage : jsstring;
  bm_languageDistribution : list (jsstring * number);
  bm_fileCount : Z;
  bm_averageFileActiveTime : number;
  bm_fileSwitchCount : Z
}.

Record SkillAnalysisResult : Type := {
  profile : SkillProfile;
  recommendations : list Recommendation;
  sessionId : jsstring;
  totalActiveTime : Z;
  totalKeystrokes : Z;
  totalPastes : Z
}.

(** *** extractBehavioralMetrics *)

(** The object [languageDistribution] while it holds counts: its
    properties in creation order, which is the order of [Object.keys] for
    the language names of the detector's table. *)
Fixpoint countOf (d : list (jsstring * Z)) (k : jsstring) : option Z :=
  match d with
  | [] => None
  | (k', n) :: more => if str_eqb k k' then Some n else countOf more k
  end.

Fixpoint setCount (d : list (jsstring * Z)) (k : jsstring) (n : Z)
  : list (jsstring * Z) :=
  match d with
  | [] => [(k, n)]
  | (k', n') :: more =>
      if str_eqb k k' then (k', n) :: more else (k', n') :: setCount more k n
  end.

(** [d[lang] = (d[lang] || 0) + 1] *)
Definition countLanguage (d : list (jsstring * Z)) (f : FileMetrics)
  : list (jsstring * Z) :=
  let old := match countOf d (language f) with
             | Some n => if n =? 0 then 0 else n
             | None => 0
             end in
  setCount d (language f) (old + 1).

(** [d[a] > d[b]]; a comparison with [undefined] is false. *)
Definition countGreater (d : list (jsstring * Z)) (a b : jsstring) : bool :=
  match countOf d a, countOf d b with
  | Some x, Some y => x >? y
  | _, _ => false
  end.

(** [languages.reduce((a, b) => d[a] > d[b] ? a : b,
                      languages[0] || 'unknown')] *)
Definition pickPrimary (d : list (jsstring * Z)) (languages : list jsstring)
  : jsstring :=
  fold_left (fun a b => if countGreater d a b then a else b) languages
    match languages with
    | first :: _ => if len first =? 0 then lit "unknown" else first
    | [] => lit "unknown"
    end.

(** [files] stands for [Object.values(fileMetrics)]. *)
Definition extractBehavioralMetrics (files : list FileMetrics)
    (totalActiveTime totalIdleTime : Z) : BehavioralMetrics :=
  let keystrokeCount := fold_left (fun sum f => sum + keystrokeCount f) files 0 in
  let pasteCount := fold_left (fun sum f => sum + pasteCount f) files 0 in
  let linesAdded := fold_left (fun sum f => sum + linesAdded f) files 0 in
  let linesDeleted := fold_left (fun sum f => sum + linesDeleted f) files 0 in
  let editCount := fold_left (fun sum f => sum + editCount f) files 0 in
  let totalInput := keystrokeCount + pasteCount in
  let typingToTotalRatio :=
    if totalInput >? 0 then div (of_Z keystrokeCount) (of_Z totalInput)
    else of_Z 0 in
  let backspaceRatio :=
    if linesAdded >? 0 then div (of_Z linesDeleted) (of_Z linesAdded)
    else of_Z 0 in
  let focusRatio :=
    if totalActiveTime + totalIdleTime >? 0
    then div (of_Z totalActiveTime) (of_Z (totalActiveTime + totalIdleTime))
    else of_Z 0 in
  let languageDistribution := fold_left countLanguage files [] in
  let languages := List.map fst languageDistribution in
  let primaryLanguage := pickPrimary languageDistribution languages in
  let totalFiles := len files in
  let percentages :=
    List.map (fun kv =>
           (fst kv,
            mul (div (of_Z (snd kv)) (of_Z totalFiles)) (of_Z 100)))
      languageDistribution in
  let activeMinutes := div (of_Z totalActiveTime) (of_Z 60000) in
  let averageTypingSpeed :=
    if gtb activeMinutes (of_Z 0)
    then div (of_Z keystrokeCount) activeMinutes
    else of_Z 0 in
  let fileSwitchCount :=
    fold_left (fun sum f => sum + switchToCount f + switchFromCount f)
      files 0 in
  let averageFileActiveTime :=
    if totalFiles >? 0
    then div (of_Z (fold_left (fun sum f => sum + activeTimeMs f) files 0))
             (of_Z totalFiles)
    else of_Z 0 in
  {| bm_typingToTotalRatio := typingToTotalRatio;
     bm_averageTypingSpeed := averageTypingSpeed;
     bm_keystrokeCount := keystrokeCount;
     bm_pasteCount := pasteCount;
     bm_editCount := editCount;
     bm_linesAdded := linesAdded;
     bm_linesDeleted := linesDeleted;
     bm_backspaceRatio := backspaceRatio;
     bm_activeTimeMs := totalActiveTime;
     bm_idleTimeMs := totalIdleTime;
     bm_focusRatio := focusRatio;
     bm_languages := languages;
     bm_primaryLanguage := primaryLanguage;
     bm_languageDistribution := percentages;
     bm_fileCount := totalFiles;
     bm_averageFileActiveTime := averageFileActiveTime;
     bm_fileSwitchCount := fileSwitchCount |}.

(** *** calculateCategoryScores *)

(** [scoreToLevel(score)] *)
Definition scoreToLevel (score : number) : SkillLevel :=
  if geb score (of_Z 80) then EXPERT
  else if geb score (of_Z 60) then ADVANCED
  else if geb score (of_Z 40) then INTERMEDIATE
  else BEGINNER.

Definition scored (c : SkillCategory) (s : number) : SkillScore :=
  {| category := c; score := s; level := scoreToLevel s |}.

Definition calculateCategoryScores (metrics : BehavioralMetrics)
  : list SkillScore :=
  let codingScore := round (mul (bm_typingToTotalRatio metrics) (of_Z 100)) in
  let activeMinutes := div (of_Z (bm_activeTimeMs metrics)) (of_Z 60000) in
  let editsPerMinute :=
    if gtb activeMinutes (of_Z 0)
    then div (of_Z (bm_editCount metrics)) activeMinutes
    else of_Z 0 in
  let problemSolvingScore :=
    JsNumber.max (of_Z 0)
      (round (sub (of_Z 100) (mul editsPerMinute (of_Z 10)))) in
  let focusScore := round (mul (bm_focusRatio metrics) (of_Z 100)) in
  let qualityScore :=
    JsNumber.max (of_Z 0)
      (round (mul (sub (of_Z 1) (bm_backspaceRatio metrics)) (of_Z 100))) in
  let versatilityScore :=
    JsNumber.min (of_Z 100)
      (mul (of_Z (len (bm_languages metrics))) (of_Z 20)) in
  [ scored CODING_PROFICIENCY codingScore;
    scored PROBLEM_SOLVING problemSolvingScore;
    scored FOCUS_CONSISTENCY focusScore;
    scored CODE_QUALITY qualityScore;
    scored LANGUAGE_VERSATILITY versatilityScore ].

(** *** Array.prototype.sort

    [[...l].sort(compare)]: the sort is stable; [x] goes before the first
    element that does not compare strictly below it.  (For a comparator
    that is no ordering, as NaN scores would make it, the language leaves
    the order open.) *)
Definition negative (x : number) : bool := ltb x (of_Z 0).

Fixpoint insertSorted {A} (compare : A -> A -> number) (x : A) (l : list A)
  : list A :=
  match l with
  | [] => [x]
  | y :: more =>
      if negative (compare y x) then y :: insertSorted compare x more
      else x :: y :: more
  end.

Definition sort {A} (compare : A -> A -> number) (l : list A) : list A :=
  fold_right (insertSorted compare) [] l.

(** *** buildSkillProfile *)

(** [categoryToString(category)] *)
Definition categoryToString (c : SkillCategory) : jsstring :=
  match c with
  | CODING_PROFICIENCY => lit "Coding Proficiency"
  | PROBLEM_SOLVING => lit "Problem Solving"
  | FOCUS_CONSISTENCY => lit "Focus & Consistency"
  | CODE_QUALITY => lit "Code Quality"
  | LANGUAGE_VERSATILITY => lit "Language Versatility"
  end.

Definition buildSkillProfile (categoryScores : list SkillScore)
  : SkillProfile :=
  let overallScore :=
    round (div (fold_left (fun sum s => add sum (score s)) categoryScores
                  (of_Z 0))
               (of_Z (len categoryScores))) in
  let sorted := sort (fun a b => sub (score b) (score a)) categoryScores in
  let strengths :=
    List.map (fun s => categoryToString (category s)) (firstn 2 sorted) in
  let weaknesses :=
    List.map (fun s => categoryToString (category s))
      (skipn (length sorted - 2) sorted) in
  {| overallScore := overallScore;
     overallLevel := scoreToLevel overallScore;
     categoryScores := categoryScores;
     strengths := strengths;
     weaknesses := weaknesses |}.

(** *** generateRecommendations *)

Definition resource (t : string) (k : ResourceType) (u d : string)
  : LearningResource :=
  {| title := lit t; type := k; url := lit u; description := lit d |}.

Definition advice (c : SkillCategory) (p : Priority) (i s : string)
    (r : list LearningResource) : Recommendation :=
  {| rec_category := c; priority := p; issue := lit i;
     suggestion := lit s; learningResources := r |}.

(** [index === 0 ? 'high' : index === 1 ? 'medium' : 'low'] *)
Definition priorityOf (index : nat) : Priority :=
  if (index =? 0)%nat then high
  else if (index =? 1)%nat then medium
  else low.

(** The body of the [forEach] callback: what the element at [index] of
    the sorted scores pushes onto [recommendations]. *)
Definition recommend (metrics : BehavioralMetrics) (scoreData : SkillScore)
    (index : nat) : list Recommendation :=
  if geb (score scoreData) (of_Z 70) then []
  else
    let priority := priorityOf index in
    match category scoreData with
    | CODING_PROFICIENCY =>
        if ltb (bm_typingToTotalRatio metrics) (Fin (1 # 2)) then
          [ advice CODING_PROFICIENCY priority
              "High paste-to-typing ratio indicates over-reliance on external code"
              "Practice writing code from scratch. Start with small algorithms and gradually increase complexity."
              [ resource "LeetCode - Easy Problems" practice
                  "https://leetcode.com/problemset/all/?difficulty=EASY"
                  "Practice coding fundamentals with guided problems";
                resource "The Odin Project - Foundations" course
                  "https://www.theodinproject.com/paths/foundations/courses/foundations"
                  "Build coding proficiency from the ground up" ] ]
        else []
    | PROBLEM_SOLVING =>
        [ advice PROBLEM_SOLVING priority
            "High edit frequency suggests trial-and-error approach"
            "Plan before coding. Break problems into smaller steps. Practice pseudocode and flowcharts."
            [ resource "Problem-Solving Techniques" article
                "https://www.freecodecamp.org/news/how-to-think-like-a-programmer-lessons-in-problem-solving-d1d8bf1de7d2/"
                "Learn systematic problem-solving approaches";
              resource "Algorithmic Thinking" course
                "https://www.coursera.org/learn/algorithmic-thinking-1"
                "Develop structured thinking for complex problems" ] ]
    | FOCUS_CONSISTENCY =>
        [ advice FOCUS_CONSISTENCY priority
            "High idle time indicates focus or workflow issues"
            "Use Pomodoro technique (25-min focus sessions). Minimize context switching. Set clear goals before starting."
            [ resource "Deep Work Principles" article
                "https://blog.doist.com/deep-work/"
                "Strategies for maintaining focus while coding";
              resource "Pomodoro Timer" practice
                "https://pomofocus.io/"
                "Time management technique for better focus" ] ]
    | CODE_QUALITY =>
        [ advice CODE_QUALITY priority
            "High delete-to-add ratio suggests frequent corrections"
            "Review code standards for your language. Use linters (ESLint, Pylint). Write tests first (TDD)."
            [ resource "Clean Code Principles" article
                "https://github.com/ryanmcdermott/clean-code-javascript"
                "Best practices for writing maintainable code";
              resource "Test-Driven Development" video
                "https://www.youtube.com/watch?v=Jv2uxzhPFl4"
                "Write tests first to catch errors early" ] ]
    | LANGUAGE_VERSATILITY =>
        [ advice LANGUAGE_VERSATILITY priority
            "Limited language exposure may restrict career opportunities"
            "Learn a second language in a different paradigm (e.g., if you know JavaScript, try Python or Go)."
            [ resource "Python for Beginners" course
                "https://www.python.org/about/gettingstarted/"
                "Official Python tutorial for new learners";
              resource "Go by Example" documentation
                "https://gobyexample.com/"
                "Hands-on introduction to Go programming" ] ]
    end.

(** [sorted.forEach((scoreData, index) => ...)], from [index] on. *)
Fixpoint forEachFrom (metrics : BehavioralMetrics) (index : nat)
    (sorted : list SkillScore) : list Recommendation :=
  match sorted with
  | [] => []
  | scoreData :: more =>
      recommend metrics scoreData index
      ++ forEachFrom metrics (S index) more
  end.

Definition generateRecommendations (categoryScores : list SkillScore)
    (metrics : BehavioralMetrics) : list Recommendation :=
  let sorted := sort (fun a b => sub (score a) (score b)) categoryScores in
  forEachFrom metrics 0 sorted.

(** *** analyzeSkill *)

Definition analyzeSkill (files : list FileMetrics) (sessionId : jsstring)
    (totalActiveTime totalIdleTime : Z) : SkillAnalysisResult :=
  let metrics :=
    extractBehavioralMetrics files totalActiveTime totalIdleTime in
  let categoryScores := calculateCategoryScores metrics in
  let profile := buildSkillProfile categoryScores in
  let recommendations := generateRecommendations categoryScores metrics in
  {| profile := profile;
     recommendations := recommendations;
     sessionId := sessionId;
     totalActiveTime := bm_activeTimeMs metrics;
     totalKeystrokes := bm_keystrokeCount metrics;
     totalPastes := bm_pasteCount metrics |}.

End SkillAnalysisService.

(* ===================================================================== *)
(** ** LanguageDetector (utils/languageDetector.ts) *)
(* ===================================================================== *)

Module LanguageDetector.

Local Open Scope string_scope.

(** [EXTENSION_MAP], in the order of the source. *)
Definition EXTENSION_MAP : list (jsstring * jsstring) :=
  List.map (fun kv => (lit (fst kv), lit (snd kv)))
    [ (".js", "JavaScript"); (".jsx", "JavaScript React");
      (".ts", "TypeScript"); (".tsx", "TypeScript React");
      (".mjs", "JavaScript"); (".cjs", "JavaScript");
      (".py", "Python"); (".pyw", "Python"); (".pyx", "Python");
      (".java", "Java"); (".class", "Java Bytecode"); (".jar", "Java Archive");
      (".c", "C"); (".cpp", "C++"); (".cxx", "C++"); (".cc", "C++");
      (".h", "C Header"); (".hpp", "C++ Header"); (".hxx", "C++ Header");
      (".cs", "C#"); (".csx", "C# Script");
      (".go", "Go");
      (".rs", "Rust");
      (".rb", "Ruby"); (".erb", "Ruby ERB");
      (".php", "PHP"); (".phtml", "PHP");
      (".html", "HTML"); (".htm", "HTML"); (".css", "CSS");
      (".scss", "SCSS"); (".sass", "Sass"); (".less", "Less");
      (".sh", "Shell"); (".bash", "Bash"); (".zsh", "Zsh"); (".fish", "Fish");
      (".swift", "Swift");
      (".kt", "Kotlin"); (".kts", "Kotlin Script");
      (".scala", "Scala");
      (".hs", "Haskell");
      (".lua", "Lua");
      (".r", "R"); (".R", "R");
      (".dart", "Dart");
      (".sql", "SQL");
      (".json", "JSON"); (".xml", "XML"); (".yaml", "YAML"); (".yml", "YAML");
      (".toml", "TOML"); (".ini", "INI");
      (".md", "Markdown"); (".markdown", "Markdown");
      (".txt", "Plain Text"); (".log", "Log File");
      (".vue", "Vue"); (".svelte", "Svelte") ].

(** [table[key]]: the keys of the table all start with a dot, so no member
    inherited from [Object.prototype] is ever read. *)
Fixpoint lookup (key : jsstring) (table : list (jsstring * jsstring))
  : option jsstring :=
  match table with
  | [] => None
  | (k, v) :: more => if str_eqb key k then Some v else lookup key more
  end.

(** The pattern [\.([^.]+)$]. *)
Definition extensionPattern : regex :=
  Seqs [Chr 46; Plus (Patterns.anyBut 46); Eol].

(** [filePath.match(/\.([^.]+)$/)]: the text of group 1, which is the match
    without its dot. *)
Definition captured (filePath : jsstring) : option jsstring :=
  match match1 extensionPattern filePath with
  | Some m => Some (tl m)
  | None => None
  end.

(** [detectLanguage(filePath)].  The extension is lower-cased with
    [toLowerCase] above, which is the language's case mapping on ASCII
    text. *)
Definition detectLanguage (filePath : jsstring) : jsstring :=
  match captured filePath with
  | None => lit "Unknown"
  | Some g =>
      let extension := (lit "." ++ toLowerCase g)%list in
      match lookup extension EXTENSION_MAP with
      | Some name => name
      | None => lit "Unknown"
      end
  end.

(** [getExtension(filePath)] *)
Definition getExtension (filePath : jsstring) : jsstring :=
  match captured filePath with
  | Some g => toLowerCase g
  | None => []
  end.

Definition nonCodeLanguages : list jsstring :=
  List.map lit
    [ "Unknown"; "JSON"; "XML"; "YAML"; "TOML"; "INI"; "Plain Text";
      "Log File"; "Markdown" ].

(** [isCodeFile(filePath)] *)
Definition isCodeFile (filePath : jsstring) : bool :=
  let language := detectLanguage filePath in
  negb (member language nonCodeLanguages).

End LanguageDetector.

(* ===================================================================== *)
(** ** What the matcher does on the patterns of the sources, in closed
       form *)
(* ===================================================================== *)

Module Backtracking.

(** The greedy iteration of a class followed by [k]: the longest run of
    members first, then shorter and shorter ones, until [k] accepts. *)
Fixpoint classRun (f : N -> bool) (k : cursor -> option cursor)
    (b : option N) (s : jsstring) : option cursor :=
  match s with
  | y :: t =>
      if f y then
        match classRun f k (Some y) t with
        | Some e => Some e
        | None => k (Cursor b s)
        end
      else k (Cursor b s)
  | [] => k (Cursor b [])
  end.

End Backtracking.

(* ===================================================================== *)
(** ** Paths and the languages detected for them *)
(* ===================================================================== *)

Module Paths.

(** The code units of a text are ASCII: on such text [toLowerCase] above
    is the case mapping of the language. *)
Definition isAscii (s : jsstring) : bool :=
  forallb (fun c => (c <? 128)%N) s.

Definition notDot (c : N) : bool := negb (c =? 46)%N.

(** The text holds no dot. *)
Definition dotless (s : jsstring) : bool := forallb notDot s.

Definition LangKey_eqb (a b : LangKey) : bool :=
  match a, b with
  | python, python | java, java | csharp, csharp | go, go | rust, rust
  | ruby, ruby | html, html | css, css | shell, shell
  | default, default => true
  | _, _ => false
  end.

Definition keys : list LangKey :=
  [python; java; csharp; go; rust; ruby; html; css; shell; default].

(** The language names that [detectLanguage] can return. *)
Definition languageNames : list jsstring :=
  lit "Unknown" :: List.map snd LanguageDetector.EXTENSION_MAP.

(** The language names for which the patterns of a key other than
    [default] are meant. *)
Definition languagesOfKey (k : LangKey) : list jsstring :=
  List.map lit
    match k with
    | python => ["Python"]
    | java => ["Java"; "Java Bytecode"; "Java Archive"]
    | csharp => ["C#"; "C# Script"]
    | go => ["Go"]
    | rust => ["Rust"]
    | ruby => ["Ruby"; "Ruby ERB"]
    | html => ["HTML"]
    | css => ["CSS"; "SCSS"; "Sass"]
    | shell => ["Shell"; "Bash"]
    | default => []
    end%string.

End Paths.

(* ===================================================================== *)
(** ** The decision rule of the paste classifier, as the specification
       words it *)
(* ===================================================================== *)

Module PasteRule.

Inductive verdict : Type := typing | paste.

Definition isPaste (v : verdict) : bool :=
  match v with paste => true | typing => false end.

(** A rule: a condition on (charactersAdded, gap, linesAdded) and the
    verdict it gives. *)
Definition rule : Type := ((Z -> Z -> Z -> bool) * verdict)%type.

(** Rules 1 to 6, in the order of the specification. *)
Definition rules : list rule :=
  [ (fun c _ _ => c <=? 30, typing);
    (fun _ g l => (l >=? 3) && (g <? 50), paste);
    (fun c _ _ => c >? 300, paste);
    (fun c g _ => (c >? 150) && (g <? 20), paste);
    (fun c g _ => (c >? 100) && (g <? 10), paste);
    (fun c g _ => (c >? 50) && (g <? 5), paste) ].

(** First match wins; rule 7: otherwise typing. *)
Fixpoint firstMatch (rs : list rule) (c g l : Z) : verdict :=
  match rs with
  | [] => typing
  | (condition, v) :: more =>
      if condition c g l then v else firstMatch more c g l
  end.

Definition classify (c g l : Z) : verdict := firstMatch rules c g l.

End PasteRule.

(* ===================================================================== *)
(** ** Well-formed inputs of the skill scorer, and how recommendations are
       counted *)
(* ===================================================================== *)

Module SkillInputs.

Import SkillAnalysisService.

(** A ratio: a finite number between 0 and 1. *)
Definition isRatio (x : number) : Prop :=
  exists q : Q, x = Fin q /\ (0 <= q)%Q /\ (q <= 1)%Q.

(** Behavioural metrics whose ratios are ratios: the typing and the focus
    ratio lie between 0 and 1, the backspace ratio (deleted over added
    lines) is finite and not negative, and so is the edit counter. *)
Definition wellFormed (m : BehavioralMetrics) : Prop :=
  isRatio (bm_typingToTotalRatio m)
  /\ isRatio (bm_focusRatio m)
  /\ (exists q : Q, bm_backspaceRatio m = Fin q /\ (0 <= q)%Q)
  /\ 0 <= bm_editCount m.

(** Counters as the tracker produces them: none is negative. *)
Definition counted (f : FileMetrics) : Prop :=
  0 <= keystrokeCount f /\ 0 <= pasteCount f
  /\ 0 <= linesAdded f /\ 0 <= linesDeleted f /\ 0 <= editCount f.



End SkillInputs.

(* ===================================================================== *)
(** ** Languages of a collection of files, as the specification counts
       them *)
(* ===================================================================== *)

Module LanguageCounts.

(** The number of files written in a language. *)
Definition filesIn (l : jsstring) (files : list FileMetrics) : Z :=
  Z.of_nat (length (List.filter (fun f => str_eqb (language f) l) files)).

(** The distinct names of a list, in the order in which they are first
    encountered. *)
Definition firstSeen (names : list jsstring) : list jsstring :=
  fold_left (fun seen x => if member x seen then seen else seen ++ [x])
    names [].

End LanguageCounts.

(* ===================================================================== *)
(** ** Sample inputs *)
(* ===================================================================== *)

Module Samples.

Import TrackingService.

(** A clock that advances by one millisecond at each reading. *)
Definition clock (n : nat) : Z := 1700000000000 + Z.of_nat n.

Definition uuid (n : nat) : jsstring :=
  lit "3f2b8c1e-7a4d-4e0b-9c55-0d6f1a2b3c4d".

(** A detector for a workspace of TypeScript files. *)
Definition detectLanguage (path : jsstring) : jsstring := lit "TypeScript".
Definition getExtension (path : jsstring) : jsstring := lit "ts".

Definition session0 : TrackingSession :=
  {| id := lit "session-1"; userId := None;
     startTime := 1699999990000; endTime := None;
     totalDuration := 0; activeDuration := 0; idleDuration := 0;
     totalKeystrokes := 0; totalPastes := 0; totalEdits := 0;
     filesEdited := []; languagesUsed := [];
     codeAnalysesPerformed := 0; status := active;
     uploadAttempts := 0; lastUploadAttempt := None |}.

Definition service0 : Service :=
  {| running := true; session := Some session0;
     lastActivity := 1699999999000; svc_keystrokeCount := 0;
     events := []; fileMetrics := ∅;
     currentFile := None; currentLanguage := None;
     lastTextChangeTime := 1699999999999; svc_userId := None;
     clockReads := 0; uuidReads := 0 |}.

Definition doc0 : TextDocument :=
  {| uri_scheme := lit "file"; uri_fsPath := lit "/work/src/a.ts";
     getText := List.repeat 120%N 400 |}.

(** 400 characters inserted, nothing deleted. *)
Definition insertion : ContentChange :=
  {| text := List.repeat 120%N 400; rangeLength := 0;
     range_start_line := 7; range_end_line := 7 |}.

(** The same 400 characters, replacing 950 characters on 18 lines. *)
Definition replacement : ContentChange :=
  {| text := List.repeat 120%N 400; rangeLength := 950;
     range_start_line := 7; range_end_line := 25 |}.

(** A line of one hundred letters x. *)
Definition plainLine : jsstring := List.repeat 120%N 100.

(** Two files, the first in TypeScript, the second in Python. *)
Definition fileIn (path lang : string) : FileMetrics :=
  {| file := lit path; language := lit lang;
     firstSeen := 1700000000000; lastActive := 1700000060000;
     keystrokeCount := 1; pasteCount := 1; typingToTotalRatio := Fin (1 # 2);
     linesAdded := 0; linesDeleted := 0; editCount := 0;
     averageEditSize := 0;
     activeTimeMs := 60000; idleTimeMs := 0; totalTimeMs := 60000;
     switchToCount := 1; switchFromCount := 0; openCount := 1;
     codeAnalysisCount := 0; lastAnalysisTimestamp := None |}.

Definition twoFiles : list FileMetrics :=
  [ fileIn "/work/src/a.ts" "TypeScript"; fileIn "/work/tools/b.py" "Python" ].

(** Half of the input typed, no edits, no idle time, five languages. *)
Definition halfTyped : SkillAnalysisService.BehavioralMetrics :=
  {| SkillAnalysisService.bm_typingToTotalRatio := Fin (1 # 2);
     SkillAnalysisService.bm_averageTypingSpeed := of_Z 1;
     SkillAnalysisService.bm_keystrokeCount := 1;
     SkillAnalysisService.bm_pasteCount := 1;
     SkillAnalysisService.bm_editCount := 0;
     SkillAnalysisService.bm_linesAdded := 0;
     SkillAnalysisService.bm_linesDeleted := 0;
     SkillAnalysisService.bm_backspaceRatio := of_Z 0;
     SkillAnalysisService.bm_activeTimeMs := 60000;
     SkillAnalysisService.bm_idleTimeMs := 0;
     SkillAnalysisService.bm_focusRatio := of_Z 1;
     SkillAnalysisService.bm_languages :=
       List.map lit ["TypeScript"; "Python"; "Go"; "Rust"; "Ruby"]%string;
     SkillAnalysisService.bm_primaryLanguage := lit "Ruby";
     SkillAnalysisService.bm_languageDistribution :=
       List.map (fun l => (lit l, of_Z 20))
         ["TypeScript"; "Python"; "Go"; "Rust"; "Ruby"]%string;
     SkillAnalysisService.bm_fileCount := 5;
     SkillAnalysisService.bm_averageFileActiveTime := of_Z 12000;
     SkillAnalysisService.bm_fileSwitchCount := 5 |}.

(** A quarter of the input typed, thirty edits in one minute, half of the
    time idle, half of the added lines deleted again, one language. *)
Definition mostlyPasted : SkillAnalysisService.BehavioralMetrics :=
  {| SkillAnalysisService.bm_typingToTotalRatio := Fin (1 # 4);
     SkillAnalysisService.bm_averageTypingSpeed := of_Z 100;
     SkillAnalysisService.bm_keystrokeCount := 100;
     SkillAnalysisService.bm_pasteCount := 300;
     SkillAnalysisService.bm_editCount := 30;
     SkillAnalysisService.bm_linesAdded := 40;
     SkillAnalysisService.bm_linesDeleted := 20;
     SkillAnalysisService.bm_backspaceRatio := Fin (1 # 2);
     SkillAnalysisService.bm_activeTimeMs := 60000;
     SkillAnalysisService.bm_idleTimeMs := 60000;
     SkillAnalysisService.bm_focusRatio := Fin (1 # 2);
     SkillAnalysisService.bm_languages := [lit "TypeScript"];
     SkillAnalysisService.bm_primaryLanguage := lit "TypeScript";
     SkillAnalysisService.bm_languageDistribution :=
       [(lit "TypeScript", of_Z 100)];
     SkillAnalysisService.bm_fileCount := 1;
     SkillAnalysisService.bm_averageFileActiveTime := of_Z 60000;
     SkillAnalysisService.bm_fileSwitchCount := 1 |}.

(** The counters of a file that was opened and never edited. *)
Definition untouched : FileMetrics :=
  {| file := lit "/work/src/a.ts"; language := lit "TypeScript";
     firstSeen := 1700000000000; lastActive := 1700000000000;
     keystrokeCount := 0; pasteCount := 0; typingToTotalRatio := of_Z 0;
     linesAdded := 0; linesDeleted := 0; editCount := 0;
     averageEditSize := 0;
     activeTimeMs := 0; idleTimeMs := 0; totalTimeMs := 0;
     switchToCount := 1; switchFromCount := 0; openCount := 1;
     codeAnalysisCount := 0; lastAnalysisTimestamp := None |}.

End Samples.

(* ===================================================================== *)
(** ** What the tracking state says about pastes *)
(* ===================================================================== *)

Module PasteObservation.

Import TrackingService.

(** The paste counter of a file; a file without an entry has none. *)
Definition pasteCountOf (s : Service) (f : jsstring) : Z :=
  match fileMetrics s !! f with
  | Some m => pasteCount m
  | None => 0
  end.

(** The paste counter of the session. *)
Definition sessionPastes (s : Service) : Z :=
  match session s with
  | Some x => totalPastes x
  | None => 0
  end.

(** The recorded paste events. *)
Definition pasteEvents (s : Service) : list TrackingEvent :=
  List.filter (fun e => EventType_eqb (ev_type e) PASTE) (events s).

(** Two states that count the same pastes. *)
Definition samePastes (s s' : Service) : Prop :=
  (forall f, pasteCountOf s f = pasteCountOf s' f)
  /\ sessionPastes s = sessionPastes s'
  /\ pasteEvents s = pasteEvents s'.

(** A method body that leaves the paste counts alone, also when it
    throws. *)
Definition keepsPastes {A} (m : M A) : Prop :=
  forall s, samePastes (snd (m s)) s.

End PasteObservation.

(* ===================================================================== *)
(** ** What the object [lineCount] holds *)
(* ===================================================================== *)

Module Tallies.

Import CodeFeatureExtractor.

(** What a property adds to the total: its count, a text nothing. *)
Definition weight (v : tally) : Z :=
  match v with Tally n => n | Text => 0 end.

(** The sum of the counts of an object. *)
Fixpoint tallied (o : list (jsstring * tally)) : Z :=
  match o with
  | [] => 0
  | (_, v) :: more => weight v + tallied more
  end.

(** Every count is at least 1 (a property may also hold a text). *)
Definition positive (o : list (jsstring * tally)) : Prop :=
  List.Forall
    (fun kv => match snd kv with Tally n => 1 <= n | Text => True end) o.

(** Every property holds a count, of at least 1. *)
Definition counting (o : list (jsstring * tally)) : Prop :=
  List.Forall
    (fun kv => match snd kv with Tally n => 1 <= n | Text => False end) o.

(** A line whose text names no member of [Object.prototype]. *)
Definition ordinary (line : jsstring) : bool :=
  negb (str_eqb line (lit "__proto__"))
  && negb (member line objectPrototypeMembers).

End Tallies.

(* ===================================================================== *)
(** ** Scores as integers *)
(* ===================================================================== *)

Module Scores.

Import SkillAnalysisService.

(** The integer that a score is. *)
Definition points (s : SkillScore) : Z :=
  match score s with Fin q => Qfloor q | _ => 0 end.

(** The condition under which the callback of [generateRecommendations]
    pushes a recommendation for a score. *)
Definition advised (m : BehavioralMetrics) (s : SkillScore) : bool :=
  negb (geb (score s) (of_Z 70))
  && match category s with
     | CODING_PROFICIENCY => ltb (bm_typingToTotalRatio m) (Fin (1 # 2))
     | _ => true
     end.

End Scores.

(* ===================================================================== *)
(** ** What a tracked text change leaves behind, in closed form *)
(* ===================================================================== *)

Module TextChangeEffect.

Import PasteClassifier TrackingService.

(** The entry that [ensureFileMetrics] creates. *)
Definition newMetrics (f lang : jsstring) (t1 t2 : Z) : FileMetrics :=
  {| file := f; language := lang; firstSeen := t1; lastActive := t2;
     keystrokeCount := 0; pasteCount := 0; typingToTotalRatio := of_Z 0;
     linesAdded := 0; linesDeleted := 0; editCount := 0;
     averageEditSize := 0;
     activeTimeMs := 0; idleTimeMs := 0; totalTimeMs := 0;
     switchToCount := 0; switchFromCount := 0; openCount := 0;
     codeAnalysisCount := 0; lastAnalysisTimestamp := None |}.

(** The session once a file and its language are entered in it. *)
Definition entered (f lang : jsstring) (x : TrackingSession)
  : TrackingSession :=
  let x1 := if member f (filesEdited x) then x
            else set_filesEdited (filesEdited x ++ [f]) x in
  if member lang (languagesUsed x1) then x1
  else set_languagesUsed (languagesUsed x1 ++ [lang]) x1.

(** The counters of the file after a change of [added] characters and of
    [lAdded] added and [lDeleted] deleted lines, classified as a paste or
    not. *)
Definition counted_change (isPaste : bool) (added lAdded lDeleted : Z)
    (m : FileMetrics) : FileMetrics :=
  let m1 := if isPaste then set_pasteCount (pasteCount m + 1) m
            else set_keystrokeCount (keystrokeCount m + added) m in
  let m2 := set_editCount (editCount m1 + 1) m1 in
  let m3 := set_linesAdded (linesAdded m2 + lAdded) m2 in
  let m4 := set_linesDeleted (linesDeleted m3 + lDeleted) m3 in
  let total := keystrokeCount m4 + pasteCount m4 in
  set_typingToTotalRatio
    (if total >? 0 then div (of_Z (keystrokeCount m4)) (of_Z total)
     else of_Z 0) m4.

(** The times of the file after [updateFileActiveTime(file, now)]. *)
Definition timed (idleThresholdMs now : Z) (m : FileMetrics)
  : FileMetrics :=
  let elapsed := now - lastActive m in
  let m1 := if elapsed <? idleThresholdMs
            then set_activeTimeMs (activeTimeMs m + elapsed) m else m in
  let m2 := set_lastActive now m1 in
  set_totalTimeMs (totalTimeMs m2 + elapsed) m2.

(** The event that the handler records. *)
Definition changeEvent (isPaste : bool) (i sessionId f lang : jsstring)
    (u : option jsstring) (now added deleted lAdded lDeleted : Z)
  : TrackingEvent :=
  {| ev_id := i; ev_sessionId := sessionId; ev_timestamp := now;
     ev_type := if isPaste then PASTE else KEYSTROKE;
     ev_detail :=
       if isPaste then
         OfPaste {| pd_file := f; pd_language := lang;
                    pd_charactersAdded := added; pd_linesAdded := lAdded;
                    pd_estimatedSource :=
                      if added >? 200 then clipboard else autocomplete |}
       else
         OfKeystroke {| kd_file := f; kd_language := lang;
                        kd_charactersAdded := added;
                        kd_charactersDeleted := deleted;
                        kd_linesAdded := lAdded;
                        kd_linesDeleted := lDeleted;
                        kd_isTyping := true |};
     ev_userId := u |}.

(** A counter of a file; a file without an entry counts nothing. *)
Definition counter (g : FileMetrics -> Z) (s : Service) (f : jsstring)
  : Z :=
  match fileMetrics s !! f with
  | Some m => g m
  | None => 0
  end.

(** What one change adds to a counter of pastes. *)
Definition pastes (isPaste : bool) : Z := if isPaste then 1 else 0.

(** What one change of [added] characters adds to a counter of
    keystrokes. *)
Definition keystrokes (isPaste : bool) (added : Z) : Z :=
  if isPaste then 0 else added.

(** An entry whose counters and times are consistent: no counter is
    negative, the typing ratio is the share of the keystrokes in the
    keystrokes and pastes, and the active time is part of the total
    time. *)
Definition consistent (m : FileMetrics) : Prop :=
  SkillInputs.counted m
  /\ typingToTotalRatio m
     = (if keystrokeCount m + pasteCount m >? 0
        then div (of_Z (keystrokeCount m))
                 (of_Z (keystrokeCount m + pasteCount m))
        else of_Z 0)
  /\ activeTimeMs m <= totalTimeMs m.

(** The log ends with the start of an idle period. *)
Definition endsIdle (l : list TrackingEvent) : bool :=
  match List.last (List.map (fun e => Some (ev_type e)) l) None with
  | Some t => EventType_eqb t IDLE_START
  | None => false
  end.

Section Effect.

Variable clock : nat -> Z.
Variable uuid : nat -> jsstring.
Variable detectLanguage : jsstring -> jsstring.
Variable idleThresholdMs : Z.

(** The state after [handleTextChange] has handled, in state [s] with
    session [x], a tracked change that is not empty. *)
Definition afterTextChange (doc : TextDocument) (cs : list ContentChange)
    (x : TrackingSession) (s : Service) : Service :=
  let f := uri_fsPath doc in
  let lang := detectLanguage f in
  let n := clockReads s in
  let now := clock n in
  let added := totalAdded cs in
  let deleted := totalDeleted cs in
  let lAdded := changeLinesAdded cs in
  let lDeleted := changeLinesDeleted cs in
  let isPaste := detectPaste added (now - lastTextChangeTime s) lAdded in
  let known := fileMetrics s !! f in
  let m0 := match known with
            | Some m => m
            | None => newMetrics f lang (clock (S n)) (clock (S (S n)))
            end in
  let x0 := match known with Some _ => x | None => entered f lang x end in
  let reads := match known with Some _ => S n | None => S (S (S n)) end in
  let x1 := if isPaste then set_totalPastes (totalPastes x0 + 1) x0
            else x0 in
  {| running := running s;
     session := Some (set_totalEdits (totalEdits x1 + 1) x1);
     lastActivity := clock reads;
     svc_keystrokeCount :=
       if isPaste then svc_keystrokeCount s
       else svc_keystrokeCount s + added;
     events :=
       events s
       ++ [changeEvent isPaste (uuid (uuidReads s)) (id x0) f lang
             (svc_userId s) now added deleted lAdded lDeleted];
     fileMetrics :=
       <[f := timed idleThresholdMs now
                (counted_change isPaste added lAdded lDeleted m0)]>
         (fileMetrics s);
     currentFile := currentFile s;
     currentLanguage := currentLanguage s;
     lastTextChangeTime := now;
     svc_userId := svc_userId s;
     clockReads := S reads;
     uuidReads := S (uuidReads s) |}.

End Effect.

End TextChangeEffect.

(* ===================================================================== *)
(** ** TrackingService: the queries on the state *)
(* ===================================================================== *)

Module TrackingQueries.

Import TrackingService.

Section Queries.

Variable clock : nat -> Z.
Variable idleThresholdMs : Z.

(** [isIdle()] *)
Definition isIdle : M bool :=
  now <- Date_now clock ;;
  s <- get ;;
  let idleMs := now - lastActivity s in
  ret (idleMs >? idleThresholdMs).

(** [getElapsedTime()] *)
Definition getElapsedTime : M Z :=
  s <- get ;;
  match session s with
  | None => ret 0
  | Some x =>
      now <- Date_now clock ;;
      ret (now - startTime x)
  end.

End Queries.

End TrackingQueries.

(* ===================================================================== *)
(** ** The indentation of a line *)
(* ===================================================================== *)

Module Indentation.

(** The longest run of members of a class at the start of a text. *)
Fixpoint longest (f : N -> bool) (s : jsstring) : jsstring :=
  match s with
  | c :: t => if f c then c :: longest f t else []
  | [] => []
  end.

(** The white space at the start of a line. *)
Definition leading (s : jsstring) : jsstring := longest isSpace s.

(** The line starts with white space. *)
Definition indented (s : jsstring) : bool :=
  match s with
  | c :: _ => isSpace c
  | [] => false
  end.

(** The white space at the start of the line holds a tab. *)
Definition withTab (s : jsstring) : bool := includes [9%N] (leading s).

(** The lines indented with a tab somewhere, and those indented without
    any. *)
Definition tabIndented (lines : list jsstring) : list jsstring :=
  List.filter (fun l => indented l && withTab l) lines.
Definition spaceIndented (lines : list jsstring) : list jsstring :=
  List.filter (fun l => indented l && negb (withTab l)) lines.

End Indentation.

(* ===================================================================== *)
(** ** Further sample inputs *)
(* ===================================================================== *)

Module MoreSamples.

Import TrackingService.


(** The entry of a file edited before: 40 keystrokes and 10 pastes in 12
    edits, last active one second before the first reading of
    [Samples.clock]. *)
Definition editedBefore (path lang : string) : FileMetrics :=
  {| file := lit path; language := lit lang;
     firstSeen := 1699999000000; lastActive := 1699999999000;
     keystrokeCount := 40; pasteCount := 10;
     typingToTotalRatio := div (of_Z 40) (of_Z 50);
     linesAdded := 7; linesDeleted := 3; editCount := 12;
     averageEditSize := 0;
     activeTimeMs := 90000; idleTimeMs := 0; totalTimeMs := 400000;
     switchToCount := 2; switchFromCount := 1; openCount := 1;
     codeAnalysisCount := 0; lastAnalysisTimestamp := None |}.

(** The service of [Samples.service0] with two files edited before. *)
Definition service1 : Service :=
  set_fileMetrics
    (<[lit "/work/src/a.ts" := editedBefore "/work/src/a.ts" "TypeScript"]>
       (<[lit "/work/tools/b.py" := editedBefore "/work/tools/b.py" "Python"]>
          ∅))
    Samples.service0.

End MoreSamples.

(* ===================================================================== *)
(** * Properties of the paste classifier *)
(* ===================================================================== *)

Import PasteClassifier.

(** The classifier follows the rules of the specification, whatever the
    input. *)
Lemma detectPaste_classify (c g l : Z) :
  detectPaste c g l = PasteRule.isPaste (PasteRule.classify c g l).
Proof.
  unfold PasteRule.classify, PasteRule.rules, PasteRule.firstMatch, detectPaste.
  destruct (c <=? 30); [reflexivity|].
  destruct ((l >=? 3) && (g <? 50)); [reflexivity|].
  destruct (c >? 300); [reflexivity|].
  destruct ((c >? 150) && (g <? 20)); [reflexivity|].
  destruct ((c >? 100) && (g <? 10)); [reflexivity|].
  destruct ((c >? 50) && (g <? 5)); reflexivity.
Qed.

Lemma detectPaste_small (c g l : Z) : c <= 30 -> detectPaste c g l = false.
Proof. intros H. unfold detectPaste. apply Z.leb_le in H. now rewrite H. Qed.

Lemma detectPaste_large (c g l : Z) : 300 < c -> detectPaste c g l = true.
Proof.
  intros H. unfold detectPaste.
  destruct (Z.leb_spec c 30); [lia|].
  destruct ((l >=? 3) && (g <? 50)); [reflexivity|].
  assert (E : (c >? 300) = true) by (rewrite Z.gtb_ltb; now apply Z.ltb_lt).
  now rewrite E.
Qed.

(** C1. The classifier is a function of (charactersAdded, gap, linesAdded)
    that gives the verdict of the first matching rule among: at most 30
    characters is typing; at least 3 lines within 50ms is a paste; more than
    300 characters is a paste; more than 150 within 20ms, more than 100
    within 10ms, more than 50 within 5ms is a paste; otherwise typing.  At
    most 30 characters is always typing and more than 300 always a paste. *)
Theorem detectPaste_follows_rules :
  forall c g l : Z,
    detectPaste c g l = PasteRule.isPaste (PasteRule.classify c g l)
    /\ (c <= 30 -> detectPaste c g l = false)
    /\ (300 < c -> detectPaste c g l = true).
Proof.
  intros c g l. split; [apply detectPaste_classify|].
  split; [apply detectPaste_small | apply detectPaste_large].
Qed.

Lemma detectPaste_follows_rules_witness :
  detectPaste 25 1 5 = false /\ detectPaste 400 10000 0 = true.
Proof.
  split.
  - apply (proj1 (proj2 (detectPaste_follows_rules 25 1 5))). lia.
  - apply (proj2 (proj2 (detectPaste_follows_rules 400 10000 0))). lia.
Defined.

(** C2, as stated: 120 characters after 15ms with no lines added is not
    classified as a paste. *)
Lemma detectPaste_120_15_not_paste : detectPaste 120 15 0 <> true.
Proof. vm_compute. discriminate. Qed.

(** C2, amended.  120 characters after a gap of 15ms, with fewer than 3
    lines added, is typing: rule 4 asks for more than 150 characters and
    rule 5 for a gap below 10ms. *)
Theorem detectPaste_120_15_typing :
  forall l : Z, l < 3 -> detectPaste 120 15 l = false.
Proof.
  intros l H. unfold detectPaste. simpl.
  assert (E : (l >=? 3) = false) by (rewrite Z.geb_leb; apply Z.leb_gt; lia).
  now rewrite E.
Qed.

Lemma detectPaste_120_15_typing_witness : detectPaste 120 15 1 = false.
Proof. apply (detectPaste_120_15_typing 1). lia. Defined.

(** More characters never turn a paste into typing, whatever the gap. *)
Lemma detectPaste_monotone (g l c1 c2 : Z) :
  c1 <= c2 -> detectPaste c1 g l = true -> detectPaste c2 g l = true.
Proof.
  intros Hle. unfold detectPaste.
  rewrite !Z.gtb_ltb.
  destruct (Z.leb_spec c1 30); [discriminate|].
  destruct (Z.leb_spec c2 30); [lia|].
  destruct ((l >=? 3) && (g <? 50)); [reflexivity|].
  destruct (Z.ltb_spec 300 c1), (Z.ltb_spec 300 c2); try reflexivity; try lia.
  - destruct (Z.ltb_spec 150 c1), (Z.ltb_spec 150 c2),
      (Z.ltb_spec 100 c1), (Z.ltb_spec 100 c2),
      (Z.ltb_spec 50 c1), (Z.ltb_spec 50 c2);
      try lia; simpl;
      destruct (g <? 20) eqn:E20, (g <? 10) eqn:E10, (g <? 5) eqn:E5;
      simpl; try reflexivity; try discriminate;
      repeat match goal with
        | H : (_ <? _) = true |- _ => apply Z.ltb_lt in H
        | H : (_ <? _) = false |- _ => apply Z.ltb_ge in H
        end; lia.
Qed.

(** C7. With the gap at 0ms and the lines added fixed, if [c1] characters
    are a paste then so are [c2 >= c1] characters. *)
Theorem detectPaste_monotone_at_gap_0 :
  forall l c1 c2 : Z,
    c1 <= c2 -> detectPaste c1 0 l = true -> detectPaste c2 0 l = true.
Proof. intros l c1 c2. apply detectPaste_monotone. Qed.

Lemma detectPaste_monotone_at_gap_0_witness :
  detectPaste 200 0 0 = true.
Proof.
  apply (detectPaste_monotone_at_gap_0 0 60 200); [lia | reflexivity].
Defined.

(* ===================================================================== *)
(** * Deletions and the paste counters *)
(* ===================================================================== *)

Section PasteNonInterference.

Import TrackingService PasteObservation.

Variable clock : nat -> Z.
Variable uuid : nat -> jsstring.
Variable detectLanguage : jsstring -> jsstring.
Variable idleThresholdMs : Z.

Lemma samePastes_refl (s : Service) : samePastes s s.
Proof. repeat split. Qed.

Lemma samePastes_sym (s s' : Service) : samePastes s s' -> samePastes s' s.
Proof. intros (H1 & H2 & H3). repeat split; auto. Qed.

Lemma samePastes_trans (s1 s2 s3 : Service) :
  samePastes s1 s2 -> samePastes s2 s3 -> samePastes s1 s3.
Proof.
  intros (H1 & H2 & H3) (K1 & K2 & K3). repeat split.
  - intros f. now rewrite H1.
  - now rewrite H2.
  - now rewrite H3.
Qed.

Lemma keeps_ret {A} (a : A) : keepsPastes (ret a).
Proof. intros s. apply samePastes_refl. Qed.

Lemma keeps_throw {A} : keepsPastes (@throw A).
Proof. intros s. apply samePastes_refl. Qed.

Lemma keeps_get : keepsPastes get.
Proof. intros s. apply samePastes_refl. Qed.

Lemma keeps_bind {A B} (m : M A) (f : A -> M B) :
  keepsPastes m -> (forall a, keepsPastes (f a)) -> keepsPastes (bind m f).
Proof.
  intros Hm Hf s. unfold bind. specialize (Hm s).
  destruct (m s) as [[a|] s']; simpl in *.
  - eapply samePastes_trans; [apply Hf | exact Hm].
  - exact Hm.
Qed.

Lemma keeps_when (b : bool) (m : M unit) :
  keepsPastes m -> keepsPastes (when b m).
Proof. destruct b; simpl; auto using keeps_ret. Qed.

Lemma keeps_Date_now : keepsPastes (Date_now clock).
Proof. intros s. repeat split. Qed.

Lemma keeps_generateUUID : keepsPastes (generateUUID uuid).
Proof. intros s. repeat split. Qed.

(** Writing an entry with the same paste counter as before. *)
Lemma pasteCountOf_insert (s : Service) (f : jsstring) (m m' : FileMetrics) :
  fileMetrics s !! f = Some m ->
  pasteCount m' = pasteCount m ->
  forall f', pasteCountOf (set_fileMetrics (<[f := m']> (fileMetrics s)) s) f'
             = pasteCountOf s f'.
Proof.
  intros Hf Hp f'. unfold pasteCountOf. simpl.
  destruct (decide (f = f')) as [<-|Hne].
  - rewrite lookup_insert_eq, Hf. exact Hp.
  - rewrite lookup_insert_ne by exact Hne. reflexivity.
Qed.

Lemma keeps_updateFile (f : jsstring) (g : FileMetrics -> FileMetrics) :
  (forall m, pasteCount (g m) = pasteCount m) ->
  keepsPastes (updateFile f g).
Proof.
  intros Hg s. unfold updateFile, bind, get, modify. simpl.
  destruct (fileMetrics s !! f) as [m|] eqn:E; simpl.
  - repeat split. intros f'. now apply pasteCountOf_insert with (m := m).
  - apply samePastes_refl.
Qed.

Lemma keeps_updateSession (g : TrackingSession -> TrackingSession) :
  (forall x, totalPastes (g x) = totalPastes x) ->
  keepsPastes (updateSession g).
Proof.
  intros Hg s. unfold updateSession, bind, get, modify. simpl.
  destruct (session s) as [x|] eqn:E; simpl.
  - repeat split. unfold sessionPastes. simpl. now rewrite E, Hg.
  - apply samePastes_refl.
Qed.

Lemma keeps_recordEvent (t : Z) (ty : EventType) (d : EventDetail) :
  EventType_eqb ty PASTE = false ->
  keepsPastes (recordEvent uuid t ty d).
Proof.
  intros Hty s. unfold recordEvent, bind, generateUUID, modify. simpl.
  repeat split. unfold pasteEvents. simpl.
  rewrite List.filter_app. simpl. rewrite Hty. apply app_nil_r.
Qed.

Lemma keeps_ensureFileMetrics (f lang : jsstring) :
  keepsPastes (ensureFileMetrics clock f lang).
Proof.
  intros s. unfold ensureFileMetrics, bind, get, Date_now, modify. simpl.
  destruct (fileMetrics s !! f) as [m|] eqn:E; simpl.
  - apply samePastes_refl.
  - assert (Hcount : forall (fm : FileMetrics) f',
               pasteCount fm = 0 ->
               match <[f := fm]> (fileMetrics s) !! f' with
               | Some m => pasteCount m
               | None => 0
               end = pasteCountOf s f').
    { intros fm f' Hfm. unfold pasteCountOf.
      destruct (decide (f = f')) as [<-|Hne].
      - rewrite lookup_insert_eq, E. exact Hfm.
      - rewrite lookup_insert_ne by exact Hne. reflexivity. }
    destruct (session s) as [x|] eqn:Es; simpl.
    + split; [|split].
      * intros f'. unfold pasteCountOf at 1. simpl. now apply Hcount.
      * unfold sessionPastes. simpl. rewrite Es.
        destruct (member f (filesEdited x)); simpl;
          match goal with
          | |- context [member lang ?l] => destruct (member lang l)
          end; reflexivity.
      * reflexivity.
    + split; [|split].
      * intros f'. unfold pasteCountOf at 1. simpl. now apply Hcount.
      * unfold sessionPastes. simpl. now rewrite Es.
      * reflexivity.
Qed.

Lemma keeps_modify (g : Service -> Service) :
  (forall s, samePastes (g s) s) -> keepsPastes (modify g).
Proof. intros Hg s. apply Hg. Qed.

(** Discharges [keepsPastes] goals by following the shape of the body. *)
Ltac keeps_basic :=
  lazymatch goal with
  | |- keepsPastes (ret _) => apply keeps_ret
  | |- keepsPastes get => apply keeps_get
  | |- keepsPastes throw => apply keeps_throw
  | |- keepsPastes (Date_now _) => apply keeps_Date_now
  | |- keepsPastes (generateUUID _) => apply keeps_generateUUID
  | |- keepsPastes (ensureFileMetrics _ _ _) => apply keeps_ensureFileMetrics
  | |- keepsPastes (updateFile _ _) =>
      apply keeps_updateFile; intros; reflexivity
  | |- keepsPastes (updateSession _) =>
      apply keeps_updateSession; intros; reflexivity
  | |- keepsPastes (recordEvent _ _ _ _) =>
      apply keeps_recordEvent; reflexivity
  | |- keepsPastes (modify _) => apply keeps_modify; intros; repeat split
  | |- keepsPastes (when _ _) => apply keeps_when
  | |- keepsPastes (bind _ _) => apply keeps_bind; [|intros ?]
  | |- keepsPastes (match ?x with _ => _ end) => destruct x
  | |- keepsPastes (if ?x then _ else _) => destruct x
  end.
Ltac keeps0 := repeat keeps_basic.

Lemma keeps_updateFileActiveTime (f : jsstring) (now : Z) :
  keepsPastes (updateFileActiveTime idleThresholdMs f now).
Proof. unfold updateFileActiveTime. keeps0. Qed.

Lemma keeps_markActivity : keepsPastes (markActivity clock uuid).
Proof. unfold markActivity. keeps0. Qed.

Ltac keeps :=
  repeat first
    [ apply keeps_updateFileActiveTime
    | apply keeps_markActivity
    | keeps_basic ].

(** Two bodies that share a beginning and then keep the paste counts end
    with the same paste counts. *)
Lemma same_after_prefix {A B C} (m : M A) (n : A -> M B)
    (k1 k2 : B -> M C) (s : Service) :
  (forall b, keepsPastes (k1 b)) ->
  (forall b, keepsPastes (k2 b)) ->
  samePastes (snd (bind m (fun a => bind (n a) k1) s))
             (snd (bind m (fun a => bind (n a) k2) s)).
Proof.
  intros H1 H2. unfold bind.
  destruct (m s) as [[a|] s']; simpl; [|apply samePastes_refl].
  destruct (n a s') as [[b|] s'']; simpl; [|apply samePastes_refl].
  eapply samePastes_trans; [apply H1|].
  apply samePastes_sym, H2.
Qed.

Lemma bind_Date_now {A} (k : Z -> M A) (s : Service) :
  bind (Date_now clock) k s
  = k (clock (clockReads s)) (set_clockReads (S (clockReads s)) s).
Proof. reflexivity. Qed.

Lemma bind_get {A} (k : Service -> M A) (s : Service) :
  bind get k s = k s s.
Proof. reflexivity. Qed.

(** C10. The classification does not see deletions: two change events on
    the same document, handled from the same state, that add the same
    number of characters and of lines but delete arbitrary amounts, leave
    the same paste counter in every file, the same paste counter in the
    session and the same recorded paste events. *)
Theorem deletions_do_not_influence_pastes :
  forall (s : Service) (doc : TextDocument) (cs1 cs2 : list ContentChange),
    totalAdded cs1 = totalAdded cs2 ->
    changeLinesAdded cs1 = changeLinesAdded cs2 ->
    samePastes
      (snd (handleTextChange clock uuid detectLanguage idleThresholdMs
              {| document := doc; contentChanges := cs1 |} s))
      (snd (handleTextChange clock uuid detectLanguage idleThresholdMs
              {| document := doc; contentChanges := cs2 |} s)).
Proof.
  intros s doc cs1 cs2 Hadd Hlines.
  unfold handleTextChange. cbn [document contentChanges].
  destruct (shouldTrackDocument doc); cbn [negb]; [|apply samePastes_refl].
  rewrite <- Hadd, <- Hlines.
  rewrite !bind_Date_now.
  set (s0 := set_clockReads (S (clockReads s)) s).
  set (now := clock (clockReads s)).
  destruct (detectPaste (totalAdded cs1) (now - lastTextChangeTime s0)
              (changeLinesAdded cs1)) eqn:Hpaste.
  - (* a paste: at least 31 characters, so neither run returns early *)
    assert (Hne : (totalAdded cs1 =? 0) = false).
    { apply Z.eqb_neq. intros H0. rewrite H0 in Hpaste.
      unfold detectPaste in Hpaste. simpl in Hpaste. discriminate. }
    rewrite Hne. cbn [andb].
    rewrite !bind_get, Hpaste.
    apply same_after_prefix; intros _; keeps.
  - (* typing, or an early return: the counts stay as they were *)
    apply samePastes_trans with (s2 := s0); [|apply samePastes_sym].
    + destruct ((totalAdded cs1 =? 0) && (totalDeleted cs1 =? 0));
        [apply samePastes_refl|].
      rewrite bind_get, Hpaste.
      match goal with |- samePastes (snd (?m s0)) s0 =>
        cut (keepsPastes m); [intros K; apply K|] end.
      keeps.
    + destruct ((totalAdded cs1 =? 0) && (totalDeleted cs2 =? 0));
        [apply samePastes_refl|].
      rewrite bind_get, Hpaste.
      match goal with |- samePastes (snd (?m s0)) s0 =>
        cut (keepsPastes m); [intros K; apply K|] end.
      keeps.
Qed.

End PasteNonInterference.

Lemma deletions_do_not_influence_pastes_witness :
  PasteObservation.samePastes
    (snd (TrackingService.handleTextChange
            Samples.clock Samples.uuid Samples.detectLanguage 300000
            {| TrackingService.document := Samples.doc0;
               TrackingService.contentChanges := [Samples.insertion] |}
            Samples.service0))
    (snd (TrackingService.handleTextChange
            Samples.clock Samples.uuid Samples.detectLanguage 300000
            {| TrackingService.document := Samples.doc0;
               TrackingService.contentChanges := [Samples.replacement] |}
            Samples.service0)).
Proof.
  apply deletions_do_not_influence_pastes; reflexivity.
Defined.

(* ===================================================================== *)
(** * Line classification *)
(* ===================================================================== *)

Section LineCounts.

Import CodeFeatureExtractor.

Variable p : CommentPatterns.

(** One line adds one to the blank lines or to the comment lines, or to
    neither. *)
Lemma classifyLine_step (st : LineScan) (line : jsstring) :
  let st' := classifyLine p st line in
  (blank st' = blank st + 1 /\ comment st' = comment st)
  \/ (blank st' = blank st /\ comment st' = comment st + 1)
  \/ (blank st' = blank st /\ comment st' = comment st).
Proof.
  unfold classifyLine.
  destruct (len (trim line) =? 0); [left; split; reflexivity|].
  destruct (inBlockComment st); [right; left; split; reflexivity|].
  destruct (test (blockStart p) (trim line));
    [right; left; split; reflexivity|].
  destruct (existsb _ (singleLine p));
    [right; left; split; reflexivity|].
  right; right; split; reflexivity.
Qed.

(** After the loop, blank and comment lines together are at most the
    lines read. *)
Lemma classifyLine_fold (lines : list jsstring) (st : LineScan) :
  let st' := fold_left (classifyLine p) lines st in
  blank st <= blank st'
  /\ comment st <= comment st'
  /\ blank st' + comment st' <= blank st + comment st + len lines.
Proof.
  revert st. induction lines as [|line lines IH]; intros st; simpl.
  - unfold len. simpl. lia.
  - specialize (IH (classifyLine p st line)). simpl in IH.
    pose proof (classifyLine_step st line) as Hs. simpl in Hs.
    unfold len in *. rewrite length_cons, Nat2Z.inj_succ. lia.
Qed.

End LineCounts.

(** C6. For every text and every language key, the code, comment and blank
    lines add up to the total; the number of code lines is what is left of
    the total once blank and comment lines are taken away, which is never
    negative. *)
Theorem line_counts_add_up :
  forall (code : jsstring) (langKey : LangKey),
    let m := CodeFeatureExtractor.extractBasicMetrics
               (JsString.split 10 code) langKey in
    (CodeFeatureExtractor.codeLines m + CodeFeatureExtractor.commentLines m
     + CodeFeatureExtractor.blankLines m = CodeFeatureExtractor.totalLines m)
    /\ 0 <= CodeFeatureExtractor.codeLines m
    /\ CodeFeatureExtractor.codeLines m
       = CodeFeatureExtractor.totalLines m
         - CodeFeatureExtractor.blankLines m
         - CodeFeatureExtractor.commentLines m.
Proof.
  intros code langKey. unfold CodeFeatureExtractor.extractBasicMetrics.
  pose proof (classifyLine_fold (commentPatternsFor langKey)
                (JsString.split 10 code)
                {| CodeFeatureExtractor.blank := 0;
                   CodeFeatureExtractor.comment := 0;
                   CodeFeatureExtractor.inBlockComment := false |}) as H.
  simpl in *. lia.
Qed.

(* ===================================================================== *)
(** * Cyclomatic complexity *)
(* ===================================================================== *)

Section Complexity.

Import CodeFeatureExtractor.

Lemma countMatches_nonneg (r : regex) (s : jsstring) : 0 <= countMatches r s.
Proof. unfold countMatches. lia. Qed.

(** A pattern that matches at the very start of the text, be it with the
    empty match, is counted at least once. *)
Lemma countMatches_positive (r : regex) (s : jsstring) :
  matchAt r (Cursor None s) <> None -> 1 <= countMatches r s.
Proof.
  intros H. unfold countMatches, matchAll.
  destruct s as [|c t]; simpl;
    destruct (matchAt r _); try congruence; simpl; lia.
Qed.

(** The pattern built for [||] is [\||]: a bar, or nothing. *)
Lemma keywordRegex_or :
  keywordRegex (lit "||") = Some (Alt (Chr 124) Eps).
Proof. reflexivity. Qed.

(** The pattern built for [??] is [\??]: an optional question mark. *)
Lemma keywordRegex_coalesce :
  keywordRegex (lit "??") = Some (Opt (Chr 63)).
Proof. reflexivity. Qed.

Lemma bar_or_nothing_matches (s : jsstring) :
  matchAt (Alt (Chr 124) Eps) (Cursor None s) <> None.
Proof.
  unfold matchAt. destruct s as [|c t]; cbn -[N.eqb]; [congruence|].
  destruct (124 =? c)%N; congruence.
Qed.

Lemma optional_mark_matches (s : jsstring) :
  matchAt (Opt (Chr 63)) (Cursor None s) <> None.
Proof.
  unfold matchAt. destruct s as [|c t]; cbn -[N.eqb Nat.ltb]; [congruence|].
  destruct (63 =? c)%N; [|congruence].
  unfold advanced. cbn -[Nat.ltb].
  destruct (length t <? S (length t))%nat; congruence.
Qed.

(** Every line, whatever it holds, adds at least 2 to the complexity. *)
Lemma keywordMatches_at_least_2 (trimmed : jsstring) :
  exists n, keywordMatches CONTROL_FLOW_KEYWORDS trimmed = Some n /\ 2 <= n.
Proof.
  pose proof (countMatches_positive _ trimmed (bar_or_nothing_matches trimmed)).
  pose proof (countMatches_positive _ trimmed (optional_mark_matches trimmed)).
  cbv -[countMatches Z.add Z.le] .
  eexists. split; [reflexivity|].
  repeat match goal with
    | |- context [countMatches ?r trimmed] =>
        let H := fresh in
        pose proof (countMatches_nonneg r trimmed) as H;
        generalize dependent (countMatches r trimmed)
    end.
  intros. lia.
Qed.

Lemma scanComplexity_step (st : ComplexityScan) (line : jsstring) :
  exists st',
    scanComplexity (Some st) line = Some st'
    /\ complexity st + 2 <= complexity st'.
Proof.
  unfold scanComplexity.
  destruct (keywordMatches_at_least_2 (trim line)) as (n & Hn & Hle).
  rewrite Hn. eexists. split; [reflexivity|]. simpl. lia.
Qed.

Lemma scanComplexity_fold (lines : list jsstring) (st : ComplexityScan) :
  exists st',
    fold_left scanComplexity lines (Some st) = Some st'
    /\ complexity st + 2 * len lines <= complexity st'.
Proof.
  revert st. induction lines as [|line lines IH]; intros st.
  - exists st. unfold len. simpl. split; [reflexivity|lia].
  - cbn [fold_left].
    destruct (scanComplexity_step st line) as (st1 & H1 & Hc1).
    rewrite H1.
    destruct (IH st1) as (st' & Hst' & Hc).
    exists st'. split; [exact Hst'|].
    unfold len in *. rewrite length_cons, Nat2Z.inj_succ. lia.
Qed.

(** The complexity scan never throws, and reports at least 1 plus twice
    the number of lines. *)
Lemma complexity_lower_bound (lines : list jsstring) :
  exists m,
    extractComplexityMetrics lines = Some m
    /\ 1 + 2 * len lines <= cyclomaticComplexity m.
Proof.
  unfold extractComplexityMetrics.
  destruct (scanComplexity_fold lines
              {| complexity := 1; maxNesting := 0; currentNesting := 0 |})
    as (st' & Hst' & Hc).
  rewrite Hst'. eexists. split; [reflexivity|]. exact Hc.
Qed.

End Complexity.

(** C3, on the code.  A single line of one hundred letters [x] holds none of
    the listed keywords and operators, yet the reported complexity is 203
    and not 1: the patterns built for [||] and [??] also match the empty
    string, once at each of the 101 positions of the line. *)
Theorem complexity_of_a_plain_line :
  CodeFeatureExtractor.extractComplexityMetrics
    (JsString.split 10 Samples.plainLine)
  = Some {| CodeFeatureExtractor.cyclomaticComplexity := 203;
            CodeFeatureExtractor.nestingDepth := 0 |}.
Proof. vm_compute. reflexivity. Qed.

(* ===================================================================== *)
(** * Feature extraction returns, with finite fields *)
(* ===================================================================== *)

Section Finiteness.

Import CodeFeatureExtractor.

Lemma Qzero_b_inject_Z (z : Z) : z <> 0 -> Qzero_b (inject_Z z) = false.
Proof.
  intros Hz. unfold Qzero_b, Qeq_bool, inject_Z. simpl.
  rewrite Z.mul_1_r. destruct z; simpl; congruence.
Qed.

Lemma isFinite_div_of_Z (a b : Z) :
  b <> 0 -> isFinite (div (of_Z a) (of_Z b)) = true.
Proof.
  intros Hb. unfold div, of_Z. now rewrite (Qzero_b_inject_Z b Hb).
Qed.

Lemma isFinite_round2 (x : number) :
  isFinite x = true -> isFinite (round2 x) = true.
Proof. destruct x; try discriminate. intros _. reflexivity. Qed.

(** A number above zero is not a zero divisor. *)
Lemma gtb_0_nonzero (q : Q) :
  gtb (Fin q) (of_Z 0) = true -> Qzero_b q = false.
Proof.
  unfold gtb, ltb, of_Z, Qpos_b, Qzero_b. intros H.
  apply negb_true_iff in H.
  destruct (Qeq_bool q 0) eqn:E; [|reflexivity].
  apply Qeq_bool_iff in E.
  assert (K : Qle_bool (q - inject_Z 0) 0 = true).
  { apply Qle_bool_iff. rewrite E. unfold inject_Z. lra. }
  congruence.
Qed.

(** [cond ? a / b : 0], with [cond] implying that [b] is above zero. *)
Lemma isFinite_guarded_div (a : Z) (y : number) :
  isFinite y = true ->
  isFinite (if gtb y (of_Z 0) then div (of_Z a) y else of_Z 0) = true.
Proof.
  destruct y as [q| | |]; try discriminate. intros _.
  destruct (gtb (Fin q) (of_Z 0)) eqn:E; [|reflexivity].
  unfold div, of_Z. now rewrite (gtb_0_nonzero q E).
Qed.

Lemma isFinite_guarded_div_Z (a b : Z) :
  isFinite (if b >? 0 then div (of_Z a) (of_Z b) else of_Z 0) = true.
Proof.
  destruct (b >? 0) eqn:E; [|reflexivity].
  apply isFinite_div_of_Z. apply Z.gtb_lt in E. lia.
Qed.

Lemma isFinite_min_8 (x : number) :
  gtb x (of_Z 0) = true -> isFinite (JsNumber.min x (of_Z 8)) = true.
Proof.
  destruct x as [q| | |]; simpl; try discriminate; intros _;
    [|reflexivity].
  destruct (Qpos_b (q - inject_Z 8)); reflexivity.
Qed.

Lemma structural_finite (lines : list jsstring) :
  let m := extractStructuralMetrics lines in
  isFinite (averageLineLength m) = true
  /\ isFinite (indentationConsistency m) = true
  /\ isFinite (indentationSize m) = true.
Proof.
  unfold extractStructuralMetrics.
  cbn [averageLineLength indentationConsistency indentationSize].
  repeat split.
  - apply isFinite_round2, isFinite_guarded_div_Z.
  - apply isFinite_round2.
    destruct (len (indentSizes (scanIndents lines)) >? 0) eqn:E;
      [|reflexivity].
    apply isFinite_div_of_Z. apply Z.gtb_lt in E. lia.
  - destruct (len (indentSizes (scanIndents lines)) >? 0); [|reflexivity].
    destruct (gtb _ (of_Z 0)) eqn:E; [|reflexivity].
    now apply isFinite_min_8.
Qed.

Lemma comment_finite (lines : list jsstring) (k : LangKey) (codeLines : Z) :
  isFinite (commentDensity (extractCommentMetrics lines k codeLines)) = true.
Proof.
  unfold extractCommentMetrics. cbn [commentDensity].
  apply isFinite_round2, isFinite_guarded_div_Z.
Qed.

Lemma naming_finite (code : jsstring) (k : LangKey) :
  let m := extractNamingMetrics code k in
  isFinite (averageVariableNameLength m) = true
  /\ isFinite (camelCaseRatio m) = true
  /\ isFinite (snake_caseRatio m) = true.
Proof.
  unfold extractNamingMetrics.
  destruct (len (identifiersOf code k) =? 0) eqn:E;
    cbn [averageVariableNameLength camelCaseRatio snake_caseRatio];
    [repeat split|].
  apply Z.eqb_neq in E.
  repeat split; apply isFinite_round2, isFinite_div_of_Z; exact E.
Qed.

Lemma quality_finite (lines : list jsstring) :
  let m := extractQualityMetrics lines in
  isFinite (duplicateLineRatio m) = true
  /\ isFinite (longLineRatio m) = true.
Proof.
  unfold extractQualityMetrics. cbn [duplicateLineRatio longLineRatio].
  split; apply isFinite_round2, isFinite_guarded_div_Z.
Qed.

Lemma temporal_finite (t : option FileMetrics) :
  let m := extractTemporalMetrics t in
  isFinite (typingSpeed m) = true
  /\ isFinite (editFrequency m) = true
  /\ isFinite (pasteRatio m) = true.
Proof.
  unfold extractTemporalMetrics. destruct t as [t|];
    cbn [typingSpeed editFrequency pasteRatio]; [|repeat split].
  repeat split; apply isFinite_round2.
  - apply isFinite_guarded_div. now apply isFinite_div_of_Z.
  - apply isFinite_guarded_div. now apply isFinite_div_of_Z.
  - apply isFinite_guarded_div_Z.
Qed.

(** What each guarded division gives when its divisor is zero. *)

Lemma structural_default (lines : list jsstring) :
  indentSizes (scanIndents lines) = [] ->
  num_eqb (indentationConsistency (extractStructuralMetrics lines)) (of_Z 1)
  = true.
Proof.
  intros H. unfold extractStructuralMetrics. cbn [indentationConsistency].
  rewrite H. reflexivity.
Qed.

Lemma comment_default (lines : list jsstring) (k : LangKey) :
  num_eqb (commentDensity (extractCommentMetrics lines k 0)) (of_Z 0) = true.
Proof. reflexivity. Qed.

Lemma naming_default (code : jsstring) (k : LangKey) :
  identifiersOf code k = [] ->
  let m := extractNamingMetrics code k in
  num_eqb (averageVariableNameLength m) (of_Z 0) = true
  /\ num_eqb (camelCaseRatio m) (of_Z 0) = true
  /\ num_eqb (snake_caseRatio m) (of_Z 0) = true.
Proof.
  intros H. unfold extractNamingMetrics. rewrite H.
  repeat split.
Qed.

Lemma quality_default (lines : list jsstring) :
  normalizedLinesOf lines = [] ->
  num_eqb (duplicateLineRatio (extractQualityMetrics lines)) (of_Z 0) = true.
Proof.
  intros H. unfold extractQualityMetrics. cbn [duplicateLineRatio].
  rewrite H. reflexivity.
Qed.

Lemma temporal_default_time (t : FileMetrics) :
  activeTimeMs t = 0 ->
  let m := extractTemporalMetrics (Some t) in
  num_eqb (typingSpeed m) (of_Z 0) = true
  /\ num_eqb (editFrequency m) (of_Z 0) = true.
Proof.
  intros H. unfold extractTemporalMetrics. cbn [typingSpeed editFrequency].
  rewrite H. split; reflexivity.
Qed.

Lemma temporal_default_inputs (t : FileMetrics) :
  keystrokeCount t + pasteCount t = 0 ->
  num_eqb (pasteRatio (extractTemporalMetrics (Some t))) (of_Z 0) = true.
Proof.
  intros H. unfold extractTemporalMetrics. cbn [pasteRatio].
  rewrite H. reflexivity.
Qed.

End Finiteness.

(** C9, as stated: the text [plainLine] has no indented line, so the
    division behind the indentation consistency has divisor zero; the field
    then is 1, not 0. *)
Lemma indentation_consistency_defaults_to_1 :
  exists f,
    CodeFeatureExtractor.extract Samples.detectLanguage Samples.getExtension
      Samples.plainLine (lit "/work/src/a.ts") None 1700000000000 = Some f
    /\ CodeFeatureExtractor.indentSizes
         (CodeFeatureExtractor.scanIndents
            (JsString.split 10 Samples.plainLine)) = []
    /\ num_eqb (CodeFeatureExtractor.indentationConsistency
                  (CodeFeatureExtractor.structural f)) (of_Z 0) = false
    /\ num_eqb (CodeFeatureExtractor.indentationConsistency
                  (CodeFeatureExtractor.structural f)) (of_Z 1) = true.
Proof. eexists. split; [vm_compute; reflexivity|]. vm_compute. auto. Qed.

(** C9, amended.  For every text (the empty one included), every file path
    and every optional record of counters, feature extraction returns a
    record, and each field that comes out of a division is finite.  Where
    the divisor is zero the field takes a default: 1 for the indentation
    consistency, 0 for the comment density, the naming ratios, the
    duplicate-line ratio, the typing speed, the edit frequency and the paste
    ratio; the temporal fields are 0 as well when no counters are given. *)
Theorem extract_returns_finite_features :
  forall (detectLanguage getExtension : jsstring -> jsstring)
         (code filePath : jsstring) (trackingMetrics : option FileMetrics)
         (now : Z),
  exists f,
    CodeFeatureExtractor.extract detectLanguage getExtension code filePath
      trackingMetrics now = Some f
    /\ Forall (fun x => isFinite x = true) (CodeFeatureExtractor.ratioFields f)
    /\ (CodeFeatureExtractor.indentSizes
          (CodeFeatureExtractor.scanIndents (JsString.split 10 code)) = [] ->
        num_eqb (CodeFeatureExtractor.indentationConsistency
                   (CodeFeatureExtractor.structural f)) (of_Z 1) = true)
    /\ (CodeFeatureExtractor.codeLines (CodeFeatureExtractor.basic f) = 0 ->
        num_eqb (CodeFeatureExtractor.commentDensity
                   (CodeFeatureExtractor.comments f)) (of_Z 0) = true)
    /\ (CodeFeatureExtractor.identifiersOf code
          (getLanguageKey (detectLanguage filePath)) = [] ->
        num_eqb (CodeFeatureExtractor.averageVariableNameLength
                   (CodeFeatureExtractor.naming f)) (of_Z 0) = true
        /\ num_eqb (CodeFeatureExtractor.camelCaseRatio
                      (CodeFeatureExtractor.naming f)) (of_Z 0) = true
        /\ num_eqb (CodeFeatureExtractor.snake_caseRatio
                      (CodeFeatureExtractor.naming f)) (of_Z 0) = true)
    /\ (CodeFeatureExtractor.normalizedLinesOf (JsString.split 10 code) = [] ->
        num_eqb (CodeFeatureExtractor.duplicateLineRatio
                   (CodeFeatureExtractor.quality f)) (of_Z 0) = true)
    /\ (forall t, trackingMetrics = Some t -> activeTimeMs t = 0 ->
        num_eqb (CodeFeatureExtractor.typingSpeed
                   (CodeFeatureExtractor.temporal f)) (of_Z 0) = true
        /\ num_eqb (CodeFeatureExtractor.editFrequency
                      (CodeFeatureExtractor.temporal f)) (of_Z 0) = true)
    /\ (forall t, trackingMetrics = Some t ->
        keystrokeCount t + pasteCount t = 0 ->
        num_eqb (CodeFeatureExtractor.pasteRatio
                   (CodeFeatureExtractor.temporal f)) (of_Z 0) = true)
    /\ (trackingMetrics = None ->
        num_eqb (CodeFeatureExtractor.typingSpeed
                   (CodeFeatureExtractor.temporal f)) (of_Z 0) = true
        /\ num_eqb (CodeFeatureExtractor.editFrequency
                      (CodeFeatureExtractor.temporal f)) (of_Z 0) = true
        /\ num_eqb (CodeFeatureExtractor.pasteRatio
                      (CodeFeatureExtractor.temporal f)) (of_Z 0) = true).
Proof.
  intros detectLanguage getExtension code filePath trackingMetrics now.
  unfold CodeFeatureExtractor.extract.
  destruct (complexity_lower_bound (JsString.split 10 code)) as (c & Hc & _).
  rewrite Hc. eexists. split; [reflexivity|].
  unfold CodeFeatureExtractor.ratioFields.
  cbn [CodeFeatureExtractor.structural CodeFeatureExtractor.comments
       CodeFeatureExtractor.naming CodeFeatureExtractor.quality
       CodeFeatureExtractor.temporal CodeFeatureExtractor.basic].
  split.
  { pose proof (structural_finite (JsString.split 10 code)) as (S1 & S2 & S3).
    pose proof (naming_finite code (getLanguageKey (detectLanguage filePath)))
      as (N1 & N2 & N3).
    pose proof (quality_finite (JsString.split 10 code)) as (Q1 & Q2).
    pose proof (temporal_finite trackingMetrics) as (T1 & T2 & T3).
    repeat (apply List.Forall_cons;
            [first [assumption | apply comment_finite]|]).
    apply List.Forall_nil. }
  split; [apply structural_default|].
  split; [intros H; rewrite H; apply comment_default|].
  split; [apply naming_default|].
  split; [apply quality_default|].
  split; [intros t -> H; now apply temporal_default_time|].
  split; [intros t -> H; now apply temporal_default_inputs|].
  intros ->. repeat split.
Qed.

Lemma extract_returns_finite_features_witness :
  (exists f,
     CodeFeatureExtractor.extract Samples.detectLanguage Samples.getExtension
       [] (lit "/work/src/a.ts") (Some Samples.untouched) 1700000000000
     = Some f
     /\ num_eqb (CodeFeatureExtractor.indentationConsistency
                   (CodeFeatureExtractor.structural f)) (of_Z 1) = true
     /\ num_eqb (CodeFeatureExtractor.commentDensity
                   (CodeFeatureExtractor.comments f)) (of_Z 0) = true
     /\ num_eqb (CodeFeatureExtractor.camelCaseRatio
                   (CodeFeatureExtractor.naming f)) (of_Z 0) = true
     /\ num_eqb (CodeFeatureExtractor.duplicateLineRatio
                   (CodeFeatureExtractor.quality f)) (of_Z 0) = true
     /\ num_eqb (CodeFeatureExtractor.typingSpeed
                   (CodeFeatureExtractor.temporal f)) (of_Z 0) = true
     /\ num_eqb (CodeFeatureExtractor.pasteRatio
                   (CodeFeatureExtractor.temporal f)) (of_Z 0) = true)
  /\ (exists f,
        CodeFeatureExtractor.extract Samples.detectLanguage
          Samples.getExtension Samples.plainLine (lit "/work/src/a.ts")
          None 1700000000000 = Some f
        /\ num_eqb (CodeFeatureExtractor.editFrequency
                      (CodeFeatureExtractor.temporal f)) (of_Z 0) = true).
Proof.
  split.
  - destruct (extract_returns_finite_features
                Samples.detectLanguage Samples.getExtension
                [] (lit "/work/src/a.ts") (Some Samples.untouched)
                1700000000000)
      as (f & Hf & _ & Hind & Hden & Hnam & Hdup & Htime & Hin & _).
    exists f. split; [exact Hf|].
    split; [apply Hind; reflexivity|].
    split; [apply Hden; injection Hf as <-; reflexivity|].
    split; [apply Hnam; reflexivity|].
    split; [apply Hdup; reflexivity|].
    split; [apply (Htime _ eq_refl); reflexivity|].
    apply (Hin _ eq_refl); reflexivity.
  - destruct (extract_returns_finite_features
                Samples.detectLanguage Samples.getExtension
                Samples.plainLine (lit "/work/src/a.ts") None 1700000000000)
      as (f & Hf & _ & _ & _ & _ & _ & _ & _ & Hnone).
    exists f. split; [exact Hf|]. apply Hnone. reflexivity.
Defined.

(* ===================================================================== *)
(** * The primary language *)
(* ===================================================================== *)

Section PrimaryLanguage.

Import SkillAnalysisService LanguageCounts.

Lemma str_eqb_eq (a b : jsstring) : str_eqb a b = true <-> a = b.
Proof.
  revert b. induction a as [|x a IH]; intros [|y b]; simpl;
    try (split; [discriminate|congruence]); [tauto|].
  rewrite andb_true_iff, N.eqb_eq, IH. split.
  - intros [-> ->]. reflexivity.
  - intros H. injection H as -> ->. auto.
Qed.

Lemma str_eqb_refl (a : jsstring) : str_eqb a a = true.
Proof. now apply str_eqb_eq. Qed.

Lemma str_eqb_neq (a b : jsstring) : str_eqb a b = false <-> a <> b.
Proof.
  rewrite <- str_eqb_eq. destruct (str_eqb a b); split; congruence.
Qed.

Lemma member_In (x : jsstring) (l : list jsstring) :
  member x l = true <-> In x l.
Proof.
  unfold member. rewrite existsb_exists. split.
  - intros (y & Hy & E). apply str_eqb_eq in E. now subst.
  - intros H. exists x. split; [exact H|apply str_eqb_refl].
Qed.

(** Reading a count back after a write. *)
Lemma countOf_setCount (d : list (jsstring * Z)) (k k' : jsstring) (n : Z) :
  countOf (setCount d k n) k'
  = if str_eqb k' k then Some n else countOf d k'.
Proof.
  induction d as [|[k0 n0] d IH]; simpl.
  - reflexivity.
  - destruct (str_eqb k k0) eqn:E; simpl.
    + apply str_eqb_eq in E. subst k0.
      destruct (str_eqb k' k); reflexivity.
    + rewrite IH. destruct (str_eqb k' k0) eqn:E0; [|reflexivity].
      apply str_eqb_eq in E0. subst k0.
      destruct (str_eqb k' k) eqn:E1; [|reflexivity].
      apply str_eqb_eq in E1. subst k'. rewrite str_eqb_refl in E.
      discriminate.
Qed.

(** A write keeps the properties in creation order; a new one goes last. *)
Lemma keys_setCount (d : list (jsstring * Z)) (k : jsstring) (n : Z) :
  List.map fst (setCount d k n)
  = if member k (List.map fst d) then List.map fst d
    else List.map fst d ++ [k].
Proof.
  induction d as [|[k0 n0] d IH]; simpl.
  - reflexivity.
  - destruct (str_eqb k k0) eqn:E; simpl; [reflexivity|].
    rewrite IH. destruct (member k (List.map fst d)); reflexivity.
Qed.

Lemma filesIn_snoc (l : jsstring) (files : list FileMetrics) (f : FileMetrics) :
  filesIn l (files ++ [f])
  = filesIn l files + (if str_eqb (language f) l then 1 else 0).
Proof.
  unfold filesIn. rewrite List.filter_app, length_app. simpl.
  destruct (str_eqb (language f) l); simpl; lia.
Qed.

Lemma filesIn_nonneg (l : jsstring) (files : list FileMetrics) :
  0 <= filesIn l files.
Proof. unfold filesIn. lia. Qed.

(** After the loop over the files, the object holds the languages in the
    order of their first file, each with the number of its files. *)
Lemma counted_languages (files : list FileMetrics) :
  let d := fold_left countLanguage files [] in
  List.map fst d = firstSeen (List.map language files)
  /\ forall l, countOf d l
               = if filesIn l files =? 0 then None
                 else Some (filesIn l files).
Proof.
  induction files as [|f files IH] using rev_ind.
  - simpl. split; reflexivity.
  - destruct IH as [IHk IHc]. rewrite fold_left_app.
    cbn [fold_left]. split.
    + unfold countLanguage at 1. rewrite keys_setCount, IHk.
      unfold firstSeen. rewrite List.map_app, fold_left_app. reflexivity.
    + intros l. unfold countLanguage at 1.
      rewrite countOf_setCount, filesIn_snoc.
      pose proof (filesIn_nonneg l files) as Hl.
      destruct (str_eqb l (language f)) eqn:E.
      * apply str_eqb_eq in E. subst l. rewrite str_eqb_refl.
        rewrite IHc.
        destruct (filesIn (language f) files =? 0) eqn:E0.
        -- apply Z.eqb_eq in E0. rewrite E0. reflexivity.
        -- apply Z.eqb_neq in E0.
           replace (filesIn (language f) files =? 0) with false
             by (symmetry; now apply Z.eqb_neq).
           destruct (filesIn (language f) files + 1 =? 0) eqn:E1;
             [apply Z.eqb_eq in E1; lia|reflexivity].
      * assert (E' : str_eqb (language f) l = false).
        { apply str_eqb_neq. apply str_eqb_neq in E. congruence. }
        rewrite E', Z.add_0_r. apply IHc.
Qed.

Lemma In_firstSeen (names : list jsstring) :
  forall x, In x (firstSeen names) <-> In x names.
Proof.
  induction names as [|y names IH] using rev_ind; intros x.
  - simpl. tauto.
  - unfold firstSeen in *. rewrite fold_left_app. simpl.
    rewrite in_app_iff. simpl.
    destruct (member y _) eqn:E.
    + apply member_In in E. rewrite IH in E. rewrite IH.
      intuition (subst; auto).
    + rewrite in_app_iff. simpl. rewrite IH. tauto.
Qed.

(** The reduction keeps the last of the names with the greatest count:
    what comes before it has at most its count, what comes after it has
    less. *)
Lemma reduce_keeps_last_greatest (d : list (jsstring * Z))
    (c : jsstring -> Z) (L : list jsstring) :
  forall acc,
    (forall x, In x (acc :: L) -> countOf d x = Some (c x)) ->
    let r := fold_left (fun a b => if countGreater d a b then a else b) L acc in
    exists pre post,
      acc :: L = pre ++ r :: post
      /\ (forall x, In x pre -> c x <= c r)
      /\ (forall x, In x post -> c x < c r).
Proof.
  induction L as [|b L IH]; intros acc Hc; cbn [fold_left].
  - exists [], []. repeat split; simpl; tauto.
  - assert (Hgt : countGreater d acc b = (c acc >? c b)).
    { unfold countGreater.
      rewrite (Hc acc (or_introl eq_refl)).
      rewrite (Hc b (or_intror (or_introl eq_refl))). reflexivity. }
    rewrite Hgt. destruct (c acc >? c b) eqn:E.
    + apply Z.gtb_lt in E.
      destruct (IH acc) as (pre & post & Hsplit & Hpre & Hpost).
      { intros x [<-|Hx]; apply Hc; simpl; auto. }
      destruct pre as [|a pre].
      * simpl in Hsplit. injection Hsplit as Hr HL.
        exists [], (b :: post). rewrite <- Hr in *. subst post.
        repeat split; simpl; try tauto.
        intros x [<-|Hx]; [lia|auto].
      * simpl in Hsplit. injection Hsplit as Ha HL. subst a.
        exists (acc :: b :: pre), post.
        split; [simpl; do 2 f_equal; exact HL|]. split; [|exact Hpost].
        pose proof (Hpre acc (or_introl eq_refl)).
        intros x [<-|[<-|Hx]]; [assumption|lia|apply Hpre; simpl; auto].
    + assert (E' : c acc <= c b).
      { destruct (Z.gtb_spec (c acc) (c b)); [discriminate|lia]. }
      destruct (IH b) as (pre & post & Hsplit & Hpre & Hpost).
      { intros x Hx. apply Hc. simpl. simpl in Hx. tauto. }
      exists (acc :: pre), post. rewrite Hsplit.
      split; [reflexivity|]. split; [|exact Hpost].
      intros x [<-|Hx]; [|auto].
      destruct pre as [|a pre].
      * simpl in Hsplit. injection Hsplit as Hr _. rewrite <- Hr. exact E'.
      * simpl in Hsplit. injection Hsplit as Ha _. subst a.
        pose proof (Hpre b (or_introl eq_refl)). lia.
Qed.

(** The same for the start value that [pickPrimary] takes. *)
Lemma pickPrimary_last_greatest (d : list (jsstring * Z))
    (c : jsstring -> Z) (first : jsstring) (others : list jsstring) :
  (forall x, In x (first :: others) -> countOf d x = Some (c x)) ->
  (forall x, ~ In x (first :: others) -> countOf d x = None) ->
  exists pre post,
    first :: others = pre ++ pickPrimary d (first :: others) :: post
    /\ (forall x, In x pre -> c x <= c (pickPrimary d (first :: others)))
    /\ (forall x, In x post -> c x < c (pickPrimary d (first :: others))).
Proof.
  intros Hin Hout. unfold pickPrimary.
  assert (Hself : forall a, countGreater d a a = false).
  { intros a. unfold countGreater. destruct (countOf d a); [|reflexivity].
    destruct (Z.gtb_spec z z); [lia|reflexivity]. }
  destruct (CodeFeatureExtractor.len first =? 0) eqn:E.
  - (* the first name is empty: the reduction starts from 'unknown' *)
    destruct (member (lit "unknown") (first :: others)) eqn:Hu.
    + apply member_In in Hu.
      pose proof (reduce_keeps_last_greatest d c (first :: others)
                    (lit "unknown")) as HA.
      cbv zeta in HA.
      set (r := fold_left _ (first :: others) (lit "unknown")) in *.
      destruct HA as (pre & post & Hsplit & Hpre & Hpost).
      { intros x [<-|Hx]; auto. }
      destruct pre as [|a pre]; cbn [app] in Hsplit;
        injection Hsplit as Hr HL.
      * exfalso. specialize (Hpost (lit "unknown")).
        rewrite <- HL in Hpost. specialize (Hpost Hu).
        rewrite <- Hr in Hpost. lia.
      * exists pre, post. split; [exact HL|].
        split; [|exact Hpost]. intros x Hx. apply Hpre. simpl. auto.
    + assert (Hu' : ~ In (lit "unknown") (first :: others)).
      { rewrite <- member_In. congruence. }
      assert (Hno : countGreater d (lit "unknown") first = false).
      { unfold countGreater. now rewrite (Hout _ Hu'). }
      cbn [fold_left]. rewrite Hno.
      apply reduce_keeps_last_greatest. exact Hin.
  - cbn [fold_left]. rewrite Hself.
    apply reduce_keeps_last_greatest. exact Hin.
Qed.

Lemma filesIn_positive (l : jsstring) (files : list FileMetrics) :
  In l (List.map language files) <-> 0 < filesIn l files.
Proof.
  unfold filesIn. induction files as [|f files IH]; simpl.
  - split; [tauto|lia].
  - destruct (str_eqb (language f) l) eqn:E; simpl.
    + apply str_eqb_eq in E. split; [lia|auto].
    + apply str_eqb_neq in E. rewrite <- IH. tauto.
Qed.

End PrimaryLanguage.

(** C4, as stated: of two files, the first in TypeScript and the second in
    Python, each language has one file and TypeScript is encountered first,
    yet the primary language is Python. *)
Lemma primaryLanguage_tie_goes_to_the_last :
  SkillAnalysisService.bm_primaryLanguage
    (SkillAnalysisService.extractBehavioralMetrics Samples.twoFiles 60000 0)
  = lit "Python"
  /\ LanguageCounts.filesIn (lit "TypeScript") Samples.twoFiles
     = LanguageCounts.filesIn (lit "Python") Samples.twoFiles
  /\ LanguageCounts.firstSeen (List.map language Samples.twoFiles)
     = [lit "TypeScript"; lit "Python"].
Proof. vm_compute. auto. Qed.

(** C4, amended.  For every non-empty collection of per-file counters, the
    primary language is a language of the collection that no other language
    exceeds in number of files; among the languages tied for the highest
    number it is the one encountered last: every language first encountered
    after it has strictly fewer files. *)
Theorem primaryLanguage_is_last_most_frequent :
  forall (files : list FileMetrics) (totalActiveTime totalIdleTime : Z),
    files <> [] ->
    let p := SkillAnalysisService.bm_primaryLanguage
               (SkillAnalysisService.extractBehavioralMetrics
                  files totalActiveTime totalIdleTime) in
    In p (List.map language files)
    /\ (forall f, In f files ->
          LanguageCounts.filesIn (language f) files
          <= LanguageCounts.filesIn p files)
    /\ exists earlier later,
         LanguageCounts.firstSeen (List.map language files)
         = earlier ++ p :: later
         /\ forall l, In l later ->
              LanguageCounts.filesIn l files < LanguageCounts.filesIn p files.
Proof.
  intros files ta ti Hne.
  unfold SkillAnalysisService.extractBehavioralMetrics.
  cbn [SkillAnalysisService.bm_primaryLanguage].
  destruct (counted_languages files) as [Hkeys Hcount].
  set (d := fold_left SkillAnalysisService.countLanguage files []) in *.
  set (c := fun l => LanguageCounts.filesIn l files).
  assert (Hin : forall x, In x (List.map fst d) ->
                          SkillAnalysisService.countOf d x = Some (c x)).
  { intros x Hx. rewrite Hkeys, In_firstSeen, filesIn_positive in Hx.
    rewrite Hcount.
    destruct (Z.eqb_spec (LanguageCounts.filesIn x files) 0); [lia|].
    reflexivity. }
  assert (Hout : forall x, ~ In x (List.map fst d) ->
                           SkillAnalysisService.countOf d x = None).
  { intros x Hx. rewrite Hkeys, In_firstSeen, filesIn_positive in Hx.
    rewrite Hcount.
    pose proof (filesIn_nonneg x files).
    destruct (Z.eqb_spec (LanguageCounts.filesIn x files) 0); [reflexivity|].
    lia. }
  destruct (List.map fst d) as [|first others] eqn:Hd.
  { exfalso. destruct files as [|f files]; [congruence|].
    assert (Hf : In (language f) []).
    { rewrite Hkeys. apply In_firstSeen. simpl. auto. }
    exact Hf. }
  destruct (pickPrimary_last_greatest d c first others Hin Hout)
    as (pre & post & Hsplit & Hpre & Hpost).
  set (p := SkillAnalysisService.pickPrimary d (first :: others)) in *.
  assert (Hp : In p (first :: others)).
  { rewrite Hsplit. apply in_app_iff. simpl. auto. }
  split; [|split].
  - apply In_firstSeen. rewrite <- Hkeys. exact Hp.
  - intros f Hf.
    assert (Hl : In (language f) (first :: others)).
    { rewrite Hkeys. apply In_firstSeen. now apply in_map. }
    rewrite Hsplit in Hl. apply in_app_iff in Hl.
    destruct Hl as [Hl|[Hl|Hl]].
    + now apply Hpre.
    + rewrite <- Hl. fold (c p). unfold c. lia.
    + apply Z.lt_le_incl. now apply Hpost.
  - exists pre, post. split; [rewrite <- Hkeys; exact Hsplit|].
    exact Hpost.
Qed.

Lemma primaryLanguage_is_last_most_frequent_witness :
  exists earlier later,
    LanguageCounts.firstSeen (List.map language Samples.twoFiles)
    = earlier
      ++ SkillAnalysisService.bm_primaryLanguage
           (SkillAnalysisService.extractBehavioralMetrics
              Samples.twoFiles 60000 0) :: later
    /\ forall l, In l later ->
         LanguageCounts.filesIn l Samples.twoFiles
         < LanguageCounts.filesIn
             (SkillAnalysisService.bm_primaryLanguage
                (SkillAnalysisService.extractBehavioralMetrics
                   Samples.twoFiles 60000 0)) Samples.twoFiles.
Proof.
  apply (primaryLanguage_is_last_most_frequent Samples.twoFiles 60000 0).
  discriminate.
Defined.

(* ===================================================================== *)
(** * Category scores and the overall score *)
(* ===================================================================== *)

Section ScoreBounds.

Import SkillAnalysisService SkillInputs.

Local Open Scope Q_scope.

Lemma Qfloor_between (x : Q) (lo hi : Z) :
  inject_Z lo <= x -> x < inject_Z (hi + 1) ->
  (lo <= Qfloor x <= hi)%Z.
Proof.
  intros Hlo Hhi. split.
  - rewrite <- (Qfloor_Z lo). now apply Qfloor_resp_le.
  - apply Z.lt_succ_r. change (Z.succ hi) with (hi + 1)%Z.
    rewrite Zlt_Qlt.
    eapply Qle_lt_trans; [apply Qfloor_le|exact Hhi].
Qed.

Lemma ltb_of_Z (a b : Z) : ltb (of_Z a) (of_Z b) = (a <? b)%Z.
Proof.
  unfold ltb, of_Z, Qpos_b.
  destruct (Qle_bool (inject_Z b - inject_Z a) 0) eqn:E; simpl.
  - apply Qle_bool_iff in E. symmetry. apply Z.ltb_ge.
    rewrite Zle_Qle. lra.
  - symmetry. apply Z.ltb_lt. rewrite Zlt_Qlt.
    assert (K : ~ inject_Z b - inject_Z a <= 0).
    { intros K. apply Qle_bool_iff in K. congruence. }
    lra.
Qed.

Lemma max_of_Z (a b : Z) : JsNumber.max (of_Z a) (of_Z b) = of_Z (Z.max a b).
Proof.
  change (JsNumber.max (of_Z a) (of_Z b))
    with (if ltb (of_Z a) (of_Z b) then of_Z b else of_Z a).
  rewrite ltb_of_Z. destruct (Z.ltb_spec a b).
  - now rewrite Z.max_r by lia.
  - now rewrite Z.max_l by lia.
Qed.

Lemma min_of_Z (a b : Z) : JsNumber.min (of_Z a) (of_Z b) = of_Z (Z.min a b).
Proof.
  change (JsNumber.min (of_Z a) (of_Z b))
    with (if ltb (of_Z b) (of_Z a) then of_Z b else of_Z a).
  rewrite ltb_of_Z. destruct (Z.ltb_spec b a).
  - now rewrite Z.min_r by lia.
  - now rewrite Z.min_l by lia.
Qed.

(** [Math.round(ratio * 100)] for a ratio. *)
Lemma round_percent (x : number) :
  isRatio x ->
  exists z, round (mul x (of_Z 100)) = of_Z z /\ (0 <= z <= 100)%Z.
Proof.
  intros (q & -> & H0 & H1).
  exists (Qfloor (q * inject_Z 100 + (1 # 2))). split; [reflexivity|].
  apply Qfloor_between; change (100 + 1)%Z with 101%Z; unfold inject_Z; lra.
Qed.

(** [Math.max(0, Math.round(x))] for a finite [x] of at most 100.5. *)
Lemma clamped_round (q : Q) :
  q < 100 + (1 # 2) ->
  exists z, JsNumber.max (of_Z 0) (round (Fin q)) = of_Z z
            /\ (0 <= z <= 100)%Z.
Proof.
  intros Hq. exists (Z.max 0 (Qfloor (q + (1 # 2)))).
  split; [apply max_of_Z|].
  assert (Hz : (Qfloor (q + (1 # 2)) <= 100)%Z).
  { apply (Qfloor_between _ (Qfloor (q + (1 # 2))) 100);
      [apply Qfloor_le|].
    change (100 + 1)%Z with 101%Z. unfold inject_Z. lra. }
  lia.
Qed.

(** The edits per minute are finite and not negative. *)
Lemma editsPerMinute_nonneg (edits active : Z) :
  (0 <= edits)%Z ->
  exists e,
    (if gtb (div (of_Z active) (of_Z 60000)) (of_Z 0)
     then div (of_Z edits) (div (of_Z active) (of_Z 60000))
     else of_Z 0) = Fin e
    /\ 0 <= e.
Proof.
  intros He.
  change (div (of_Z active) (of_Z 60000))
    with (Fin (inject_Z active / inject_Z 60000)).
  destruct (gtb (Fin (inject_Z active / inject_Z 60000)) (of_Z 0)) eqn:E.
  - pose proof (gtb_0_nonzero _ E) as Hnz.
    unfold div, of_Z. rewrite Hnz. eexists. split; [reflexivity|].
    assert (Hpos : 0 < inject_Z active / inject_Z 60000).
    { unfold gtb, ltb, of_Z, Qpos_b in E. apply negb_true_iff in E.
      assert (K : ~ inject_Z active / inject_Z 60000 - inject_Z 0 <= 0).
      { intros K. apply Qle_bool_iff in K. congruence. }
      unfold inject_Z in K at 3. lra. }
    apply Qle_shift_div_l; [exact Hpos|].
    rewrite Qmult_0_l. change 0 with (inject_Z 0).
    rewrite <- Zle_Qle. exact He.
  - exists 0. split; [reflexivity|lra].
Qed.


Lemma sum_nonneg {A} (g : A -> Z) (l : list A) (init : Z) :
  (0 <= init)%Z -> (forall x, In x l -> 0 <= g x)%Z ->
  (0 <= fold_left (fun sum x => sum + g x)%Z l init)%Z.
Proof.
  revert init. induction l as [|x l IH]; intros init Hi Hl; simpl.
  - exact Hi.
  - apply IH.
    + specialize (Hl x (or_introl eq_refl)). lia.
    + intros y Hy. apply Hl. now right.
Qed.

(** [total > 0 ? part / total : 0] is a ratio when [0 <= part <= total]. *)
Lemma guarded_ratio (part total : Z) :
  (0 <= part <= total)%Z ->
  isRatio (if (total >? 0)%Z then div (of_Z part) (of_Z total) else of_Z 0).
Proof.
  intros [H0 H1]. destruct (total >? 0)%Z eqn:E.
  - apply Z.gtb_lt in E. unfold div, of_Z.
    rewrite Qzero_b_inject_Z by lia.
    eexists. split; [reflexivity|].
    assert (Ht : 0 < inject_Z total).
    { change 0 with (inject_Z 0). rewrite <- Zlt_Qlt. exact E. }
    split.
    + apply Qle_shift_div_l; [exact Ht|]. rewrite Qmult_0_l.
      change 0 with (inject_Z 0). rewrite <- Zle_Qle. exact H0.
    + apply Qle_shift_div_r; [exact Ht|]. rewrite Qmult_1_l.
      rewrite <- Zle_Qle. exact H1.
  - exists 0. repeat split; lra.
Qed.

(** The metrics that [extractBehavioralMetrics] derives from counters and
    durations that are not negative are well formed. *)
Lemma extracted_metrics_wellFormed (files : list FileMetrics)
    (totalActiveTime totalIdleTime : Z) :
  (forall f, In f files -> counted f) ->
  (0 <= totalActiveTime)%Z -> (0 <= totalIdleTime)%Z ->
  wellFormed (extractBehavioralMetrics files totalActiveTime totalIdleTime).
Proof.
  intros Hfiles Ha Hi.
  assert (Hk := sum_nonneg keystrokeCount files 0 (Z.le_refl 0)
                  (fun f Hf => proj1 (Hfiles f Hf))).
  assert (Hp := sum_nonneg pasteCount files 0 (Z.le_refl 0)
                  (fun f Hf => proj1 (proj2 (Hfiles f Hf)))).
  assert (Hla := sum_nonneg linesAdded files 0 (Z.le_refl 0)
                   (fun f Hf => proj1 (proj2 (proj2 (Hfiles f Hf))))).
  assert (Hld := sum_nonneg linesDeleted files 0 (Z.le_refl 0)
                   (fun f Hf => proj1 (proj2 (proj2 (proj2 (Hfiles f Hf)))))).
  assert (He := sum_nonneg editCount files 0 (Z.le_refl 0)
                  (fun f Hf => proj2 (proj2 (proj2 (proj2 (Hfiles f Hf)))))).
  unfold wellFormed, extractBehavioralMetrics.
  cbn [bm_typingToTotalRatio bm_focusRatio bm_backspaceRatio bm_editCount].
  split; [apply guarded_ratio; lia|].
  split; [apply guarded_ratio; lia|].
  split; [|exact He].
  destruct (_ >? 0)%Z eqn:E.
  - apply Z.gtb_lt in E. unfold div, of_Z.
    rewrite Qzero_b_inject_Z by lia.
    eexists. split; [reflexivity|].
    apply Qle_shift_div_l.
    + change 0 with (inject_Z 0). rewrite <- Zlt_Qlt. exact E.
    + rewrite Qmult_0_l. change 0 with (inject_Z 0). rewrite <- Zle_Qle.
      exact Hld.
  - exists 0. split; [reflexivity|lra].
Qed.

(** The five category scores of well-formed metrics are integers between
    0 and 100. *)
Lemma category_scores (m : BehavioralMetrics) :
  wellFormed m ->
  exists z1 z2 z3 z4 z5 : Z,
    List.map score (calculateCategoryScores m)
    = [of_Z z1; of_Z z2; of_Z z3; of_Z z4; of_Z z5]
    /\ ((0 <= z1 <= 100)%Z /\ (0 <= z2 <= 100)%Z /\ (0 <= z3 <= 100)%Z
        /\ (0 <= z4 <= 100)%Z /\ (0 <= z5 <= 100)%Z).
Proof.
  intros (Htyping & Hfocus & (b & Hb & Hb0) & Hedits).
  destruct (round_percent _ Htyping) as (z1 & H1 & B1).
  destruct (round_percent _ Hfocus) as (z3 & H3 & B3).
  destruct (editsPerMinute_nonneg _ (bm_activeTimeMs m) Hedits)
    as (e & He & He0).
  destruct (clamped_round (inject_Z 100 + - (e * inject_Z 10)))
    as (z2 & H2 & B2); [unfold inject_Z; lra|].
  destruct (clamped_round ((inject_Z 1 + - b) * inject_Z 100))
    as (z4 & H4 & B4); [unfold inject_Z; lra|].
  set (n := CodeFeatureExtractor.len (bm_languages m)).
  assert (Hn : (0 <= n)%Z) by (unfold n, CodeFeatureExtractor.len; lia).
  exists z1, z2, z3, z4, (Z.min 100 (n * 20)).
  split; [|lia].
  unfold calculateCategoryScores. cbn [List.map score scored].
  rewrite H1, H3, He, Hb.
  change (sub (of_Z 100) (mul (Fin e) (of_Z 10)))
    with (Fin (inject_Z 100 + - (e * inject_Z 10))).
  change (mul (sub (of_Z 1) (Fin b)) (of_Z 100))
    with (Fin ((inject_Z 1 + - b) * inject_Z 100)).
  rewrite H2, H4.
  change (mul (of_Z (CodeFeatureExtractor.len (bm_languages m))) (of_Z 20))
    with (of_Z (n * 20)).
  rewrite min_of_Z. reflexivity.
Qed.


Lemma halfTyped_wellFormed : wellFormed Samples.halfTyped.
Proof.
  unfold wellFormed, isRatio. simpl. repeat split.
  - exists (1 # 2). repeat split; lra.
  - exists (inject_Z 1). repeat split; unfold inject_Z; lra.
  - exists (inject_Z 0). split; [reflexivity|unfold inject_Z; lra].
  - lia.
Qed.

End ScoreBounds.

Section ScoresOfFiniteMetrics.

Import SkillAnalysisService SkillInputs.

Local Open Scope Q_scope.




End ScoresOfFiniteMetrics.




(* ===================================================================== *)
(** * Recommendations *)
(* ===================================================================== *)

Section Recommendations.

Import SkillAnalysisService SkillInputs.

Variable m : BehavioralMetrics.



Lemma In_insertSorted {A} (compare : A -> A -> number) (x y : A)
    (l : list A) :
  In y (insertSorted compare x l) <-> y = x \/ In y l.
Proof.
  induction l as [|z l IH]; simpl; [intuition auto|].
  destruct (negative (compare z x)); simpl; [rewrite IH|]; intuition auto.
Qed.

(** Sorting keeps the elements. *)
Lemma In_sort {A} (compare : A -> A -> number) (y : A) (l : list A) :
  In y (sort compare l) <-> In y l.
Proof.
  induction l as [|x l IH]; simpl; [tauto|].
  unfold sort in *. rewrite In_insertSorted, IH. intuition auto.
Qed.








(** The five scores belong to five different categories. *)
Lemma categories_differ (s s' : SkillScore) :
  In s (calculateCategoryScores m) -> In s' (calculateCategoryScores m) ->
  category s = category s' -> s = s'.
Proof.
  unfold calculateCategoryScores. cbv zeta. simpl In.
  intros Hs Hs' Hc.
  repeat match goal with
    | H : _ \/ _ |- _ => destruct H
    | H : False |- _ => destruct H
    end; subst; simpl in Hc; try discriminate; reflexivity.
Qed.

End Recommendations.




Lemma mostlyPasted_wellFormed : SkillInputs.wellFormed Samples.mostlyPasted.
Proof.
  unfold SkillInputs.wellFormed, SkillInputs.isRatio. simpl. repeat split.
  - exists (1 # 4)%Q. repeat split; lra.
  - exists (1 # 2)%Q. repeat split; lra.
  - exists (1 # 2)%Q. split; [reflexivity|lra].
  - lia.
Qed.


(* ===================================================================== *)
(** * The language detector *)
(* ===================================================================== *)

Section LanguageDetection.

Import LanguageDetector Backtracking Paths.

(** The iteration [f*] of a class tries the runs of members from the
    longest to the empty one. *)
Lemma run_Star_Cls (f : N -> bool) (k : cursor -> option cursor)
    (b : option N) (s : jsstring) :
  run (Star (Cls f)) (Cursor b s) k = classRun f k b s.
Proof.
  revert b. induction s as [|y t IH]; intros b; [reflexivity|].
  change (run (Star (Cls f)) (Cursor b (y :: t)) k)
    with (match (if f y
                 then if advanced (Cursor b (y :: t)) (Cursor (Some y) t)
                      then run (Star (Cls f)) (Cursor (Some y) t) k
                      else None
                 else None) with
          | Some e => Some e
          | None => k (Cursor b (y :: t))
          end).
  cbn [classRun]. destruct (f y); [|reflexivity].
  unfold advanced. cbn [rest length].
  replace (length t <? S (length t))%nat with true
    by (symmetry; apply Nat.ltb_lt; lia).
  now rewrite IH.
Qed.

(** Followed by [$], the iteration succeeds exactly when everything
    that remains is in the class. *)
Lemma classRun_Eol (f : N -> bool) (b : option N) (s : jsstring) :
  classRun f (fun c => run Eol c Some) b s
  = if forallb f s then Some (Cursor (fold_left (fun _ x => Some x) s b) [])
    else None.
Proof.
  revert b. induction s as [|y t IH]; intros b; [reflexivity|].
  cbn [classRun forallb]. destruct (f y); [|reflexivity].
  rewrite IH. cbn [andb fold_left]. now destruct (forallb f t).
Qed.

Lemma matchAt_extension (prev : option N) (s : jsstring) :
  matchAt extensionPattern (Cursor prev s)
  = match s with
    | 46%N :: y :: t =>
        if forallb notDot (y :: t)
        then Some (Cursor (fold_left (fun _ x => Some x) t (Some y)) [])
        else None
    | _ => None
    end.
Proof.
  destruct s as [|c s]; [reflexivity|].
  change (matchAt extensionPattern (Cursor prev (c :: s)))
    with (if (46 =? c)%N
          then match s with
               | y :: t =>
                   if notDot y
                   then run (Star (Cls notDot)) (Cursor (Some y) t)
                          (fun c => run Eol c Some)
                   else None
               | [] => None
               end
          else None).
  destruct (46 =? c)%N eqn:E.
  - apply N.eqb_eq in E. subst c.
    destruct s as [|y t]; [reflexivity|].
    cbn [forallb]. destruct (notDot y); [|reflexivity].
    now rewrite run_Star_Cls, classRun_Eol.
  - apply N.eqb_neq in E.
    destruct c as [|p]; [reflexivity|].
    do 6 (destruct p as [p|p|]; try reflexivity); congruence.
Qed.

(** A dot followed by text without a dot, at the end: the pattern matches
    there and nowhere before. *)
Lemma search_extension (pre ext : jsstring) (prev : option N) :
  ext <> [] -> dotless ext = true ->
  search extensionPattern prev (pre ++ 46%N :: ext)
  = Some (pre, 46%N :: ext, []).
Proof.
  intros Hne Hd. revert prev.
  assert (Hlast : forall prev,
           search extensionPattern prev (46%N :: ext)
           = Some ([], 46%N :: ext, [])).
  { intros prev. destruct ext as [|y t]; [congruence|].
    cbn [search]. rewrite matchAt_extension.
    change (forallb notDot (y :: t)) with (dotless (y :: t)). rewrite Hd.
    cbn [rest length]. rewrite Nat.sub_0_r.
    change (S (S (length t))) with (length (46%N :: y :: t)).
    now rewrite firstn_all. }
  induction pre as [|c pre IH]; intros prev; [apply Hlast|].
  cbn [app search]. rewrite matchAt_extension, IH.
  destruct c as [|p]; [reflexivity|].
  assert (Hdot : forallb notDot (pre ++ 46%N :: ext) = false).
  { rewrite forallb_app. cbn [forallb]. apply andb_false_r. }
  do 6 (destruct p as [p|p|]; try reflexivity).
  destruct (pre ++ 46%N :: ext) as [|y t] eqn:El; [reflexivity|].
  now rewrite Hdot.
Qed.

(** Without a dot the pattern matches nowhere. *)
Lemma search_dotless (s : jsstring) (prev : option N) :
  dotless s = true -> search extensionPattern prev s = None.
Proof.
  revert prev. induction s as [|c s IH]; intros prev Hd; [reflexivity|].
  cbn [search]. rewrite matchAt_extension.
  cbn [dotless forallb] in Hd. apply andb_prop in Hd as [Hc Hs].
  rewrite (IH _ Hs).
  destruct c as [|p]; [reflexivity|].
  do 6 (destruct p as [p|p|]; try reflexivity); discriminate Hc.
Qed.

(** Nor does it match when the text ends with a dot. *)
Lemma search_trailing_dot (pre : jsstring) (prev : option N) :
  search extensionPattern prev (pre ++ [46%N]) = None.
Proof.
  revert prev. induction pre as [|c pre IH]; intros prev; [reflexivity|].
  cbn [app search]. rewrite matchAt_extension, IH.
  destruct c as [|p]; [reflexivity|].
  assert (Hdot : forallb notDot (pre ++ [46%N]) = false).
  { rewrite forallb_app. cbn [forallb]. apply andb_false_r. }
  do 6 (destruct p as [p|p|]; try reflexivity).
  destruct (pre ++ [46%N]) as [|y t] eqn:El; [reflexivity|].
  now rewrite Hdot.
Qed.


Lemma captured_extension (pre ext : jsstring) :
  ext <> [] -> dotless ext = true ->
  captured (pre ++ lit "." ++ ext) = Some ext.
Proof.
  intros Hne Hd. unfold captured, match1.
  change (pre ++ lit "." ++ ext) with (pre ++ 46%N :: ext).
  now rewrite search_extension.
Qed.

Lemma captured_none (p : jsstring) :
  dotless p = true \/ (exists pre, p = pre ++ lit ".") ->
  captured p = None.
Proof.
  unfold captured, match1. intros [Hd|[pre ->]].
  - now rewrite search_dotless.
  - change (pre ++ lit ".") with (pre ++ [46%N]).
    now rewrite search_trailing_dot.
Qed.

(** Lower-casing moves the capitals to the small letters and nothing
    else: it neither makes nor removes a dot. *)
Lemma toLowerCase_dotless (s : jsstring) :
  dotless (toLowerCase s) = dotless s.
Proof.
  unfold dotless, toLowerCase. induction s as [|c s IH]; [reflexivity|].
  cbn [List.map forallb]. rewrite IH. f_equal.
  unfold notDot, isUpper, JsString.between.
  destruct (65 <=? c)%N eqn:E1; [|reflexivity].
  destruct (c <=? 90)%N eqn:E2; [|reflexivity].
  cbn [andb]. apply N.leb_le in E1.
  replace (c + 32 =? 46)%N with false by (symmetry; apply N.eqb_neq; lia).
  replace (c =? 46)%N with false by (symmetry; apply N.eqb_neq; lia).
  reflexivity.
Qed.

Lemma toLowerCase_idempotent (s : jsstring) :
  toLowerCase (toLowerCase s) = toLowerCase s.
Proof.
  unfold toLowerCase. rewrite List.map_map. apply List.map_ext.
  intros c. destruct (isUpper c) eqn:E; [|now rewrite E].
  unfold isUpper, JsString.between in *.
  apply andb_prop in E as [E1 E2].
  apply N.leb_le in E1. apply N.leb_le in E2.
  replace (c + 32 <=? 90)%N with false by (symmetry; apply N.leb_gt; lia).
  now rewrite andb_false_r.
Qed.

Lemma toLowerCase_nonempty (s : jsstring) : s <> [] -> toLowerCase s <> [].
Proof. destruct s; [congruence|discriminate]. Qed.

Lemma lookup_In (key : jsstring) (table : list (jsstring * jsstring))
    (v : jsstring) :
  lookup key table = Some v -> In v (List.map snd table).
Proof.
  induction table as [|[k w] more IH]; [discriminate|].
  cbn [lookup List.map snd]. destruct (str_eqb key k).
  - intros [= ->]. now left.
  - intros H. right. now apply IH.
Qed.

Lemma detectLanguage_named (p : jsstring) :
  In (detectLanguage p) languageNames.
Proof.
  unfold detectLanguage, languageNames.
  destruct (captured p) as [g|]; [|now left].
  destruct (lookup _ EXTENSION_MAP) as [name|] eqn:E; [|now left].
  right. eapply lookup_In, E.
Qed.

Lemma LangKey_eqb_eq (a b : LangKey) : LangKey_eqb a b = true <-> a = b.
Proof. destruct a, b; cbn; split; congruence. Qed.

Lemma keys_agree :
  forallb (fun name =>
    forallb (fun k =>
      LangKey_eqb k default
      || Bool.eqb (LangKey_eqb (getLanguageKey name) k)
                  (member name (languagesOfKey k))) keys)
    languageNames = true.
Proof. vm_compute. reflexivity. Qed.

End LanguageDetection.

(** X1.  The language is decided by the text after the last dot of the
    path alone, whatever the case of its letters: the directories and the
    base name do not matter, and [getExtension] is that text in lower
    case.  (For an extension of ASCII characters, on which [toLowerCase]
    is modelled exactly.) *)
Theorem detectLanguage_by_last_extension :
  forall pre ext : jsstring,
    ext <> [] -> Paths.dotless ext = true -> Paths.isAscii ext = true ->
    LanguageDetector.detectLanguage (pre ++ lit "." ++ ext)
    = LanguageDetector.detectLanguage (lit "." ++ toLowerCase ext)
    /\ LanguageDetector.getExtension (pre ++ lit "." ++ ext)
       = toLowerCase ext.
Proof.
  intros pre ext Hne Hd _.
  unfold LanguageDetector.detectLanguage, LanguageDetector.getExtension.
  rewrite (captured_extension pre ext Hne Hd).
  assert (Hlow : LanguageDetector.captured (lit "." ++ toLowerCase ext)
                 = Some (toLowerCase ext)).
  { apply (captured_extension [] (toLowerCase ext)).
    - now apply toLowerCase_nonempty.
    - now rewrite toLowerCase_dotless. }
  now rewrite Hlow, toLowerCase_idempotent.
Qed.

Lemma detectLanguage_by_last_extension_witness :
  LanguageDetector.detectLanguage (lit "/home/me/my.project/Main.PY")
  = lit "Python"
  /\ LanguageDetector.getExtension (lit "/home/me/my.project/Main.PY")
     = lit "py".
Proof.
  exact (detectLanguage_by_last_extension
           (lit "/home/me/my.project/Main") (lit "PY")
           ltac:(discriminate) eq_refl eq_refl).
Defined.

(** X2.  A path without a dot, or ending with one, has no extension: the
    language is 'Unknown', [getExtension] is the empty string, the file is
    not a code file and is never analysed, whatever its length. *)
Theorem path_without_extension :
  forall p : jsstring,
    Paths.dotless p = true \/ (exists pre, p = pre ++ lit ".") ->
    LanguageDetector.detectLanguage p = lit "Unknown"
    /\ LanguageDetector.getExtension p = []
    /\ LanguageDetector.isCodeFile p = false
    /\ forall codeLength : Z,
         CodeFeatureExtractor.shouldAnalyze LanguageDetector.isCodeFile
           p codeLength = false.
Proof.
  intros p H.
  assert (E : LanguageDetector.detectLanguage p = lit "Unknown").
  { unfold LanguageDetector.detectLanguage. now rewrite captured_none. }
  assert (C : LanguageDetector.isCodeFile p = false).
  { unfold LanguageDetector.isCodeFile. now rewrite E. }
  repeat split; [exact E| |exact C|].
  - unfold LanguageDetector.getExtension. now rewrite captured_none.
  - intros n. unfold CodeFeatureExtractor.shouldAnalyze. now rewrite C.
Qed.

Lemma path_without_extension_witness :
  LanguageDetector.detectLanguage (lit "/usr/src/Makefile") = lit "Unknown"
  /\ LanguageDetector.getExtension (lit "/usr/src/Makefile") = []
  /\ LanguageDetector.isCodeFile (lit "/usr/src/Makefile") = false
  /\ forall codeLength : Z,
       CodeFeatureExtractor.shouldAnalyze LanguageDetector.isCodeFile
         (lit "/usr/src/Makefile") codeLength = false.
Proof.
  exact (path_without_extension (lit "/usr/src/Makefile")
           (or_introl eq_refl)).
Defined.

(** X3.  The substring tests of [getLanguageKey] select, for the language
    that [detectLanguage] gives a path, the patterns meant for it and no
    others: Python's for 'Python'; Java's for 'Java', 'Java Bytecode' and
    'Java Archive' (and not for 'JavaScript'); C#'s for 'C#' and
    'C# Script'; Go's for 'Go'; Rust's for 'Rust'; Ruby's for 'Ruby' and
    'Ruby ERB'; HTML's for 'HTML'; CSS's for 'CSS', 'SCSS' and 'Sass'; the
    shell's for 'Shell' and 'Bash'.  Every other language gets the default
    patterns. *)
Theorem language_key_of_detected_language :
  forall (p : jsstring) (k : LangKey),
    Paths.isAscii p = true -> k <> default ->
    (getLanguageKey (LanguageDetector.detectLanguage p) = k
     <-> In (LanguageDetector.detectLanguage p) (Paths.languagesOfKey k)).
Proof.
  intros p k _ Hk.
  pose proof (detectLanguage_named p) as Hin.
  pose proof keys_agree as Hall.
  rewrite forallb_forall in Hall. specialize (Hall _ Hin).
  rewrite forallb_forall in Hall.
  assert (Hkeys : In k Paths.keys) by (destruct k; cbn; tauto).
  specialize (Hall _ Hkeys).
  apply orb_prop in Hall as [Hd|Hall].
  - apply LangKey_eqb_eq in Hd. contradiction.
  - apply Bool.eqb_prop in Hall.
    rewrite <- LangKey_eqb_eq, Hall. apply member_In.
Qed.

Lemma language_key_of_detected_language_witness :
  getLanguageKey (LanguageDetector.detectLanguage (lit "src/App.java"))
  = java
  <-> In (LanguageDetector.detectLanguage (lit "src/App.java"))
        (Paths.languagesOfKey java).
Proof.
  exact (language_key_of_detected_language (lit "src/App.java") java
           eq_refl ltac:(discriminate)).
Defined.

(* ===================================================================== *)
(** * The ranges of the extracted features *)
(* ===================================================================== *)

Section FeatureRanges.

Import CodeFeatureExtractor SkillInputs.

(** Rounding to two decimals keeps a number between the integers that
    bound it. *)
Lemma round2_between (q : Q) (lo hi : Z) :
  (inject_Z lo <= q)%Q -> (q <= inject_Z hi)%Q ->
  exists r : Q,
    round2 (Fin q) = Fin r /\ (inject_Z lo <= r)%Q /\ (r <= inject_Z hi)%Q.
Proof.
  intros Hlo Hhi.
  assert (B : 100 * lo <= Qfloor (q * inject_Z 100 + (1 # 2)) <= 100 * hi).
  { apply Qfloor_between.
    - rewrite inject_Z_mult. change (inject_Z 100) with 100%Q. lra.
    - rewrite inject_Z_plus, inject_Z_mult.
      change (inject_Z 100) with 100%Q. change (inject_Z 1) with 1%Q. lra. }
  exists (inject_Z (Qfloor (q * inject_Z 100 + (1 # 2))) / inject_Z 100)%Q.
  split; [reflexivity|].
  destruct B as [B1 B2].
  rewrite Zle_Qle in B1, B2. rewrite inject_Z_mult in B1, B2.
  change (inject_Z 100) with 100%Q in *.
  generalize dependent (inject_Z (Qfloor (q * 100 + (1 # 2)))).
  intros z B1 B2. unfold Qdiv. change (/ 100)%Q with (1 # 100)%Q.
  split; lra.
Qed.

Lemma round2_ratio (x : number) : isRatio x -> isRatio (round2 x).
Proof.
  intros (q & -> & H0 & H1).
  destruct (round2_between q 0 1) as (r & Hr & B0 & B1);
    [exact H0|exact H1|].
  exists r. split; [exact Hr|]. split; [exact B0|exact B1].
Qed.

Lemma count_bounds {A} (f : A -> bool) (l : list A) :
  0 <= count f l <= len l.
Proof.
  unfold count, len. pose proof (List.filter_length_le f l). lia.
Qed.

Lemma count_split {A} (f : A -> bool) (l : list A) :
  count f l + count (fun x => negb (f x)) l = len l.
Proof.
  unfold count, len. induction l as [|x l IH]; [reflexivity|].
  cbn [List.filter]. destruct (f x); cbn [negb length];
    rewrite ?Nat2Z.inj_succ; lia.
Qed.

(** The greatest of a list of lengths bounds each of them. *)
Lemma fold_max_bounds (l : list Z) (a : Z) :
  a <= fold_left Z.max l a
  /\ forall x, In x l -> x <= fold_left Z.max l a.
Proof.
  revert a. induction l as [|y l IH]; intros a; cbn [fold_left].
  - split; [lia|intros x []].
  - destruct (IH (Z.max a y)) as [Ha Hl]. split; [lia|].
    intros x [<-|Hx]; [lia|now apply Hl].
Qed.

Lemma sumZ_bounds (l : list Z) (a lo hi : Z) :
  (forall x, In x l -> lo <= x <= hi) ->
  a + len l * lo <= fold_left Z.add l a <= a + len l * hi.
Proof.
  revert a. induction l as [|y l IH]; intros a Hl; cbn [fold_left].
  - unfold len. cbn. lia.
  - assert (Hy : lo <= y <= hi) by (apply Hl; now left).
    assert (Hl' : forall x, In x l -> lo <= x <= hi)
      by (intros x Hx; apply Hl; now right).
    specialize (IH (a + y) Hl'). unfold len in *.
    rewrite length_cons, Nat2Z.inj_succ. lia.
Qed.

(** A quotient of integers, the divisor positive. *)
Lemma div_of_Z_between (a n lo hi : Z) :
  0 < n -> lo * n <= a <= hi * n ->
  exists q : Q,
    div (of_Z a) (of_Z n) = Fin q
    /\ (inject_Z lo <= q)%Q /\ (q <= inject_Z hi)%Q.
Proof.
  intros Hn [H1 H2]. unfold div, of_Z.
  rewrite Qzero_b_inject_Z by lia.
  eexists. split; [reflexivity|].
  assert (Ht : (0 < inject_Z n)%Q).
  { change 0%Q with (inject_Z 0). now rewrite <- Zlt_Qlt. }
  split.
  - apply Qle_shift_div_l; [exact Ht|].
    rewrite <- inject_Z_mult, <- Zle_Qle. exact H1.
  - apply Qle_shift_div_r; [exact Ht|].
    rewrite <- inject_Z_mult, <- Zle_Qle. exact H2.
Qed.

(** The smallest of a list of positive integers is a positive integer,
    or infinity when there is none. *)
Lemma Math_min_positive (l : list Z) (acc : number) :
  (forall x, In x l -> 0 < x) ->
  acc = PosInf \/ (exists a, acc = of_Z a /\ 0 < a) ->
  let m := fold_left (fun acc x => JsNumber.min acc (of_Z x)) l acc in
  m = PosInf \/ (exists a, m = of_Z a /\ 0 < a).
Proof.
  revert acc. induction l as [|y l IH]; intros acc Hl Hacc;
    cbn [fold_left]; [exact Hacc|].
  apply IH; [intros x Hx; apply Hl; now right|].
  right. assert (Hy : 0 < y) by (apply Hl; now left).
  destruct Hacc as [->|(a & -> & Ha)].
  - exists y. split; [reflexivity|exact Hy].
  - exists (Z.min a y). split; [apply min_of_Z|lia].
Qed.

Lemma indentationSize_range (lines : list jsstring) :
  exists k, indentationSize (extractStructuralMetrics lines) = of_Z k
            /\ 1 <= k <= 8.
Proof.
  unfold extractStructuralMetrics. cbn [indentationSize].
  destruct (len (indentSizes (scanIndents lines)) >? 0);
    [|exists 2; split; [reflexivity|lia]].
  destruct (Math_min_positive
              (List.filter (fun s => s >? 0) (indentSizes (scanIndents lines)))
              PosInf) as [E|(a & E & Ha)].
  - intros x Hx. apply List.filter_In in Hx as [_ Hx]. lia.
  - now left.
  - unfold Math_min. rewrite E. exists 8. split; [reflexivity|lia].
  - unfold Math_min. rewrite E.
    change (gtb (of_Z a) (of_Z 0)) with (ltb (of_Z 0) (of_Z a)).
    rewrite ltb_of_Z. replace (0 <? a) with true by (symmetry; lia).
    exists (Z.min a 8). split; [apply min_of_Z|lia].
Qed.

(** *** The object [lineCount] *)

Import Tallies.

Lemma setOwn_absent (o : list (jsstring * tally)) (k : jsstring)
    (v : tally) :
  getOwn o k = None -> setOwn o k v = o ++ [(k, v)].
Proof.
  induction o as [|[k' v'] o IH]; cbn [getOwn setOwn app]; [reflexivity|].
  destruct (str_eqb k k'); [discriminate|]. intros H. now rewrite IH.
Qed.

Lemma setOwn_present (o : list (jsstring * tally)) (k : jsstring)
    (v v' : tally) :
  getOwn o k = Some v ->
  List.map fst (setOwn o k v') = List.map fst o
  /\ tallied (setOwn o k v') = tallied o - weight v + weight v'.
Proof.
  induction o as [|[k' w] o IH]; cbn [getOwn setOwn]; [discriminate|].
  destruct (str_eqb k k').
  - intros [= ->]. cbn [List.map fst tallied]. split; [reflexivity|lia].
  - intros H. destruct (IH H) as [IH1 IH2].
    cbn [List.map fst tallied]. rewrite IH1, IH2. split; [reflexivity|lia].
Qed.

Lemma setOwn_Forall (P : jsstring * tally -> Prop)
    (o : list (jsstring * tally)) (k : jsstring) (v : tally) :
  List.Forall P o -> (forall k', P (k', v)) ->
  List.Forall P (setOwn o k v).
Proof.
  intros Ho Hv. induction Ho as [|[k' w] o Hw Ho IH]; cbn [setOwn].
  - constructor; [apply Hv|constructor].
  - destruct (str_eqb k k'); constructor; auto.
Qed.

Lemma getOwn_Forall (P : jsstring * tally -> Prop)
    (o : list (jsstring * tally)) (k : jsstring) (v : tally) :
  List.Forall P o -> getOwn o k = Some v -> exists k', P (k', v).
Proof.
  intros Ho. induction Ho as [|[k' w] o Hw Ho IH]; cbn [getOwn];
    [discriminate|].
  destruct (str_eqb k k'); [|exact IH].
  intros [= ->]. now exists k'.
Qed.

Lemma tallied_app (o o' : list (jsstring * tally)) :
  tallied (o ++ o') = tallied o + tallied o'.
Proof.
  induction o as [|[k v] o IH]; cbn [app tallied]; [reflexivity|].
  rewrite IH. lia.
Qed.

(** One more line adds at most 1 to the total, and keeps the counts
    positive. *)
Lemma increment_step (o : list (jsstring * tally)) (k : jsstring) :
  positive o ->
  positive (increment o k)
  /\ tallied o <= tallied (increment o k) <= tallied o + 1.
Proof.
  intros Ho. unfold increment.
  destruct (getOwn o k) as [[n|]|] eqn:E.
  - destruct (getOwn_Forall _ o k _ Ho E) as (k' & Hn). cbn [snd] in Hn.
    replace (n =? 0) with false by (symmetry; lia).
    destruct (setOwn_present o k _ (Tally (n + 1)) E) as [_ Ht].
    split.
    + apply setOwn_Forall; [exact Ho|]. intros ?. cbn [snd]. lia.
    + rewrite Ht. cbn [weight]. lia.
  - destruct (setOwn_present o k _ Text E) as [_ Ht]. split.
    + apply setOwn_Forall; [exact Ho|]. intros ?. exact I.
    + rewrite Ht. cbn [weight]. lia.
  - destruct (str_eqb k (lit "__proto__")); [split; [exact Ho|lia]|].
    destruct (member k objectPrototypeMembers);
      rewrite (setOwn_absent o k _ E); (split;
        [apply List.Forall_app; split;
           [exact Ho|constructor; [cbn [snd]; try exact I; lia|constructor]]
        |rewrite tallied_app; cbn [tallied weight]; lia]).
Qed.

Lemma increment_fold (lines : list jsstring)
    (o : list (jsstring * tally)) :
  positive o ->
  positive (fold_left increment lines o)
  /\ tallied (fold_left increment lines o) <= tallied o + len lines.
Proof.
  revert o. induction lines as [|l lines IH]; intros o Ho; cbn [fold_left].
  - split; [exact Ho|unfold len; cbn; lia].
  - destruct (increment_step o l Ho) as [Hp Ht].
    destruct (IH _ Hp) as [Hp' Ht']. split; [exact Hp'|].
    unfold len in *. rewrite length_cons, Nat2Z.inj_succ. lia.
Qed.

Lemma duplicates_acc (o : list (jsstring * tally)) (acc : Z) :
  fold_left
    (fun acc kv =>
       match snd kv with
       | Tally n => if n >? 1 then acc + (n - 1) else acc
       | Text => acc
       end) o acc
  = acc + duplicates o.
Proof.
  unfold duplicates. revert acc.
  induction o as [|[k v] o IH]; intros acc; cbn [fold_left]; [lia|].
  rewrite IH, (IH (match snd (k, v) with
                   | Tally n => if n >? 1 then 0 + (n - 1) else 0
                   | Text => 0
                   end)).
  cbn [snd]. destruct v as [n|]; [destruct (n >? 1)|]; lia.
Qed.

Lemma duplicates_cons (k : jsstring) (v : tally)
    (o : list (jsstring * tally)) :
  duplicates ((k, v) :: o)
  = match v with
    | Tally n => if n >? 1 then n - 1 else 0
    | Text => 0
    end + duplicates o.
Proof.
  unfold duplicates at 1. cbn [fold_left snd]. rewrite duplicates_acc.
  destruct v as [n|]; [destruct (n >? 1)|]; lia.
Qed.

(** The duplicates are fewer than the lines counted. *)
Lemma duplicates_bounds (o : list (jsstring * tally)) :
  positive o -> 0 <= duplicates o <= tallied o.
Proof.
  intros Ho. induction Ho as [|[k v] o Hv Ho IH]; [cbn; lia|].
  rewrite duplicates_cons. cbn [tallied weight snd] in *.
  destruct v as [n|]; [destruct (n >? 1) eqn:E|]; cbn [weight]; lia.
Qed.

(** When every property holds a count, the duplicates are the lines
    counted beyond the first of each text. *)
Lemma duplicates_counting (o : list (jsstring * tally)) :
  counting o -> duplicates o = tallied o - len o.
Proof.
  intros Ho. induction Ho as [|[k v] o Hv Ho IH]; [reflexivity|].
  rewrite duplicates_cons, IH. unfold len. rewrite length_cons, Nat2Z.inj_succ.
  cbn [tallied weight snd] in *.
  destruct v as [n|]; [|contradiction].
  cbn [weight]. destruct (n >? 1) eqn:E; lia.
Qed.

Lemma getOwn_member (o : list (jsstring * tally)) (k : jsstring) :
  member k (List.map fst o)
  = match getOwn o k with Some _ => true | None => false end.
Proof.
  unfold member. induction o as [|[k' v] o IH]; [reflexivity|].
  cbn [List.map fst existsb getOwn].
  destruct (str_eqb k k'); [reflexivity|exact IH].
Qed.

(** A line of ordinary text is counted: the total grows by 1, and the text
    becomes a property when it is not one yet. *)
Lemma increment_ordinary (o : list (jsstring * tally)) (k : jsstring) :
  counting o -> ordinary k = true ->
  counting (increment o k)
  /\ tallied (increment o k) = tallied o + 1
  /\ List.map fst (increment o k)
     = if member k (List.map fst o) then List.map fst o
       else List.map fst o ++ [k].
Proof.
  intros Ho Hk. unfold ordinary in Hk.
  apply andb_prop in Hk as [H1 H2].
  apply negb_true_iff in H1. apply negb_true_iff in H2.
  rewrite getOwn_member. unfold increment.
  destruct (getOwn o k) as [[n|]|] eqn:E.
  - destruct (getOwn_Forall _ o k _ Ho E) as (k' & Hn). cbn [snd] in Hn.
    replace (n =? 0) with false by (symmetry; lia).
    destruct (setOwn_present o k _ (Tally (n + 1)) E) as [Hf Ht].
    split; [|split; [rewrite Ht; cbn [weight]; lia|exact Hf]].
    apply setOwn_Forall; [exact Ho|]. intros ?. cbn [snd]. lia.
  - destruct (getOwn_Forall _ o k _ Ho E) as (k' & []).
  - rewrite H1, H2, (setOwn_absent o k _ E).
    split; [|split].
    + apply List.Forall_app. split; [exact Ho|].
      constructor; [cbn [snd]; lia|constructor].
    + rewrite tallied_app. cbn [tallied weight]. lia.
    + rewrite List.map_app. reflexivity.
Qed.

Lemma increment_fold_ordinary (lines : list jsstring)
    (o : list (jsstring * tally)) :
  counting o -> (forall l, In l lines -> ordinary l = true) ->
  counting (fold_left increment lines o)
  /\ tallied (fold_left increment lines o) = tallied o + len lines
  /\ List.map fst (fold_left increment lines o)
     = fold_left (fun seen x => if member x seen then seen else seen ++ [x])
         lines (List.map fst o).
Proof.
  revert o. induction lines as [|l lines IH]; intros o Ho Hl;
    cbn [fold_left].
  - split; [exact Ho|]. split; [unfold len; cbn; lia|reflexivity].
  - destruct (increment_ordinary o l Ho) as (Hc & Ht & Hf);
      [apply Hl; now left|].
    destruct (IH _ Hc) as (Hc' & Ht' & Hf');
      [intros x Hx; apply Hl; now right|].
    split; [exact Hc'|]. split.
    + rewrite Ht', Ht. unfold len. rewrite length_cons, Nat2Z.inj_succ. lia.
    + rewrite Hf', Hf. reflexivity.
Qed.

Lemma round2_nonneg (q : Q) :
  (0 <= q)%Q -> exists r : Q, round2 (Fin q) = Fin r /\ (0 <= r)%Q.
Proof.
  intros Hq.
  destruct (round2_between q 0 (Qceiling q)) as (r & Hr & B0 & _);
    [exact Hq|apply Qle_ceiling|].
  exists r. split; [exact Hr|exact B0].
Qed.

(** A count per unit of time: [time > 0 ? count / time : 0], the time
    being a duration in milliseconds over the length of the unit. *)
Lemma rate_nonneg (count active unit : Z) :
  0 <= count -> 0 < unit ->
  exists e : Q,
    (if gtb (div (of_Z active) (of_Z unit)) (of_Z 0)
     then div (of_Z count) (div (of_Z active) (of_Z unit))
     else of_Z 0) = Fin e
    /\ (0 <= e)%Q.
Proof.
  intros Hc Hu.
  assert (Hd : div (of_Z active) (of_Z unit)
               = Fin (inject_Z active / inject_Z unit)).
  { unfold div, of_Z. now rewrite Qzero_b_inject_Z by lia. }
  rewrite Hd.
  destruct (gtb (Fin (inject_Z active / inject_Z unit)) (of_Z 0)) eqn:E.
  - pose proof (gtb_0_nonzero _ E) as Hnz.
    unfold div, of_Z. rewrite Hnz. eexists. split; [reflexivity|].
    assert (Hpos : (0 < inject_Z active / inject_Z unit)%Q).
    { unfold gtb, ltb, of_Z, Qpos_b in E. apply negb_true_iff in E.
      assert (K : ~ (inject_Z active / inject_Z unit - inject_Z 0 <= 0)%Q).
      { intros K. apply Qle_bool_iff in K. congruence. }
      unfold inject_Z in K at 3. lra. }
    apply Qle_shift_div_l; [exact Hpos|].
    rewrite Qmult_0_l. change 0%Q with (inject_Z 0).
    rewrite <- Zle_Qle. exact Hc.
  - exists 0%Q. split; [reflexivity|lra].
Qed.

(** *** The comment scan *)

Lemma scanComment_fold (p : CommentPatterns) (lines : list jsstring)
    (st : CommentScan) :
  let st' := fold_left (scanComment p) lines st in
  blocks st <= blocks st' /\ inlines st <= inlines st'
  /\ docstrings st <= docstrings st'
  /\ blocks st' + inlines st' + docstrings st'
     <= blocks st + inlines st + docstrings st + len lines.
Proof.
  revert st. induction lines as [|line lines IH]; intros st;
    cbn [fold_left].
  - unfold len. cbn. lia.
  - specialize (IH (scanComment p st line)). cbn zeta in IH.
    assert (Hs : let s1 := scanComment p st line in
                 blocks st <= blocks s1 /\ inlines st <= inlines s1
                 /\ docstrings st <= docstrings s1
                 /\ blocks s1 + inlines s1 + docstrings s1
                    <= blocks st + inlines st + docstrings st + 1).
    { unfold scanComment.
      destruct (inBlock st); [cbn; lia|].
      destruct (match docstring p with
                | Some d => test d (trim line) | None => false end);
        [cbn; lia|].
      destruct (test (blockStart p) (trim line)); [cbn; lia|].
      destruct (existsb _ (singleLine p)); cbn; lia. }
    cbn zeta in Hs. unfold len in *.
    rewrite length_cons, Nat2Z.inj_succ. lia.
Qed.

(** *** The complexity scan *)

Lemma scanComplexity_nesting (lines : list jsstring) (st : ComplexityScan) :
  exists st',
    fold_left scanComplexity lines (Some st) = Some st'
    /\ maxNesting st <= maxNesting st'
    /\ complexity st + 2 * len lines <= complexity st'.
Proof.
  revert st. induction lines as [|line lines IH]; intros st.
  - exists st. unfold len. cbn. split; [reflexivity|lia].
  - cbn [fold_left].
    destruct (keywordMatches_at_least_2 (trim line)) as (n & Hn & Hle).
    unfold scanComplexity at 2. rewrite Hn.
    match goal with
    | |- context [fold_left scanComplexity lines (Some ?s1)] =>
        destruct (IH s1) as (st' & Hst' & Hm & Hc)
    end.
    exists st'. split; [exact Hst'|].
    cbn [maxNesting complexity] in Hm, Hc.
    unfold len in *. rewrite length_cons, Nat2Z.inj_succ. lia.
Qed.

(** [split] cuts at every line feed. *)
Lemma length_split (code : jsstring) :
  len (JsString.split 10 code) = 1 + count (N.eqb 10) code.
Proof.
  unfold len, count.
  induction code as [|c code IH]; [reflexivity|].
  cbn [JsString.split List.filter].
  rewrite (N.eqb_sym 10 c).
  destruct (c =? 10)%N.
  - rewrite !length_cons, !Nat2Z.inj_succ. lia.
  - destruct (JsString.split 10 code) as [|cur more] eqn:E.
    + cbn [length] in *. lia.
    + cbn [length] in *. lia.
Qed.

(** *** Lines inside a block comment *)

(** Inside a block comment that no line closes, every line is blank or
    comment. *)
Lemma classifyLine_inside (p : CommentPatterns) (rest : list jsstring)
    (st : LineScan) :
  inBlockComment st = true ->
  forallb (fun l => negb (test (blockEnd p) (trim l))) rest = true ->
  let st' := fold_left (classifyLine p) rest st in
  blank st' = blank st + count (fun l => len (trim l) =? 0) rest
  /\ comment st'
     = comment st + count (fun l => negb (len (trim l) =? 0)) rest.
Proof.
  revert st. induction rest as [|l rest IH]; intros st Hin Hrest;
    cbn [fold_left].
  - unfold count. cbn. lia.
  - cbn [forallb] in Hrest. apply andb_prop in Hrest as [Hl Hrest].
    apply negb_true_iff in Hl.
    assert (Hstep : classifyLine p st l
                    = if len (trim l) =? 0
                      then {| blank := blank st + 1; comment := comment st;
                              inBlockComment := true |}
                      else {| blank := blank st; comment := comment st + 1;
                              inBlockComment := true |}).
    { unfold classifyLine. rewrite Hin, Hl.
      destruct (len (trim l) =? 0); reflexivity. }
    rewrite Hstep. unfold count in *. cbn [List.filter].
    destruct (len (trim l) =? 0) eqn:E; cbn [negb];
      (edestruct IH as [IB IC]; [|exact Hrest|rewrite IB, IC];
         [reflexivity|]);
      cbn [blank comment]; rewrite ?length_cons, ?Nat2Z.inj_succ; lia.
Qed.

(** No pattern that opens a block comment matches the empty string. *)
Lemma blockStart_not_empty (k : LangKey) :
  test (blockStart (commentPatternsFor k)) [] = false.
Proof. destruct k; reflexivity. Qed.

End FeatureRanges.

(** X4.  Whatever the lines, the structural metrics are in range: no line
    is longer than [maxLineLength]; the average line length lies between
    0 and [maxLineLength]; the indentation consistency lies between 0 and
    1; and the indentation size is an integer between 1 and 8. *)
Theorem structural_metrics_in_range :
  forall lines : list jsstring,
    let m := CodeFeatureExtractor.extractStructuralMetrics lines in
    (forall l, In l lines ->
       CodeFeatureExtractor.len l <= CodeFeatureExtractor.maxLineLength m)
    /\ (exists q : Q,
          CodeFeatureExtractor.averageLineLength m = Fin q
          /\ (0 <= q)%Q
          /\ (q <= inject_Z (CodeFeatureExtractor.maxLineLength m))%Q)
    /\ SkillInputs.isRatio (CodeFeatureExtractor.indentationConsistency m)
    /\ (exists k : Z,
          CodeFeatureExtractor.indentationSize m = of_Z k /\ 1 <= k <= 8).
Proof.
  intros lines m.
  pose proof (fold_max_bounds
                (List.map CodeFeatureExtractor.len lines) 0) as [Hmax0 Hmax].
  split; [|split; [|split]].
  - intros l Hl. apply Hmax. now apply List.in_map.
  - unfold m, CodeFeatureExtractor.extractStructuralMetrics.
    cbn [CodeFeatureExtractor.averageLineLength
         CodeFeatureExtractor.maxLineLength].
    set (lengths := List.map CodeFeatureExtractor.len lines) in *.
    set (M := fold_left Z.max lengths 0) in *.
    destruct (CodeFeatureExtractor.len lengths >? 0) eqn:E.
    + apply Z.gtb_lt in E.
      assert (Hs : 0 + CodeFeatureExtractor.len lengths * 0
                   <= CodeFeatureExtractor.sumZ lengths
                   <= 0 + CodeFeatureExtractor.len lengths * M).
      { apply sumZ_bounds. intros x Hx. split; [|now apply Hmax].
        apply List.in_map_iff in Hx as (l & <- & _).
        unfold CodeFeatureExtractor.len. lia. }
      destruct (div_of_Z_between (CodeFeatureExtractor.sumZ lengths)
                  (CodeFeatureExtractor.len lengths) 0 M E)
        as (q & -> & Q0 & Q1); [lia|].
      apply round2_between; assumption.
    + apply (round2_between 0 0 M); [apply Qle_refl|].
      change 0%Q with (inject_Z 0). now rewrite <- Zle_Qle.
  - unfold m, CodeFeatureExtractor.extractStructuralMetrics.
    cbn [CodeFeatureExtractor.indentationConsistency].
    apply round2_ratio.
    set (sizes := CodeFeatureExtractor.indentSizes
                    (CodeFeatureExtractor.scanIndents lines)).
    destruct (CodeFeatureExtractor.len sizes >? 0) eqn:E.
    + apply Z.gtb_lt in E.
      match goal with
      | |- SkillInputs.isRatio
             (div (of_Z (CodeFeatureExtractor.count ?f ?l)) (of_Z ?n)) =>
          pose proof (count_bounds f l) as Hc;
          destruct (div_of_Z_between (CodeFeatureExtractor.count f l) n 0 1 E)
            as (q & -> & Q0 & Q1); [lia|]
      end.
      exists q. split; [reflexivity|]. split; [exact Q0|exact Q1].
    + exists 1%Q. repeat split; lra.
  - apply indentationSize_range.
Qed.

(** X5.  Whatever the code, the naming metrics are in range: the ratios of
    camel-case and of snake-case identifiers lie between 0 and 1; the
    average identifier length is 0 (no identifier was found) or at least
    2, identifiers of one character being left out of it; and the count
    of one-character names is not negative. *)
Theorem naming_metrics_in_range :
  forall (code : jsstring) (langKey : LangKey),
    let m := CodeFeatureExtractor.extractNamingMetrics code langKey in
    SkillInputs.isRatio (CodeFeatureExtractor.camelCaseRatio m)
    /\ SkillInputs.isRatio (CodeFeatureExtractor.snake_caseRatio m)
    /\ (exists q : Q,
          CodeFeatureExtractor.averageVariableNameLength m = Fin q
          /\ (q == 0 \/ 2 <= q)%Q)
    /\ 0 <= CodeFeatureExtractor.singleCharVarCount m.
Proof.
  intros code langKey m. unfold m, CodeFeatureExtractor.extractNamingMetrics.
  set (ids := CodeFeatureExtractor.identifiersOf code langKey).
  destruct (CodeFeatureExtractor.len ids =? 0) eqn:E;
    cbn [CodeFeatureExtractor.camelCaseRatio
         CodeFeatureExtractor.snake_caseRatio
         CodeFeatureExtractor.averageVariableNameLength
         CodeFeatureExtractor.singleCharVarCount].
  - split; [exists 0%Q; repeat split; lra|].
    split; [exists 0%Q; repeat split; lra|].
    split; [exists 0%Q; split; [reflexivity|left; reflexivity]|lia].
  - assert (Hn : 0 < CodeFeatureExtractor.len ids)
      by (unfold CodeFeatureExtractor.len in *; lia).
    assert (Hratio : forall f : jsstring -> bool,
              SkillInputs.isRatio
                (round2 (div (of_Z (CodeFeatureExtractor.count f ids))
                           (of_Z (CodeFeatureExtractor.len ids))))).
    { intros f. apply round2_ratio.
      pose proof (count_bounds f ids) as Hc.
      destruct (div_of_Z_between (CodeFeatureExtractor.count f ids)
                  (CodeFeatureExtractor.len ids) 0 1 Hn)
        as (q & -> & Q0 & Q1); [lia|].
      exists q. split; [reflexivity|]. split; [exact Q0|exact Q1]. }
    split; [apply Hratio|]. split; [apply Hratio|]. split.
    + set (lengths := List.map CodeFeatureExtractor.len ids).
      set (M := fold_left Z.max lengths 2).
      assert (Hs : 0 + CodeFeatureExtractor.len lengths * 2
                   <= CodeFeatureExtractor.sumZ lengths
                   <= 0 + CodeFeatureExtractor.len lengths * M).
      { apply sumZ_bounds. intros x Hx.
        split; [|now apply (fold_max_bounds lengths 2)].
        apply List.in_map_iff in Hx as (name & <- & Hname).
        apply List.filter_In in Hname as [_ Hname].
        apply andb_prop in Hname as [Hname _]. lia. }
      assert (Hl : CodeFeatureExtractor.len lengths
                   = CodeFeatureExtractor.len ids).
      { unfold lengths, CodeFeatureExtractor.len. now rewrite List.length_map. }
      rewrite Hl in Hs.
      destruct (div_of_Z_between (CodeFeatureExtractor.sumZ lengths)
                  (CodeFeatureExtractor.len ids) 2 M Hn)
        as (q & -> & Q0 & Q1); [lia|].
      destruct (round2_between q 2 M Q0 Q1) as (r & -> & R0 & _).
      exists r. split; [reflexivity|]. right. exact R0.
    + apply count_bounds.
Qed.

(** X6.  Whatever the lines, the quality metrics are in range: the ratio
    of duplicate lines and the ratio of long lines lie between 0 and 1,
    and the count of empty blocks is not negative. *)
Theorem quality_metrics_in_range :
  forall lines : list jsstring,
    let m := CodeFeatureExtractor.extractQualityMetrics lines in
    SkillInputs.isRatio (CodeFeatureExtractor.duplicateLineRatio m)
    /\ SkillInputs.isRatio (CodeFeatureExtractor.longLineRatio m)
    /\ 0 <= CodeFeatureExtractor.emptyBlockCount m.
Proof.
  intros lines m. unfold m, CodeFeatureExtractor.extractQualityMetrics.
  cbn [CodeFeatureExtractor.duplicateLineRatio
       CodeFeatureExtractor.longLineRatio
       CodeFeatureExtractor.emptyBlockCount].
  split; [|split].
  - apply round2_ratio, guarded_ratio.
    destruct (increment_fold
                (CodeFeatureExtractor.normalizedLinesOf lines) [])
      as [Hp Ht]; [constructor|].
    pose proof (duplicates_bounds _ Hp) as Hd.
    cbn [Tallies.tallied] in Ht. lia.
  - apply round2_ratio, guarded_ratio, count_bounds.
  - pose proof (countMatches_nonneg CodeFeatureExtractor.emptyBraces
                  (join [10%N] lines)).
    pose proof (countMatches_nonneg CodeFeatureExtractor.passStatement
                  (join [10%N] lines)).
    lia.
Qed.

(** X7.  The duplicate lines are the repeats: when no line, once trimmed,
    is the name of a member of [Object.prototype], the ratio of duplicate
    lines is the number of non-empty trimmed lines less the number of
    distinct ones, over the number of non-empty trimmed lines (rounded to
    two decimals; 0 when there is none). *)
Theorem duplicate_lines_are_the_repeats :
  forall lines : list jsstring,
    let normalized := CodeFeatureExtractor.normalizedLinesOf lines in
    forallb Tallies.ordinary normalized = true ->
    CodeFeatureExtractor.duplicateLineRatio
      (CodeFeatureExtractor.extractQualityMetrics lines)
    = round2
        (if CodeFeatureExtractor.len normalized >? 0
         then div (of_Z (CodeFeatureExtractor.len normalized
                         - CodeFeatureExtractor.len
                             (LanguageCounts.firstSeen normalized)))
                  (of_Z (CodeFeatureExtractor.len normalized))
         else of_Z 0).
Proof.
  intros lines normalized Hord.
  rewrite forallb_forall in Hord.
  destruct (increment_fold_ordinary normalized [])
    as (Hc & Ht & Hf); [constructor|exact Hord|].
  unfold CodeFeatureExtractor.extractQualityMetrics.
  cbn [CodeFeatureExtractor.duplicateLineRatio].
  fold normalized.
  rewrite (duplicates_counting _ Hc), Ht.
  cbn [Tallies.tallied].
  replace (CodeFeatureExtractor.len
             (fold_left CodeFeatureExtractor.increment normalized []))
    with (CodeFeatureExtractor.len (LanguageCounts.firstSeen normalized)).
  - reflexivity.
  - unfold CodeFeatureExtractor.len.
    rewrite <- (List.length_map fst
                  (fold_left CodeFeatureExtractor.increment normalized [])).
    rewrite Hf. reflexivity.
Qed.

Lemma duplicate_lines_are_the_repeats_witness :
  CodeFeatureExtractor.duplicateLineRatio
    (CodeFeatureExtractor.extractQualityMetrics
       (List.map lit ["x = 1;"; "  x = 1;"; ""; "y = 2;"; "x = 1;  "]%string))
  = Fin (inject_Z 50 / inject_Z 100).
Proof.
  exact (duplicate_lines_are_the_repeats
           (List.map lit
              ["x = 1;"; "  x = 1;"; ""; "y = 2;"; "x = 1;  "]%string)
           eq_refl).
Defined.

(** X8.  For a file whose counters are not negative, the temporal metrics
    are in range: the paste ratio lies between 0 and 1, and the typing
    speed and the edit frequency are finite and not negative, whatever
    the active time (which may be zero or negative). *)
Theorem temporal_metrics_in_range :
  forall t : FileMetrics,
    0 <= keystrokeCount t -> 0 <= pasteCount t -> 0 <= editCount t ->
    let m := CodeFeatureExtractor.extractTemporalMetrics (Some t) in
    SkillInputs.isRatio (CodeFeatureExtractor.pasteRatio m)
    /\ (exists q : Q,
          CodeFeatureExtractor.typingSpeed m = Fin q /\ (0 <= q)%Q)
    /\ (exists q : Q,
          CodeFeatureExtractor.editFrequency m = Fin q /\ (0 <= q)%Q).
Proof.
  intros t Hk Hp He m. unfold m, CodeFeatureExtractor.extractTemporalMetrics.
  cbn [CodeFeatureExtractor.pasteRatio CodeFeatureExtractor.typingSpeed
       CodeFeatureExtractor.editFrequency].
  split; [|split].
  - apply round2_ratio, guarded_ratio. lia.
  - destruct (rate_nonneg (keystrokeCount t) (activeTimeMs t) 1000 Hk)
      as (e & -> & He0); [lia|].
    now apply round2_nonneg.
  - destruct (rate_nonneg (editCount t) (activeTimeMs t) 60000 He)
      as (e & -> & He0); [lia|].
    now apply round2_nonneg.
Qed.

Lemma temporal_metrics_in_range_witness :
  let m := CodeFeatureExtractor.extractTemporalMetrics
             (Some (Samples.fileIn "/work/src/a.ts" "TypeScript")) in
  SkillInputs.isRatio (CodeFeatureExtractor.pasteRatio m)
  /\ (exists q : Q,
        CodeFeatureExtractor.typingSpeed m = Fin q /\ (0 <= q)%Q)
  /\ (exists q : Q,
        CodeFeatureExtractor.editFrequency m = Fin q /\ (0 <= q)%Q).
Proof.
  apply (temporal_metrics_in_range (Samples.fileIn "/work/src/a.ts" "TypeScript"));
    vm_compute; congruence.
Defined.

(** X9.  A line is counted once at most by each scan: the counts of
    functions, of classes and of imports lie between 0 and the number of
    lines, however many patterns match a line; the block comments, the
    inline comments and the docstrings are not negative and together at
    most the number of lines; and the comment density is finite and not
    negative. *)
Theorem structure_and_comment_counts_bounded :
  forall (lines : list jsstring) (langKey : LangKey) (codeLines : Z),
    let s := CodeFeatureExtractor.extractCodeStructure lines langKey in
    let c := CodeFeatureExtractor.extractCommentMetrics lines langKey
               codeLines in
    let n := CodeFeatureExtractor.len lines in
    0 <= CodeFeatureExtractor.functionCount s <= n
    /\ 0 <= CodeFeatureExtractor.classCount s <= n
    /\ 0 <= CodeFeatureExtractor.importCount s <= n
    /\ 0 <= CodeFeatureExtractor.blockCommentCount c
    /\ 0 <= CodeFeatureExtractor.inlineCommentCount c
    /\ 0 <= CodeFeatureExtractor.docstringCount c
    /\ CodeFeatureExtractor.blockCommentCount c
       + CodeFeatureExtractor.inlineCommentCount c
       + CodeFeatureExtractor.docstringCount c <= n
    /\ exists q : Q,
         CodeFeatureExtractor.commentDensity c = Fin q /\ (0 <= q)%Q.
Proof.
  intros lines langKey codeLines s c n.
  unfold s, c, n, CodeFeatureExtractor.extractCodeStructure,
    CodeFeatureExtractor.extractCommentMetrics.
  cbn [CodeFeatureExtractor.functionCount CodeFeatureExtractor.classCount
       CodeFeatureExtractor.importCount
       CodeFeatureExtractor.blockCommentCount
       CodeFeatureExtractor.inlineCommentCount
       CodeFeatureExtractor.docstringCount
       CodeFeatureExtractor.commentDensity].
  pose proof (scanComment_fold (commentPatternsFor langKey) lines
                {| CodeFeatureExtractor.blocks := 0;
                   CodeFeatureExtractor.inlines := 0;
                   CodeFeatureExtractor.docstrings := 0;
                   CodeFeatureExtractor.inBlock := false |}) as H.
  cbn zeta in H.
  cbn [CodeFeatureExtractor.blocks CodeFeatureExtractor.inlines
       CodeFeatureExtractor.docstrings] in H.
  repeat (split; [first [apply count_bounds|lia]|]).
  destruct (codeLines >? 0) eqn:E.
  - apply Z.gtb_lt in E.
    match goal with
    | |- exists q, round2 (div (of_Z ?a) (of_Z ?b)) = _ /\ _ =>
        destruct (div_of_Z_between a b 0 a E) as (q & -> & Q0 & _); [nia|]
    end.
    now apply round2_nonneg.
  - now apply (round2_nonneg 0), Qle_refl.
Qed.

(** X10.  Whatever the language detector, [extract] returns for every
    text: the total of lines is one more than the number of line feeds
    (so at least 1); the complexity reported is at least 1 plus twice
    that total; and the nesting depth is not negative. *)
Theorem extract_counts_lines :
  forall (detectLanguage getExtension : jsstring -> jsstring)
         (code filePath : jsstring) (trackingMetrics : option FileMetrics)
         (now : Z),
  exists f : CodeFeatureExtractor.CodeFeatures,
    CodeFeatureExtractor.extract detectLanguage getExtension code filePath
      trackingMetrics now
    = Some f
    /\ CodeFeatureExtractor.totalLines (CodeFeatureExtractor.basic f)
       = 1 + CodeFeatureExtractor.count (N.eqb 10) code
    /\ 1 + 2 * CodeFeatureExtractor.totalLines (CodeFeatureExtractor.basic f)
       <= CodeFeatureExtractor.cyclomaticComplexity
            (CodeFeatureExtractor.complexityMetrics f)
    /\ 0 <= CodeFeatureExtractor.nestingDepth
              (CodeFeatureExtractor.complexityMetrics f).
Proof.
  intros detectLanguage getExtension code filePath trackingMetrics now.
  unfold CodeFeatureExtractor.extract,
    CodeFeatureExtractor.extractComplexityMetrics.
  destruct (scanComplexity_nesting (JsString.split 10 code)
              {| CodeFeatureExtractor.complexity := 1;
                 CodeFeatureExtractor.maxNesting := 0;
                 CodeFeatureExtractor.currentNesting := 0 |})
    as (st' & -> & Hm & Hc).
  eexists. split; [reflexivity|].
  cbn [CodeFeatureExtractor.basic CodeFeatureExtractor.complexityMetrics
       CodeFeatureExtractor.cyclomaticComplexity
       CodeFeatureExtractor.nestingDepth].
  unfold CodeFeatureExtractor.extractBasicMetrics.
  cbn [CodeFeatureExtractor.totalLines].
  cbn [CodeFeatureExtractor.complexity CodeFeatureExtractor.maxNesting]
    in Hm, Hc.
  repeat split; try assumption; try apply length_split; lia.
Qed.

(** X11.  A block comment that is opened on the first line and closed
    nowhere hides the rest of the file: when the first line holds the
    opening mark with no closing mark after it, and no later line holds a
    closing mark, no line is counted as code; the comment lines are the
    first line and the later lines that are not blank. *)
Theorem unclosed_block_comment_hides_the_code :
  forall (langKey : LangKey) (first : jsstring) (rest : list jsstring),
    let p := commentPatternsFor langKey in
    test (blockStart p) (trim first) = true ->
    test (blockEnd p) (removeFirst (blockStart p) (trim first)) = false ->
    forallb (fun l => negb (test (blockEnd p) (trim l))) rest = true ->
    let m := CodeFeatureExtractor.extractBasicMetrics (first :: rest)
               langKey in
    CodeFeatureExtractor.codeLines m = 0
    /\ CodeFeatureExtractor.commentLines m
       = 1 + CodeFeatureExtractor.count
               (fun l => negb (CodeFeatureExtractor.len (trim l) =? 0)) rest
    /\ CodeFeatureExtractor.blankLines m
       = CodeFeatureExtractor.count
           (fun l => CodeFeatureExtractor.len (trim l) =? 0) rest.
Proof.
  intros langKey first rest p Hopen Hclose Hrest m.
  assert (Hfirst : CodeFeatureExtractor.classifyLine p
                     {| CodeFeatureExtractor.blank := 0;
                        CodeFeatureExtractor.comment := 0;
                        CodeFeatureExtractor.inBlockComment := false |} first
                   = {| CodeFeatureExtractor.blank := 0;
                        CodeFeatureExtractor.comment := 0 + 1;
                        CodeFeatureExtractor.inBlockComment := true |}).
  { unfold CodeFeatureExtractor.classifyLine.
    cbn [CodeFeatureExtractor.inBlockComment CodeFeatureExtractor.blank
         CodeFeatureExtractor.comment].
    destruct (trim first) as [|c t] eqn:E.
    - unfold p in Hopen. rewrite blockStart_not_empty in Hopen.
      discriminate.
    - replace (CodeFeatureExtractor.len (c :: t) =? 0) with false
        by (symmetry; apply Z.eqb_neq; unfold CodeFeatureExtractor.len;
            rewrite length_cons, Nat2Z.inj_succ; lia).
      now rewrite Hopen, Hclose. }
  unfold m, CodeFeatureExtractor.extractBasicMetrics.
  fold p. cbn [fold_left]. rewrite Hfirst.
  cbn [CodeFeatureExtractor.codeLines CodeFeatureExtractor.commentLines
       CodeFeatureExtractor.blankLines].
  destruct (classifyLine_inside p rest
              {| CodeFeatureExtractor.blank := 0;
                 CodeFeatureExtractor.comment := 0 + 1;
                 CodeFeatureExtractor.inBlockComment := true |}
              eq_refl Hrest) as [HB HC].
  rewrite HB, HC.
  cbn [CodeFeatureExtractor.blank CodeFeatureExtractor.comment].
  pose proof (count_split
                (fun l => CodeFeatureExtractor.len (trim l) =? 0) rest)
    as Hsplit.
  unfold CodeFeatureExtractor.len in *.
  rewrite length_cons, Nat2Z.inj_succ. lia.
Qed.

Lemma unclosed_block_comment_hides_the_code_witness :
  let m := CodeFeatureExtractor.extractBasicMetrics
             (List.map lit
                ["/* draft"; "int x = 1;"; ""; "return x;"]%string)
             default in
  CodeFeatureExtractor.codeLines m = 0
  /\ CodeFeatureExtractor.commentLines m = 3
  /\ CodeFeatureExtractor.blankLines m = 1.
Proof.
  exact (unclosed_block_comment_hides_the_code default (lit "/* draft")
           (List.map lit ["int x = 1;"; ""; "return x;"]%string)
           eq_refl eq_refl eq_refl).
Defined.

(* ===================================================================== *)
(** * The ranking of the categories *)
(* ===================================================================== *)

Section Ranking.

Import SkillAnalysisService SkillInputs Scores LanguageCounts.

(** Sorting with a comparator that follows an integer key: the result is a
    rearrangement of the list in the order of the key. *)
Lemma insertSorted_sorted {A} (key : A -> Z) (compare : A -> A -> number)
    (x : A) (l : list A) :
  (forall y, In y l -> negative (compare y x) = (key y <? key x)) ->
  StronglySorted (fun a b => key a <= key b) l ->
  StronglySorted (fun a b => key a <= key b) (insertSorted compare x l)
  /\ Permutation (x :: l) (insertSorted compare x l).
Proof.
  intros Hc Hs. induction Hs as [|y l Hs IH Hy]; cbn [insertSorted].
  - split; [repeat constructor|reflexivity].
  - rewrite (Hc y) by now left.
    destruct (key y <? key x) eqn:E.
    + destruct IH as [IHs IHp]; [intros z Hz; apply Hc; now right|].
      split.
      * constructor; [exact IHs|].
        rewrite List.Forall_forall in *. intros z Hz.
        apply (Permutation_in _ (Permutation_sym IHp)) in Hz.
        destruct Hz as [<-|Hz]; [lia|now apply Hy].
      * rewrite perm_swap. now constructor.
    + split; [|reflexivity].
      constructor; [now constructor|].
      constructor; [lia|].
      rewrite List.Forall_forall in *. intros z Hz.
      specialize (Hy z Hz). lia.
Qed.

Lemma sort_sorted {A} (key : A -> Z) (compare : A -> A -> number)
    (l : list A) :
  (forall x y, In x l -> In y l ->
     negative (compare y x) = (key y <? key x)) ->
  StronglySorted (fun a b => key a <= key b) (sort compare l)
  /\ Permutation l (sort compare l).
Proof.
  induction l as [|x l IH]; intros Hc.
  - split; [constructor|reflexivity].
  - destruct IH as [IHs IHp];
      [intros a b Ha Hb; apply Hc; now right|].
    change (sort compare (x :: l))
      with (insertSorted compare x (sort compare l)).
    destruct (insertSorted_sorted key compare x (sort compare l))
      as [Hs Hp]; [|exact IHs|].
    + intros y Hy. apply Hc; [now left|right].
      now apply (Permutation_in _ (Permutation_sym IHp)).
    + split; [exact Hs|]. rewrite <- Hp. now constructor.
Qed.

(** The sign of a difference of integers. *)
Lemma negative_sub_of_Z (a b : Z) :
  negative (sub (of_Z a) (of_Z b)) = (a <? b).
Proof.
  unfold negative, sub, neg, add, of_Z, ltb, Qpos_b.
  destruct (Qle_bool (inject_Z 0 - (inject_Z a + - inject_Z b)) 0) eqn:E;
    cbn [negb]; symmetry.
  - apply Z.ltb_ge. apply Qle_bool_iff in E. rewrite Zle_Qle.
    unfold inject_Z in E at 1. lra.
  - apply Z.ltb_lt. rewrite Zlt_Qlt.
    assert (K : ~ (inject_Z 0 - (inject_Z a + - inject_Z b) <= 0)%Q).
    { intros K. apply Qle_bool_iff in K. congruence. }
    unfold inject_Z in K at 1. lra.
Qed.

Lemma geb_of_Z (a b : Z) : geb (of_Z a) (of_Z b) = (b <=? a).
Proof.
  change (geb (of_Z a) (of_Z b)) with (negb (ltb (of_Z a) (of_Z b))).
  rewrite ltb_of_Z. destruct (a <? b) eqn:E; cbn [negb]; symmetry; lia.
Qed.

(** The scores of well-formed metrics, one by one. *)
Lemma category_score_of (m : BehavioralMetrics) (s : SkillScore) :
  wellFormed m -> In s (calculateCategoryScores m) ->
  exists z, score s = of_Z z /\ 0 <= z <= 100.
Proof.
  intros Hm Hs.
  destruct (category_scores m Hm)
    as (z1 & z2 & z3 & z4 & z5 & Hmap & B1 & B2 & B3 & B4 & B5).
  apply (List.in_map score) in Hs. rewrite Hmap in Hs.
  cbn [In] in Hs.
  destruct Hs as [<-|[<-|[<-|[<-|[<-|[]]]]]]; eexists; split;
    try reflexivity; assumption.
Qed.

Lemma points_of_Z (s : SkillScore) (z : Z) :
  score s = of_Z z -> points s = z.
Proof. unfold points. intros ->. apply Qfloor_Z. Qed.

(** Sorting rearranges, whatever the comparator. *)
Lemma insertSorted_Permutation {A} (compare : A -> A -> number) (x : A)
    (l : list A) :
  Permutation (x :: l) (insertSorted compare x l).
Proof.
  induction l as [|y l IH]; cbn [insertSorted]; [reflexivity|].
  destruct (negative (compare y x)); [|reflexivity].
  rewrite perm_swap. now constructor.
Qed.

Lemma sort_Permutation {A} (compare : A -> A -> number) (l : list A) :
  Permutation l (sort compare l).
Proof.
  induction l as [|x l IH]; [reflexivity|].
  change (sort compare (x :: l))
    with (insertSorted compare x (sort compare l)).
  rewrite <- insertSorted_Permutation. now constructor.
Qed.

(** An element that nothing precedes strictly goes first. *)
Lemma insertSorted_first {A} (compare : A -> A -> number) (x : A)
    (l : list A) :
  (forall y, In y l -> negative (compare y x) = false) ->
  insertSorted compare x l = x :: l.
Proof.
  destruct l as [|y l]; [reflexivity|]. intros H. cbn [insertSorted].
  now rewrite (H y) by now left.
Qed.

(** *** The recommendations *)

(** What the callback pushes for a score does not depend on the index,
    but for the priority. *)
Lemma recommend_advised (m : BehavioralMetrics) (s : SkillScore) (i : nat) :
  if advised m s
  then exists r, recommend m s i = [r]
                 /\ rec_category r = category s
                 /\ priority r = priorityOf i
                 /\ length (learningResources r) = 2%nat
  else recommend m s i = [].
Proof.
  unfold advised, recommend.
  destruct (geb (score s) (of_Z 70)); cbn [negb andb]; [reflexivity|].
  destruct (category s);
    try (eexists; split; [reflexivity|]; repeat split).
  destruct (ltb (bm_typingToTotalRatio m) (Fin (1 # 2)));
    [eexists; split; [reflexivity|]; repeat split|reflexivity].
Qed.

Lemma forEachFrom_advised (m : BehavioralMetrics) (l : list SkillScore) :
  forall i r,
    In r (forEachFrom m i l) ->
    exists s, In s l /\ advised m s = true
              /\ rec_category r = category s
              /\ length (learningResources r) = 2%nat.
Proof.
  induction l as [|s l IH]; intros i r Hr; cbn [forEachFrom] in Hr;
    [destruct Hr|].
  apply in_app_iff in Hr. destruct Hr as [Hr|Hr].
  - pose proof (recommend_advised m s i) as H.
    destruct (advised m s) eqn:E.
    + destruct H as (r' & Hrec & Hc & _ & Hl). rewrite Hrec in Hr.
      destruct Hr as [<-|[]]. exists s. cbn [In]. auto.
    + rewrite H in Hr. destruct Hr.
  - destruct (IH _ _ Hr) as (s' & Hs' & H). exists s'. cbn [In]. auto.
Qed.

Lemma forEachFrom_complete (m : BehavioralMetrics) (l : list SkillScore) :
  forall i s,
    In s l -> advised m s = true ->
    exists r, In r (forEachFrom m i l) /\ rec_category r = category s.
Proof.
  induction l as [|s0 l IH]; intros i s Hs Ha; [destruct Hs|].
  cbn [forEachFrom]. destruct Hs as [->|Hs].
  - pose proof (recommend_advised m s i) as H. rewrite Ha in H.
    destruct H as (r & Hrec & Hc & _). exists r. split; [|exact Hc].
    apply in_app_iff. left. rewrite Hrec. now left.
  - destruct (IH (S i) s Hs Ha) as (r & Hr & Hc). exists r.
    split; [|exact Hc]. apply in_app_iff. now right.
Qed.

Lemma forEachFrom_NoDup (m : BehavioralMetrics) (l : list SkillScore) :
  List.NoDup (List.map category l) ->
  forall i, List.NoDup (List.map rec_category (forEachFrom m i l)).
Proof.
  induction l as [|s l IH]; intros Hl i; cbn [forEachFrom];
    [constructor|].
  cbn [List.map] in Hl. apply List.NoDup_cons_iff in Hl as [Hs Hl].
  pose proof (recommend_advised m s i) as H.
  destruct (advised m s).
  - destruct H as (r & -> & Hc & _). cbn [app List.map].
    constructor; [|now apply IH].
    rewrite Hc. intros Hin. apply Hs.
    apply List.in_map_iff in Hin as (r' & Hr' & Hin).
    destruct (forEachFrom_advised m l _ _ Hin) as (s' & Hs' & _ & Hc' & _).
    apply List.in_map_iff. exists s'. split; [congruence|exact Hs'].
  - rewrite H. now apply IH.
Qed.

Lemma categories_NoDup (m : BehavioralMetrics) :
  List.NoDup (List.map category (calculateCategoryScores m)).
Proof.
  unfold calculateCategoryScores. cbn [List.map category scored].
  repeat constructor; cbn [In]; intuition discriminate.
Qed.

(** *** The languages of the files *)

Lemma NoDup_firstSeen (names : list jsstring) :
  List.NoDup (firstSeen names).
Proof.
  induction names as [|x names IH] using rev_ind; [constructor|].
  unfold firstSeen in *. rewrite fold_left_app. cbn [fold_left].
  destruct (member x _) eqn:E; [exact IH|].
  apply List.NoDup_app; [exact IH|repeat constructor; intros []|].
  intros y Hy [<-|[]].
  apply member_In in Hy. congruence.
Qed.

Lemma countOf_In (d : list (jsstring * Z)) (k : jsstring) (n : Z) :
  List.NoDup (List.map fst d) -> In (k, n) d -> countOf d k = Some n.
Proof.
  induction d as [|[k' n'] d IH]; intros Hd Hin; [destruct Hin|].
  cbn [List.map fst] in Hd. apply List.NoDup_cons_iff in Hd as [Hk Hd].
  cbn [countOf]. destruct Hin as [[= -> ->]|Hin].
  - now rewrite str_eqb_refl.
  - destruct (str_eqb k k') eqn:E; [|now apply IH].
    apply str_eqb_eq in E. subst k'. exfalso. apply Hk.
    apply List.in_map_iff. now exists (k, n).
Qed.

(** The object [languageDistribution] holds, for each language in the
    order of its first file, the number of its files. *)
Lemma distribution_counts (files : list FileMetrics) :
  fold_left countLanguage files []
  = List.map (fun l => (l, filesIn l files))
      (firstSeen (List.map language files)).
Proof.
  destruct (counted_languages files) as [Hk Hc].
  rewrite <- Hk, List.map_map.
  rewrite <- (List.map_id (fold_left countLanguage files [])) at 1.
  apply List.map_ext_in. intros [k n] Hin. cbn [fst]. f_equal.
  assert (Hd : List.NoDup (List.map fst (fold_left countLanguage files []))).
  { rewrite Hk. apply NoDup_firstSeen. }
  pose proof (countOf_In _ k n Hd Hin) as E. rewrite Hc in E.
  destruct (filesIn k files =? 0); congruence.
Qed.

Lemma sum_zero {A} (g : A -> Z) (l : list A) :
  (forall x, In x l -> g x = 0) ->
  fold_left (fun sum x => sum + g x) l 0 = 0.
Proof.
  induction l as [|x l IH]; intros H; cbn [fold_left]; [reflexivity|].
  rewrite (H x) by now left. apply IH. intros y Hy. apply H. now right.
Qed.

End Ranking.

(** X12.  For well-formed metrics the profile ranks the five categories by
    score: the two strengths are the names of the two categories ranked
    first in descending order of score, the two weaknesses those of the
    two ranked last; so no weakness scores above a strength. *)
Theorem strengths_and_weaknesses_follow_the_scores :
  forall m : SkillAnalysisService.BehavioralMetrics,
    SkillInputs.wellFormed m ->
    let scores := SkillAnalysisService.calculateCategoryScores m in
    let name s := SkillAnalysisService.categoryToString
                    (SkillAnalysisService.category s) in
    exists s1 s2 s3 s4 s5 : SkillAnalysisService.SkillScore,
      Permutation scores [s1; s2; s3; s4; s5]
      /\ SkillAnalysisService.strengths
           (SkillAnalysisService.buildSkillProfile scores)
         = [name s1; name s2]
      /\ SkillAnalysisService.weaknesses
           (SkillAnalysisService.buildSkillProfile scores)
         = [name s4; name s5]
      /\ geb (SkillAnalysisService.score s1) (SkillAnalysisService.score s2)
         = true
      /\ geb (SkillAnalysisService.score s2) (SkillAnalysisService.score s3)
         = true
      /\ geb (SkillAnalysisService.score s3) (SkillAnalysisService.score s4)
         = true
      /\ geb (SkillAnalysisService.score s4) (SkillAnalysisService.score s5)
         = true.
Proof.
  intros m Hm scores name.
  set (compare := fun a b : SkillAnalysisService.SkillScore =>
                    sub (SkillAnalysisService.score b)
                        (SkillAnalysisService.score a)).
  destruct (sort_sorted (fun s => - Scores.points s) compare scores)
    as [Hsorted Hperm].
  { intros x y Hx Hy.
    destruct (category_score_of m x Hm Hx) as (zx & Ex & _).
    destruct (category_score_of m y Hm Hy) as (zy & Ey & _).
    unfold compare.
    rewrite (points_of_Z _ _ Ex), (points_of_Z _ _ Ey), Ex, Ey.
    rewrite negative_sub_of_Z.
    destruct (zx <? zy) eqn:E; symmetry; lia. }
  assert (Hlen : length (SkillAnalysisService.sort compare scores) = 5%nat).
  { rewrite <- (Permutation_length Hperm). reflexivity. }
  unfold SkillAnalysisService.buildSkillProfile.
  cbn [SkillAnalysisService.strengths SkillAnalysisService.weaknesses].
  fold compare. rewrite Hlen.
  destruct (SkillAnalysisService.sort compare scores)
    as [|s1 [|s2 [|s3 [|s4 [|s5 [|s6 rest]]]]]]; try discriminate Hlen.
  exists s1, s2, s3, s4, s5.
  split; [exact Hperm|]. split; [reflexivity|]. split; [reflexivity|].
  assert (Hin : forall s, In s [s1; s2; s3; s4; s5] ->
            exists z, SkillAnalysisService.score s = of_Z z /\ Scores.points s = z).
  { intros s Hs.
    apply (Permutation_in _ (Permutation_sym Hperm)) in Hs.
    destruct (category_score_of m s Hm Hs) as (z & Ez & _).
    exists z. split; [exact Ez|now apply points_of_Z]. }
  destruct (Hin s1) as (z1 & E1 & P1); [cbn; tauto|].
  destruct (Hin s2) as (z2 & E2 & P2); [cbn; tauto|].
  destruct (Hin s3) as (z3 & E3 & P3); [cbn; tauto|].
  destruct (Hin s4) as (z4 & E4 & P4); [cbn; tauto|].
  destruct (Hin s5) as (z5 & E5 & P5); [cbn; tauto|].
  rewrite E1, E2, E3, E4, E5, !geb_of_Z.
  repeat match goal with
         | H : StronglySorted _ (_ :: _) |- _ =>
             apply StronglySorted_inv in H; destruct H as [H ?]
         | H : List.Forall _ (_ :: _) |- _ =>
             apply List.Forall_cons_iff in H; destruct H as [? H]
         end.
  rewrite P1, P2, P3, P4, P5 in *.
  repeat split; apply Z.leb_le; lia.
Qed.

Lemma strengths_and_weaknesses_follow_the_scores_witness :
  exists s1 s2 s3 s4 s5 : SkillAnalysisService.SkillScore,
    Permutation (SkillAnalysisService.calculateCategoryScores
                   Samples.halfTyped) [s1; s2; s3; s4; s5]
    /\ SkillAnalysisService.strengths
         (SkillAnalysisService.buildSkillProfile
            (SkillAnalysisService.calculateCategoryScores Samples.halfTyped))
       = [SkillAnalysisService.categoryToString
            (SkillAnalysisService.category s1);
          SkillAnalysisService.categoryToString
            (SkillAnalysisService.category s2)]
    /\ SkillAnalysisService.weaknesses
         (SkillAnalysisService.buildSkillProfile
            (SkillAnalysisService.calculateCategoryScores Samples.halfTyped))
       = [SkillAnalysisService.categoryToString
            (SkillAnalysisService.category s4);
          SkillAnalysisService.categoryToString
            (SkillAnalysisService.category s5)]
    /\ geb (SkillAnalysisService.score s1) (SkillAnalysisService.score s2)
       = true
    /\ geb (SkillAnalysisService.score s2) (SkillAnalysisService.score s3)
       = true
    /\ geb (SkillAnalysisService.score s3) (SkillAnalysisService.score s4)
       = true
    /\ geb (SkillAnalysisService.score s4) (SkillAnalysisService.score s5)
       = true.
Proof.
  exact (strengths_and_weaknesses_follow_the_scores Samples.halfTyped
           halfTyped_wellFormed).
Defined.

(** X13.  For files whose languages are names that the language
    detector returns: the languages of the behavioural metrics are the
    languages of the files in the order of their first file, each once;
    the distribution gives each of them the share of its files,
    [count / total * 100]; and the file count is the number of files. *)
Theorem language_distribution_counts_the_files :
  forall (files : list FileMetrics) (totalActiveTime totalIdleTime : Z),
    forallb (fun f => member (language f) Paths.languageNames) files
    = true ->
    let m := SkillAnalysisService.extractBehavioralMetrics
               files totalActiveTime totalIdleTime in
    let languages := LanguageCounts.firstSeen (List.map language files) in
    SkillAnalysisService.bm_languages m = languages
    /\ List.NoDup languages
    /\ SkillAnalysisService.bm_languageDistribution m
       = List.map
           (fun l =>
              (l, mul (div (of_Z (LanguageCounts.filesIn l files))
                           (of_Z (CodeFeatureExtractor.len files)))
                      (of_Z 100)))
           languages
    /\ SkillAnalysisService.bm_fileCount m = CodeFeatureExtractor.len files.
Proof.
  intros files ta ti _ m languages.
  unfold m, SkillAnalysisService.extractBehavioralMetrics.
  cbn [SkillAnalysisService.bm_languages
       SkillAnalysisService.bm_languageDistribution
       SkillAnalysisService.bm_fileCount].
  rewrite distribution_counts, !List.map_map. cbn [fst snd].
  fold languages.
  split; [apply List.map_id|].
  split; [apply NoDup_firstSeen|].
  split; reflexivity.
Qed.

Lemma language_distribution_counts_the_files_witness :
  let m := SkillAnalysisService.extractBehavioralMetrics
             Samples.twoFiles 60000 0 in
  SkillAnalysisService.bm_languages m = [lit "TypeScript"; lit "Python"]
  /\ List.NoDup [lit "TypeScript"; lit "Python"]
  /\ SkillAnalysisService.bm_languageDistribution m
     = [ (lit "TypeScript", mul (div (of_Z 1) (of_Z 2)) (of_Z 100));
         (lit "Python", mul (div (of_Z 1) (of_Z 2)) (of_Z 100)) ]
  /\ SkillAnalysisService.bm_fileCount m = 2.
Proof.
  exact (language_distribution_counts_the_files Samples.twoFiles 60000 0
           eq_refl).
Defined.

(** X14.  For files whose languages are names that the language detector
    returns, the versatility score is 20 points for each distinct
    language among them, up to 100. *)
Theorem versatility_counts_the_languages :
  forall (files : list FileMetrics) (totalActiveTime totalIdleTime : Z),
    forallb (fun f => member (language f) Paths.languageNames) files
    = true ->
    In (SkillAnalysisService.scored SkillAnalysisService.LANGUAGE_VERSATILITY
          (of_Z (Z.min 100
                   (CodeFeatureExtractor.len
                      (LanguageCounts.firstSeen (List.map language files))
                    * 20))))
       (SkillAnalysisService.calculateCategoryScores
          (SkillAnalysisService.extractBehavioralMetrics
             files totalActiveTime totalIdleTime)).
Proof.
  intros files ta ti _.
  unfold SkillAnalysisService.calculateCategoryScores.
  do 4 right. left. f_equal.
  unfold SkillAnalysisService.extractBehavioralMetrics.
  cbn [SkillAnalysisService.bm_languages].
  rewrite distribution_counts, List.map_map. cbn [fst].
  rewrite List.map_id.
  set (n := CodeFeatureExtractor.len _).
  change (mul (of_Z n) (of_Z 20)) with (of_Z (n * 20)).
  apply min_of_Z.
Qed.

Lemma versatility_counts_the_languages_witness :
  In (SkillAnalysisService.scored SkillAnalysisService.LANGUAGE_VERSATILITY
        (of_Z 40))
     (SkillAnalysisService.calculateCategoryScores
        (SkillAnalysisService.extractBehavioralMetrics
           Samples.twoFiles 60000 0)).
Proof.
  exact (versatility_counts_the_languages Samples.twoFiles 60000 0 eq_refl).
Defined.

(** X15.  Which recommendations are produced: a category of the scores
    has a recommendation exactly when its score is below 70 and, for
    coding proficiency, the typing ratio is below one half; no category
    has two; and every recommendation comes with two learning
    resources. *)
Theorem recommendations_are_for_the_low_scores :
  forall m : SkillAnalysisService.BehavioralMetrics,
    let scores := SkillAnalysisService.calculateCategoryScores m in
    let recs := SkillAnalysisService.generateRecommendations scores m in
    (forall s, In s scores ->
       ((exists r, In r recs
                   /\ SkillAnalysisService.rec_category r
                      = SkillAnalysisService.category s)
        <-> geb (SkillAnalysisService.score s) (of_Z 70) = false
            /\ (SkillAnalysisService.category s
                = SkillAnalysisService.CODING_PROFICIENCY ->
                ltb (SkillAnalysisService.bm_typingToTotalRatio m)
                    (Fin (1 # 2)) = true)))
    /\ List.NoDup (List.map SkillAnalysisService.rec_category recs)
    /\ (forall r, In r recs ->
          length (SkillAnalysisService.learningResources r) = 2%nat).
Proof.
  intros m scores recs.
  set (sorted := SkillAnalysisService.sort
                   (fun a b => sub (SkillAnalysisService.score a)
                                   (SkillAnalysisService.score b)) scores).
  assert (Hadv : forall s,
            Scores.advised m s = true
            <-> geb (SkillAnalysisService.score s) (of_Z 70) = false
                /\ (SkillAnalysisService.category s
                    = SkillAnalysisService.CODING_PROFICIENCY ->
                    ltb (SkillAnalysisService.bm_typingToTotalRatio m)
                        (Fin (1 # 2)) = true)).
  { intros s. unfold Scores.advised.
    destruct (geb (SkillAnalysisService.score s) (of_Z 70));
      cbn [negb andb]; [intuition discriminate|].
    destruct (SkillAnalysisService.category s); intuition congruence. }
  split; [|split].
  - intros s Hs. rewrite <- Hadv. split.
    + intros (r & Hr & Hc).
      destruct (forEachFrom_advised m sorted 0%nat r Hr)
        as (s' & Hs' & Ha & Hc' & _).
      apply In_sort in Hs'.
      now rewrite (categories_differ m s s' Hs Hs') by congruence.
    + intros Ha. apply forEachFrom_complete; [|exact Ha].
      now apply In_sort.
  - apply forEachFrom_NoDup.
    eapply Permutation_NoDup;
      [apply Permutation_map, sort_Permutation|apply categories_NoDup].
  - intros r Hr.
    now destruct (forEachFrom_advised m sorted 0%nat r Hr) as (_ & _ & _ & _ & H).
Qed.

(** X16.  A session without input is told that it pastes too much: when
    no file has a keystroke or a paste, the coding proficiency score is 0
    and the first recommendation, of high priority, is the one for coding
    proficiency. *)
Theorem no_input_is_rated_as_pasting :
  forall (files : list FileMetrics) (sessionId : jsstring)
         (totalActiveTime totalIdleTime : Z),
    (forall f, In f files ->
       keystrokeCount f = 0 /\ pasteCount f = 0
       /\ 0 <= linesAdded f /\ 0 <= linesDeleted f /\ 0 <= editCount f) ->
    0 <= totalActiveTime -> 0 <= totalIdleTime ->
    let result := SkillAnalysisService.analyzeSkill files sessionId
                    totalActiveTime totalIdleTime in
    In (SkillAnalysisService.scored SkillAnalysisService.CODING_PROFICIENCY
          (of_Z 0))
       (SkillAnalysisService.categoryScores
          (SkillAnalysisService.profile result))
    /\ exists r rest,
         SkillAnalysisService.recommendations result = r :: rest
         /\ SkillAnalysisService.rec_category r
            = SkillAnalysisService.CODING_PROFICIENCY
         /\ SkillAnalysisService.priority r = SkillAnalysisService.high.
Proof.
  intros files sid ta ti Hfiles Hta Hti result.
  set (m := SkillAnalysisService.extractBehavioralMetrics files ta ti).
  assert (Hm : SkillInputs.wellFormed m).
  { apply extracted_metrics_wellFormed; [|exact Hta|exact Hti].
    intros f Hf. destruct (Hfiles f Hf) as (K & P & H). unfold SkillInputs.counted.
    rewrite K, P. repeat split; try lia; apply H. }
  assert (Hratio : SkillAnalysisService.bm_typingToTotalRatio m = of_Z 0).
  { unfold m, SkillAnalysisService.extractBehavioralMetrics.
    cbn [SkillAnalysisService.bm_typingToTotalRatio].
    rewrite (sum_zero keystrokeCount), (sum_zero pasteCount);
      [reflexivity| |]; intros f Hf; now destruct (Hfiles f Hf) as (K & P & _). }
  set (first := SkillAnalysisService.scored
                  SkillAnalysisService.CODING_PROFICIENCY (of_Z 0)).
  assert (Hscores : exists others,
            SkillAnalysisService.calculateCategoryScores m = first :: others).
  { unfold SkillAnalysisService.calculateCategoryScores. rewrite Hratio.
    eexists. reflexivity. }
  destruct Hscores as (others & Hscores).
  unfold result, SkillAnalysisService.analyzeSkill. fold m.
  cbn [SkillAnalysisService.profile SkillAnalysisService.recommendations].
  unfold SkillAnalysisService.buildSkillProfile.
  cbn [SkillAnalysisService.categoryScores].
  split; [rewrite Hscores; now left|].
  unfold SkillAnalysisService.generateRecommendations. rewrite Hscores.
  set (compare := fun a b : SkillAnalysisService.SkillScore =>
                    sub (SkillAnalysisService.score a)
                        (SkillAnalysisService.score b)).
  change (SkillAnalysisService.sort compare (first :: others))
    with (SkillAnalysisService.insertSorted compare first
            (SkillAnalysisService.sort compare others)).
  rewrite insertSorted_first.
  - cbn [SkillAnalysisService.forEachFrom].
    pose proof (recommend_advised m first 0) as H.
    assert (Ha : Scores.advised m first = true).
    { unfold Scores.advised, first. cbn [SkillAnalysisService.score
        SkillAnalysisService.category SkillAnalysisService.scored].
      rewrite Hratio. reflexivity. }
    rewrite Ha in H. destruct H as (r & -> & Hc & Hp & _).
    exists r. eexists. split; [reflexivity|]. split; [exact Hc|exact Hp].
  - intros y Hy. apply In_sort in Hy.
    destruct (category_score_of m y Hm) as (z & Ez & Bz).
    { rewrite Hscores. now right. }
    unfold compare, first. cbn [SkillAnalysisService.score
      SkillAnalysisService.scored].
    rewrite Ez, negative_sub_of_Z. lia.
Qed.

Lemma no_input_is_rated_as_pasting_witness :
  let result := SkillAnalysisService.analyzeSkill [Samples.untouched]
                  (lit "session-1") 60000 0 in
  In (SkillAnalysisService.scored SkillAnalysisService.CODING_PROFICIENCY
        (of_Z 0))
     (SkillAnalysisService.categoryScores
        (SkillAnalysisService.profile result))
  /\ exists r rest,
       SkillAnalysisService.recommendations result = r :: rest
       /\ SkillAnalysisService.rec_category r
          = SkillAnalysisService.CODING_PROFICIENCY
       /\ SkillAnalysisService.priority r = SkillAnalysisService.high.
Proof.
  apply (no_input_is_rated_as_pasting [Samples.untouched] (lit "session-1")
           60000 0); [|lia|lia].
  intros f [<-|[]]. vm_compute. repeat split; congruence.
Defined.

(* ===================================================================== *)
(** * The text-change handler *)
(* ===================================================================== *)

Section TextChanges.

Import PasteClassifier TrackingService TextChangeEffect.

Variable clock : nat -> Z.
Variable uuid : nat -> jsstring.
Variable detectLanguage : jsstring -> jsstring.
Variable idleThresholdMs : Z.

Lemma bind_returned {A B} (m : M A) (k : A -> M B) (s s' : Service) (a : A) :
  m s = (Returned a, s') -> bind m k s = k a s'.
Proof. unfold bind. now intros ->. Qed.

Lemma bind_thrown {A B} (m : M A) (k : A -> M B) (s s' : Service) :
  m s = (Thrown, s') -> bind m k s = (Thrown, s').
Proof. unfold bind. now intros ->. Qed.

Lemma run_updateFile (f : jsstring) (g : FileMetrics -> FileMetrics)
    (s : Service) (m : FileMetrics) :
  fileMetrics s !! f = Some m ->
  updateFile f g s
  = (Returned tt, set_fileMetrics (<[f := g m]> (fileMetrics s)) s).
Proof. unfold updateFile. rewrite bind_get. now intros ->. Qed.

Lemma run_updateSession (g : TrackingSession -> TrackingSession)
    (s : Service) (x : TrackingSession) :
  session s = Some x ->
  updateSession g s = (Returned tt, set_session (Some (g x)) s).
Proof. unfold updateSession. rewrite bind_get. now intros ->. Qed.

Lemma run_updateSession_none (g : TrackingSession -> TrackingSession)
    (s : Service) :
  session s = None -> updateSession g s = (Thrown, s).
Proof. unfold updateSession. rewrite bind_get. now intros ->. Qed.

Lemma run_recordEvent (t : Z) (ty : EventType) (d : EventDetail)
    (s : Service) :
  recordEvent uuid t ty d s
  = (Returned tt,
     set_events
       (events s ++
          [{| ev_id := uuid (uuidReads s);
              ev_sessionId := match session s with
                              | Some x => id x
                              | None => lit "unknown"
                              end;
              ev_timestamp := t; ev_type := ty; ev_detail := d;
              ev_userId := svc_userId s |}])
       (set_uuidReads (S (uuidReads s)) s)).
Proof. reflexivity. Qed.

Lemma run_ensureFileMetrics (f lang : jsstring) (s : Service) :
  ensureFileMetrics clock f lang s
  = (Returned tt,
     match fileMetrics s !! f with
     | Some _ => s
     | None =>
         let n := clockReads s in
         let s1 := set_fileMetrics
                     (<[f := newMetrics f lang (clock n) (clock (S n))]>
                        (fileMetrics s))
                     (set_clockReads (S (S n)) s) in
         match session s with
         | Some x => set_session (Some (entered f lang x)) s1
         | None => s1
         end
     end).
Proof.
  unfold ensureFileMetrics. rewrite bind_get.
  destruct (fileMetrics s !! f); [reflexivity|].
  rewrite !bind_Date_now. unfold bind, modify.
  cbn [session fileMetrics set_clockReads set_fileMetrics clockReads].
  destruct (session s); reflexivity.
Qed.

Lemma run_updateFileActiveTime (f : jsstring) (now : Z) (s : Service)
    (m : FileMetrics) :
  fileMetrics s !! f = Some m ->
  updateFileActiveTime idleThresholdMs f now s
  = (Returned tt,
     set_fileMetrics (<[f := timed idleThresholdMs now m]> (fileMetrics s))
       s).
Proof.
  intros Hm. unfold updateFileActiveTime. rewrite bind_get, Hm.
  unfold timed. cbv zeta.
  destruct (now - lastActive m <? idleThresholdMs); unfold when.
  - erewrite bind_returned by (apply run_updateFile; exact Hm).
    erewrite bind_returned
      by (apply run_updateFile; cbn [fileMetrics set_fileMetrics];
          apply lookup_insert_eq).
    erewrite run_updateFile
      by (cbn [fileMetrics set_fileMetrics]; apply lookup_insert_eq).
    cbn [fileMetrics set_fileMetrics]. rewrite !insert_insert_eq.
    destruct s; reflexivity.
  - erewrite bind_returned by reflexivity.
    erewrite bind_returned by (apply run_updateFile; exact Hm).
    erewrite run_updateFile
      by (cbn [fileMetrics set_fileMetrics]; apply lookup_insert_eq).
    cbn [fileMetrics set_fileMetrics]. rewrite !insert_insert_eq.
    destruct s; reflexivity.
Qed.

Lemma endsIdle_snoc (l : list TrackingEvent) (e : TrackingEvent) :
  endsIdle (l ++ [e]) = EventType_eqb (ev_type e) IDLE_START.
Proof.
  unfold endsIdle. rewrite List.map_app. cbn [List.map].
  now rewrite List.last_last.
Qed.

Lemma run_markActivity (s : Service) :
  markActivity clock uuid s
  = (Returned tt,
     let now := clock (clockReads s) in
     let s1 := set_lastActivity now (set_clockReads (S (clockReads s)) s) in
     if endsIdle (events s)
     then set_events
            (events s ++
               [{| ev_id := uuid (uuidReads s);
                   ev_sessionId := match session s with
                                   | Some x => id x
                                   | None => lit "unknown"
                                   end;
                   ev_timestamp := now; ev_type := IDLE_END;
                   ev_detail := NoDetail; ev_userId := svc_userId s |}])
            (set_uuidReads (S (uuidReads s)) s1)
     else s1).
Proof.
  unfold markActivity. rewrite bind_Date_now, bind_get.
  cbn [events set_clockReads]. fold (endsIdle (events s)).
  destruct (endsIdle (events s)); reflexivity.
Qed.

Lemma bind_assoc {A B C} (m : M A) (f : A -> M B) (g : B -> M C)
    (s : Service) :
  bind (bind m f) g s = bind m (fun a => bind (f a) g) s.
Proof. unfold bind. destruct (m s) as [[a|] s']; reflexivity. Qed.

Lemma bind_modify {A} (g : Service -> Service) (k : unit -> M A)
    (s : Service) :
  bind (modify g) k s = k tt (g s).
Proof. reflexivity. Qed.

(** One statement of the handler, run on a state in which the file has an
    entry and the session exists. *)
Ltac known_entry :=
  cbn [fileMetrics session set_fileMetrics set_session set_events
       set_uuidReads set_clockReads set_svc_keystrokeCount
       set_lastTextChangeTime set_lastActivity];
  first [eassumption | apply lookup_insert_eq | reflexivity].

Ltac run_statement :=
  lazymatch goal with
  | |- bind (bind _ _) _ _ = _ => rewrite bind_assoc
  | |- bind (updateFile _ _) _ _ = _ =>
      erewrite bind_returned by (apply run_updateFile; known_entry)
  | |- bind (updateSession _) _ _ = _ =>
      erewrite bind_returned by (apply run_updateSession; known_entry)
  | |- bind (recordEvent _ _ _ _) _ _ = _ =>
      erewrite bind_returned by apply run_recordEvent
  | |- bind (updateFileActiveTime _ _ _) _ _ = _ =>
      erewrite bind_returned
        by (apply run_updateFileActiveTime; known_entry)
  | |- bind (modify _) _ _ = _ => rewrite bind_modify
  end.

(** A tracked change that is not empty, with a session: the handler
    returns, in the state given in closed form. *)
Lemma handleTextChange_tracked (doc : TextDocument)
    (cs : list ContentChange) (x : TrackingSession) (s : Service) :
  shouldTrackDocument doc = true ->
  (totalAdded cs =? 0) && (totalDeleted cs =? 0) = false ->
  session s = Some x ->
  handleTextChange clock uuid detectLanguage idleThresholdMs
    {| document := doc; contentChanges := cs |} s
  = (Returned tt,
     afterTextChange clock uuid detectLanguage idleThresholdMs doc cs x s).
Proof.
  intros Htrack Hne Hx.
  unfold handleTextChange. cbn [document contentChanges].
  rewrite Htrack. cbn [negb]. rewrite bind_Date_now, Hne, bind_get.
  cbn [lastTextChangeTime set_clockReads].
  unfold afterTextChange.
  set (f := uri_fsPath doc). set (lang := detectLanguage f).
  set (n := clockReads s). set (now := clock n).
  set (added := totalAdded cs). set (deleted := totalDeleted cs).
  set (lAdded := changeLinesAdded cs).
  set (lDeleted := changeLinesDeleted cs).
  set (isPaste := detectPaste added (now - lastTextChangeTime s) lAdded).
  erewrite bind_returned by apply run_ensureFileMetrics.
  cbn [fileMetrics session clockReads set_clockReads].
  fold n. rewrite Hx.
  destruct (fileMetrics s !! f) as [m|] eqn:Hk; destruct isPaste;
    cbv zeta;
    repeat run_statement;
    rewrite run_markActivity;
    cbn [events set_events set_uuidReads set_lastTextChangeTime
         set_fileMetrics set_session set_clockReads
         set_svc_keystrokeCount];
    rewrite endsIdle_snoc; cbn [ev_type EventType_eqb];
    cbv zeta;
    cbn [fileMetrics session clockReads uuidReads svc_userId
         svc_keystrokeCount events running currentFile currentLanguage
         lastActivity lastTextChangeTime
         set_events set_uuidReads set_lastTextChangeTime
         set_fileMetrics set_session set_clockReads
         set_svc_keystrokeCount set_lastActivity];
    rewrite ?insert_insert_eq, ?Hx; cbn [id];
    reflexivity.
Qed.

Lemma counter_insert (g : FileMetrics -> Z) (s s' : Service)
    (f : jsstring) (m : FileMetrics) :
  fileMetrics s' = <[f := m]> (fileMetrics s) -> counter g s' f = g m.
Proof. unfold counter. intros ->. now rewrite lookup_insert_eq. Qed.

(** The counters of an entry after a change. *)
Lemma counted_change_counters (isPaste : bool) (added lAdded lDeleted : Z)
    (m : FileMetrics) :
  let m' := counted_change isPaste added lAdded lDeleted m in
  pasteCount m' = pasteCount m + pastes isPaste
  /\ keystrokeCount m' = keystrokeCount m + keystrokes isPaste added
  /\ editCount m' = editCount m + 1
  /\ linesAdded m' = linesAdded m + lAdded
  /\ linesDeleted m' = linesDeleted m + lDeleted
  /\ lastActive m' = lastActive m
  /\ activeTimeMs m' = activeTimeMs m
  /\ totalTimeMs m' = totalTimeMs m
  /\ typingToTotalRatio m'
     = (if keystrokeCount m' + pasteCount m' >? 0
        then div (of_Z (keystrokeCount m'))
                 (of_Z (keystrokeCount m' + pasteCount m'))
        else of_Z 0).
Proof.
  unfold counted_change, pastes, keystrokes.
  destruct isPaste; cbn; repeat split; lia.
Qed.

(** The times of an entry after [updateFileActiveTime]; the counters
    stay. *)
Lemma timed_fields (now : Z) (m : FileMetrics) :
  let m' := timed idleThresholdMs now m in
  let elapsed := now - lastActive m in
  pasteCount m' = pasteCount m
  /\ keystrokeCount m' = keystrokeCount m
  /\ editCount m' = editCount m
  /\ linesAdded m' = linesAdded m
  /\ linesDeleted m' = linesDeleted m
  /\ typingToTotalRatio m' = typingToTotalRatio m
  /\ lastActive m' = now
  /\ totalTimeMs m' = totalTimeMs m + elapsed
  /\ activeTimeMs m'
     = activeTimeMs m + (if elapsed <? idleThresholdMs then elapsed else 0).
Proof.
  unfold timed. cbv zeta.
  destruct (now - lastActive m <? idleThresholdMs); cbn; repeat split; lia.
Qed.

Lemma totalAdded_nonneg (cs : list ContentChange) : 0 <= totalAdded cs.
Proof.
  unfold totalAdded.
  apply (sum_nonneg (fun c => Z.of_nat (length (text c)))); [lia|].
  intros c _. lia.
Qed.

Lemma changeLinesAdded_nonneg (cs : list ContentChange) :
  0 <= changeLinesAdded cs.
Proof.
  unfold changeLinesAdded.
  apply (sum_nonneg (fun c => countMatches (Chr 10) (text c))); [lia|].
  intros c _. apply countMatches_nonneg.
Qed.

Lemma changeLinesDeleted_nonneg (cs : list ContentChange) :
  (forall c, In c cs -> range_start_line c <= range_end_line c) ->
  0 <= changeLinesDeleted cs.
Proof.
  intros H. unfold changeLinesDeleted.
  apply (sum_nonneg (fun c => range_end_line c - range_start_line c));
    [lia|].
  intros c Hc. specialize (H c Hc). lia.
Qed.

(** A part of a text that is found is found again when its beginning is
    cut off. *)
Lemma startsWith_app (p q s : jsstring) :
  startsWith (p ++ q) s = true ->
  startsWith q (skipn (length p) s) = true.
Proof.
  revert s. induction p as [|c p IH]; intros s; [now cbn|].
  destruct s as [|d s]; cbn [app startsWith]; [discriminate|].
  intros H. apply andb_prop in H as [_ H]. now apply IH.
Qed.

Lemma includes_skipn (q s : jsstring) (k : nat) :
  includes q (skipn k s) = true -> includes q s = true.
Proof.
  revert s. induction k as [|k IH]; intros s; [now cbn|].
  destruct s as [|d s]; [now cbn|].
  cbn [skipn]. intros H. apply IH in H.
  cbn [includes]. rewrite H. apply orb_true_r.
Qed.

Lemma includes_startsWith (q s : jsstring) :
  startsWith q s = true -> includes q s = true.
Proof. destruct s; cbn [includes]; intros ->; reflexivity. Qed.

Lemma includes_app (p q s : jsstring) :
  includes (p ++ q) s = true -> includes q s = true.
Proof.
  induction s as [|d s IH].
  - cbn [includes]. rewrite !orb_false_r. intros H.
    apply startsWith_app in H. now rewrite skipn_nil in H.
  - cbn [includes]. intros H. apply orb_prop in H as [H|H].
    + apply startsWith_app in H. apply includes_startsWith in H.
      apply includes_skipn in H. exact H.
    + rewrite (IH H). apply orb_true_r.
Qed.

(** X17.  A tracked change that is not empty, handled while a session
    exists: the handler returns; the change counts as one paste or as
    [added] keystrokes of its file, never both; the file gets one more
    edit and the added and deleted lines; the session gets one more edit
    and, for a paste, one more paste; the entries of the other files stay
    as they are; and the time of the last text change becomes the time
    read at the start of the handler. *)
Theorem text_change_updates_the_counters :
  forall (s : Service) (x : TrackingSession) (doc : TextDocument)
         (cs : list ContentChange),
    shouldTrackDocument doc = true ->
    (totalAdded cs =? 0) && (totalDeleted cs =? 0) = false ->
    session s = Some x ->
    let f := uri_fsPath doc in
    let now := clock (clockReads s) in
    let isPaste := detectPaste (totalAdded cs) (now - lastTextChangeTime s)
                     (changeLinesAdded cs) in
    let r := handleTextChange clock uuid detectLanguage idleThresholdMs
               {| document := doc; contentChanges := cs |} s in
    fst r = Returned tt
    /\ counter pasteCount (snd r) f = counter pasteCount s f + pastes isPaste
    /\ counter keystrokeCount (snd r) f
       = counter keystrokeCount s f + keystrokes isPaste (totalAdded cs)
    /\ counter editCount (snd r) f = counter editCount s f + 1
    /\ counter linesAdded (snd r) f
       = counter linesAdded s f + changeLinesAdded cs
    /\ counter linesDeleted (snd r) f
       = counter linesDeleted s f + changeLinesDeleted cs
    /\ (forall g, g <> f -> fileMetrics (snd r) !! g = fileMetrics s !! g)
    /\ (exists x', session (snd r) = Some x'
                   /\ totalPastes x' = totalPastes x + pastes isPaste
                   /\ totalEdits x' = totalEdits x + 1)
    /\ svc_keystrokeCount (snd r)
       = svc_keystrokeCount s + keystrokes isPaste (totalAdded cs)
    /\ lastTextChangeTime (snd r) = now.
Proof.
  intros s x doc cs Htrack Hne Hx f now isPaste r. unfold r.
  rewrite (handleTextChange_tracked doc cs x s Htrack Hne Hx).
  cbn [fst snd]. unfold afterTextChange. fold f now isPaste.
  set (m0 := match fileMetrics s !! f with
             | Some m => m
             | None => newMetrics f (detectLanguage f)
                         (clock (S (clockReads s)))
                         (clock (S (S (clockReads s))))
             end).
  assert (Hc : forall g : FileMetrics -> Z,
            g (newMetrics f (detectLanguage f) (clock (S (clockReads s)))
                 (clock (S (S (clockReads s))))) = 0 ->
            counter g s f = g m0).
  { intros g Hg. unfold counter, m0.
    destruct (fileMetrics s !! f); [reflexivity|now rewrite Hg]. }
  destruct (counted_change_counters isPaste (totalAdded cs)
              (changeLinesAdded cs) (changeLinesDeleted cs) m0)
    as (C1 & C2 & C3 & C4 & C5 & _).
  destruct (timed_fields now
              (counted_change isPaste (totalAdded cs)
                 (changeLinesAdded cs) (changeLinesDeleted cs) m0))
    as (T1 & T2 & T3 & T4 & T5 & _).
  unfold counter at 1 3 5 7 9. cbn [fileMetrics].
  rewrite !lookup_insert_eq, !Hc by reflexivity.
  split; [reflexivity|].
  split; [now rewrite T1, C1|]. split; [now rewrite T2, C2|].
  split; [now rewrite T3, C3|]. split; [now rewrite T4, C4|].
  split; [now rewrite T5, C5|].
  split; [intros g Hg; now apply lookup_insert_ne|].
  cbn [session svc_keystrokeCount lastTextChangeTime].
  split; [|split; [unfold keystrokes; destruct isPaste; lia|reflexivity]].
  eexists. split; [reflexivity|].
  unfold pastes. destruct (fileMetrics s !! f), isPaste;
    unfold entered;
    repeat match goal with |- context [if ?b then _ else _] =>
             destruct b end;
    cbn; split; lia.
Qed.

(** X18.  The handler keeps the entries consistent: when every entry has
    counters that are not negative, a typing ratio that is the share of
    its keystrokes in its keystrokes and pastes, and an active time
    within its total time, then so has every entry after a tracked change
    whose ranges end no earlier than they start, provided that the idle
    threshold is not negative. *)
Theorem text_change_keeps_the_entries_consistent :
  forall (s : Service) (x : TrackingSession) (doc : TextDocument)
         (cs : list ContentChange),
    shouldTrackDocument doc = true ->
    (totalAdded cs =? 0) && (totalDeleted cs =? 0) = false ->
    session s = Some x ->
    0 <= idleThresholdMs ->
    (forall c, In c cs -> range_start_line c <= range_end_line c) ->
    (forall g m, fileMetrics s !! g = Some m -> consistent m) ->
    forall g m,
      fileMetrics
        (snd (handleTextChange clock uuid detectLanguage idleThresholdMs
                {| document := doc; contentChanges := cs |} s)) !! g
      = Some m ->
      consistent m.
Proof.
  intros s x doc cs Htrack Hne Hx Hidle Hranges Hs g m.
  rewrite (handleTextChange_tracked doc cs x s Htrack Hne Hx).
  cbn [snd]. unfold afterTextChange. cbn [fileMetrics].
  set (f := uri_fsPath doc). set (now := clock (clockReads s)).
  set (isPaste := detectPaste _ _ _).
  destruct (decide (g = f)) as [->|Hg];
    [|rewrite lookup_insert_ne by congruence; apply Hs].
  rewrite lookup_insert_eq. intros [= <-].
  set (m0 := match fileMetrics s !! f with
             | Some m => m
             | None => newMetrics f (detectLanguage f)
                         (clock (S (clockReads s)))
                         (clock (S (S (clockReads s))))
             end).
  assert (H0 : consistent m0).
  { unfold m0. destruct (fileMetrics s !! f) as [m|] eqn:E;
      [now apply (Hs f)|].
    unfold consistent, SkillInputs.counted, newMetrics. cbn.
    repeat split; lia. }
  destruct H0 as ((K1 & K2 & K3 & K4 & K5) & _ & Ktime).
  pose proof (totalAdded_nonneg cs) as Hadded.
  pose proof (changeLinesAdded_nonneg cs) as HlAdded.
  pose proof (changeLinesDeleted_nonneg cs Hranges) as HlDeleted.
  destruct (counted_change_counters isPaste (totalAdded cs)
              (changeLinesAdded cs) (changeLinesDeleted cs) m0)
    as (C1 & C2 & C3 & C4 & C5 & C6 & C7 & C8 & C9).
  destruct (timed_fields now
              (counted_change isPaste (totalAdded cs)
                 (changeLinesAdded cs) (changeLinesDeleted cs) m0))
    as (T1 & T2 & T3 & T4 & T5 & T6 & T7 & T8 & T9).
  unfold consistent, SkillInputs.counted.
  rewrite T1, T2, T3, T4, T5, T6, T8, T9, C9, C1, C2, C3, C4, C5, C6, C7, C8.
  unfold pastes, keystrokes.
  split; [destruct isPaste; repeat split; lia|].
  split; [reflexivity|].
  destruct (now - lastActive m0 <? idleThresholdMs) eqn:E; lia.
Qed.

(** X19.  A tracked change that is not empty appends exactly one event to
    the log: a paste event or a keystroke event, as the change is
    classified, stamped with the time read at the start of the handler
    and with the identifier of the session.  No event for the end of an
    idle period is recorded, even when the log ended with the start of
    one. *)
Theorem text_change_records_one_event :
  forall (s : Service) (x : TrackingSession) (doc : TextDocument)
         (cs : list ContentChange),
    shouldTrackDocument doc = true ->
    (totalAdded cs =? 0) && (totalDeleted cs =? 0) = false ->
    session s = Some x ->
    let now := clock (clockReads s) in
    let isPaste := detectPaste (totalAdded cs) (now - lastTextChangeTime s)
                     (changeLinesAdded cs) in
    exists e : TrackingEvent,
      events
        (snd (handleTextChange clock uuid detectLanguage idleThresholdMs
                {| document := doc; contentChanges := cs |} s))
      = events s ++ [e]
      /\ ev_type e = (if isPaste then PASTE else KEYSTROKE)
      /\ ev_timestamp e = now
      /\ ev_sessionId e = id x
      /\ ev_id e = uuid (uuidReads s).
Proof.
  intros s x doc cs Htrack Hne Hx now isPaste.
  rewrite (handleTextChange_tracked doc cs x s Htrack Hne Hx).
  cbn [snd]. unfold afterTextChange. cbn [events].
  eexists. split; [reflexivity|]. fold now isPaste.
  cbn [changeEvent ev_type ev_timestamp ev_sessionId ev_id].
  repeat split.
  destruct (fileMetrics s !! uri_fsPath doc); [reflexivity|].
  unfold entered.
  repeat match goal with |- context [if ?b then _ else _] =>
           destruct b end; reflexivity.
Qed.

(** X20.  The first change of a file adds no time to it: the entry is
    created with a time of last activity read after the time of the
    change, so under a clock that does not go back the total time of the
    new entry is zero or negative, and zero exactly when the clock stood
    still in between. *)
Theorem first_change_adds_no_time :
  forall (s : Service) (x : TrackingSession) (doc : TextDocument)
         (cs : list ContentChange),
    shouldTrackDocument doc = true ->
    (totalAdded cs =? 0) && (totalDeleted cs =? 0) = false ->
    session s = Some x ->
    fileMetrics s !! uri_fsPath doc = None ->
    clock (clockReads s) <= clock (S (S (clockReads s))) ->
    exists m,
      fileMetrics
        (snd (handleTextChange clock uuid detectLanguage idleThresholdMs
                {| document := doc; contentChanges := cs |} s))
        !! uri_fsPath doc = Some m
      /\ totalTimeMs m
         = clock (clockReads s) - clock (S (S (clockReads s)))
      /\ totalTimeMs m <= 0
      /\ lastActive m = clock (clockReads s)
      /\ firstSeen m = clock (S (clockReads s)).
Proof.
  intros s x doc cs Htrack Hne Hx Hnew Hclock.
  rewrite (handleTextChange_tracked doc cs x s Htrack Hne Hx).
  cbn [snd]. unfold afterTextChange. cbn [fileMetrics].
  rewrite lookup_insert_eq, Hnew. eexists. split; [reflexivity|].
  match goal with
  | |- context [timed _ ?now (counted_change ?p ?a ?la ?ld ?m0)] =>
      destruct (counted_change_counters p a la ld m0)
        as (_ & _ & _ & _ & _ & C6 & _ & C8 & _);
      destruct (timed_fields now (counted_change p a la ld m0))
        as (_ & _ & _ & _ & _ & _ & T7 & T8 & _)
  end.
  rewrite T7, T8, C6, C8. cbn [newMetrics lastActive totalTimeMs].
  repeat split; try lia.
  unfold timed, counted_change.
  repeat match goal with |- context [if ?b then _ else _] =>
           destruct b end; reflexivity.
Qed.

(** X21.  Without a session the handler throws on a tracked change that
    is not empty, and it is not atomic: the paste of the file, or its
    edit, is counted before the exception, while the times of the last
    text change and of the last activity stay as they were. *)
Theorem text_change_without_session_throws :
  forall (s : Service) (doc : TextDocument) (cs : list ContentChange),
    shouldTrackDocument doc = true ->
    (totalAdded cs =? 0) && (totalDeleted cs =? 0) = false ->
    session s = None ->
    let f := uri_fsPath doc in
    let isPaste := detectPaste (totalAdded cs)
                     (clock (clockReads s) - lastTextChangeTime s)
                     (changeLinesAdded cs) in
    let r := handleTextChange clock uuid detectLanguage idleThresholdMs
               {| document := doc; contentChanges := cs |} s in
    fst r = Thrown
    /\ session (snd r) = None
    /\ lastTextChangeTime (snd r) = lastTextChangeTime s
    /\ lastActivity (snd r) = lastActivity s
    /\ counter pasteCount (snd r) f = counter pasteCount s f + pastes isPaste
    /\ counter editCount (snd r) f
       = counter editCount s f + (if isPaste then 0 else 1).
Proof.
  intros s doc cs Htrack Hne Hx f isPaste r.
  enough (E : exists s',
            r = (Thrown, s')
            /\ session s' = None
            /\ lastTextChangeTime s' = lastTextChangeTime s
            /\ lastActivity s' = lastActivity s
            /\ counter pasteCount s' f
               = counter pasteCount s f + pastes isPaste
            /\ counter editCount s' f
               = counter editCount s f + (if isPaste then 0 else 1))
    by (destruct E as (s' & -> & H); exact (conj eq_refl H)).
  unfold r, handleTextChange. cbn [document contentChanges].
  rewrite Htrack. cbn [negb]. rewrite bind_Date_now, Hne, bind_get.
  cbn [lastTextChangeTime set_clockReads]. fold f isPaste.
  erewrite bind_returned by apply run_ensureFileMetrics.
  cbn [fileMetrics session clockReads set_clockReads]. rewrite Hx.
  unfold counter, pastes.
  destruct (fileMetrics s !! f) as [m|] eqn:Hk; destruct isPaste;
    cbv zeta;
    (eexists; split;
     [repeat run_statement;
      erewrite bind_thrown by (apply run_updateSession_none; known_entry);
      reflexivity|]);
    cbn [fileMetrics session lastTextChangeTime lastActivity
         set_events set_uuidReads set_fileMetrics set_clockReads
         set_svc_keystrokeCount];
    rewrite ?insert_insert_eq, ?lookup_insert_eq;
    cbn; repeat split; try assumption; lia.
Qed.

(** X22.  [markActivity] returns, sets the time of the last activity to
    the time that it reads, and closes an idle period: when the log ends
    with the start of one it appends the event of its end, otherwise it
    leaves the log as it is; afterwards the log does not end with the
    start of an idle period. *)
Theorem markActivity_closes_an_idle_period :
  forall s : Service,
    let r := markActivity clock uuid s in
    fst r = Returned tt
    /\ lastActivity (snd r) = clock (clockReads s)
    /\ fileMetrics (snd r) = fileMetrics s
    /\ session (snd r) = session s
    /\ (if endsIdle (events s)
        then exists e, events (snd r) = events s ++ [e]
                       /\ ev_type e = IDLE_END
                       /\ ev_timestamp e = clock (clockReads s)
        else events (snd r) = events s)
    /\ endsIdle (events (snd r)) = false.
Proof.
  intros s r. unfold r. rewrite run_markActivity. cbn [fst snd].
  destruct (endsIdle (events s)) eqn:E; cbv zeta;
    cbn [lastActivity fileMetrics session events set_events set_uuidReads
         set_lastActivity set_clockReads].
  - repeat split; [eexists; repeat split|apply endsIdle_snoc].
  - repeat split. exact E.
Qed.

(** X23.  Which documents are tracked: those of the scheme 'file' whose
    path contains neither 'output-' nor '[Extension Host]' and whose text
    is at most 10 MiB long.  (A path that contains 'extension-output-'
    contains 'output-'.) *)
Theorem tracked_documents :
  forall doc : TextDocument,
    shouldTrackDocument doc = true
    <-> uri_scheme doc = lit "file"
        /\ includes (lit "output-") (uri_fsPath doc) = false
        /\ includes (lit "[Extension Host]") (uri_fsPath doc) = false
        /\ Z.of_nat (length (getText doc)) <= 10485760.
Proof.
  intros doc. unfold shouldTrackDocument.
  destruct (str_eqb (uri_scheme doc) (lit "file")) eqn:Es; cbn [negb].
  - apply str_eqb_eq in Es.
    destruct (includes (lit "extension-output-") (uri_fsPath doc)) eqn:E1.
    + apply (includes_app (lit "extension-") (lit "output-")) in E1.
      rewrite E1. cbn [orb]. intuition congruence.
    + cbn [orb].
      destruct (includes (lit "output-") (uri_fsPath doc));
        cbn [orb]; [intuition congruence|].
      destruct (includes (lit "[Extension Host]") (uri_fsPath doc));
        [intuition congruence|].
      change (10 * 1024 * 1024) with 10485760.
      destruct (Z.of_nat (length (getText doc)) >? 10485760) eqn:E.
      * split; [discriminate|]. intros (_ & _ & _ & H). lia.
      * split; [|reflexivity]. intros _. repeat split; try assumption. lia.
  - apply str_eqb_neq in Es. intuition congruence.
Qed.

End TextChanges.

Lemma text_change_updates_the_counters_witness :
  let r := TrackingService.handleTextChange Samples.clock Samples.uuid
             Samples.detectLanguage 300000
             {| TrackingService.document := Samples.doc0;
                TrackingService.contentChanges := [Samples.insertion] |}
             Samples.service0 in
  fst r = TrackingService.Returned tt
  /\ TextChangeEffect.counter pasteCount (snd r) (lit "/work/src/a.ts") = 1
  /\ TextChangeEffect.counter keystrokeCount (snd r) (lit "/work/src/a.ts")
     = 0.
Proof.
  pose proof (text_change_updates_the_counters Samples.clock Samples.uuid
                Samples.detectLanguage 300000 Samples.service0
                Samples.session0 Samples.doc0 [Samples.insertion]
                eq_refl eq_refl eq_refl) as H.
  cbv zeta in H. destruct H as (H1 & H2 & H3 & _).
  split; [exact H1|]. split; [exact H2|exact H3].
Defined.

Lemma text_change_keeps_the_entries_consistent_witness :
  (exists m,
     TrackingService.fileMetrics
       (snd (TrackingService.handleTextChange Samples.clock Samples.uuid
               Samples.detectLanguage 300000
               {| TrackingService.document := Samples.doc0;
                  TrackingService.contentChanges := [Samples.replacement] |}
               MoreSamples.service1)) !! lit "/work/src/a.ts" = Some m
     /\ editCount m = 13 /\ pasteCount m = 11 /\ linesDeleted m = 21
     /\ totalTimeMs m = 401000 /\ activeTimeMs m = 91000
     /\ TextChangeEffect.consistent m)
  /\ (exists m,
        TrackingService.fileMetrics
          (snd (TrackingService.handleTextChange Samples.clock Samples.uuid
                  Samples.detectLanguage 300000
                  {| TrackingService.document := Samples.doc0;
                     TrackingService.contentChanges :=
                       [Samples.replacement] |}
                  MoreSamples.service1)) !! lit "/work/tools/b.py" = Some m
        /\ m = MoreSamples.editedBefore "/work/tools/b.py" "Python"
        /\ TextChangeEffect.consistent m).
Proof.
  assert (Hstart : forall g m,
            TrackingService.fileMetrics MoreSamples.service1 !! g = Some m ->
            TextChangeEffect.consistent m).
  { intros g m. unfold MoreSamples.service1.
    cbn [TrackingService.fileMetrics TrackingService.set_fileMetrics].
    destruct (decide (g = lit "/work/src/a.ts")) as [->|Ha];
      [rewrite lookup_insert_eq|rewrite lookup_insert_ne by congruence;
       destruct (decide (g = lit "/work/tools/b.py")) as [->|Hb];
       [rewrite lookup_insert_eq
       |rewrite lookup_insert_ne by congruence; rewrite lookup_empty;
        discriminate]];
      intros [= <-];
      (split; [|split]; [vm_compute; repeat split; congruence
                        |reflexivity|vm_compute; congruence]). }
  pose proof (text_change_keeps_the_entries_consistent Samples.clock
                Samples.uuid Samples.detectLanguage 300000
                MoreSamples.service1 Samples.session0 Samples.doc0
                [Samples.replacement] eq_refl eq_refl eq_refl
                ltac:(lia)
                ltac:(intros c [<-|[]]; vm_compute; congruence)
                Hstart) as Hkept.
  rewrite (handleTextChange_tracked Samples.clock Samples.uuid
             Samples.detectLanguage 300000 Samples.doc0
             [Samples.replacement] Samples.session0 MoreSamples.service1
             eq_refl eq_refl eq_refl) in Hkept |- *.
  cbn [snd] in Hkept |- *.
  unfold TextChangeEffect.afterTextChange in Hkept |- *.
  cbn [TrackingService.fileMetrics TrackingService.uri_fsPath Samples.doc0]
    in Hkept |- *.
  split.
  - eexists. split; [apply lookup_insert_eq|].
    split; [vm_compute; reflexivity|]. split; [vm_compute; reflexivity|].
    split; [vm_compute; reflexivity|]. split; [vm_compute; reflexivity|].
    split; [vm_compute; reflexivity|].
    apply (Hkept (lit "/work/src/a.ts")). apply lookup_insert_eq.
  - exists (MoreSamples.editedBefore "/work/tools/b.py" "Python").
    assert (Hb : forall fm : FileMetrics,
              <[lit "/work/src/a.ts" := fm]>
                (TrackingService.fileMetrics MoreSamples.service1)
                !! lit "/work/tools/b.py"
              = Some (MoreSamples.editedBefore "/work/tools/b.py" "Python")).
    { intros fm. rewrite lookup_insert_ne by (vm_compute; congruence).
      unfold MoreSamples.service1.
      cbn [TrackingService.fileMetrics TrackingService.set_fileMetrics].
      rewrite lookup_insert_ne by (vm_compute; congruence).
      apply lookup_insert_eq. }
    split; [apply Hb|]. split; [reflexivity|].
    apply (Hkept (lit "/work/tools/b.py")). apply Hb.
Defined.

Lemma text_change_records_one_event_witness :
  exists e : TrackingEvent,
    TrackingService.events
      (snd (TrackingService.handleTextChange Samples.clock Samples.uuid
              Samples.detectLanguage 300000
              {| TrackingService.document := Samples.doc0;
                 TrackingService.contentChanges := [Samples.insertion] |}
              Samples.service0))
    = [e]
    /\ ev_type e = PASTE
    /\ ev_timestamp e = 1700000000000
    /\ ev_sessionId e = lit "session-1"
    /\ ev_id e = lit "3f2b8c1e-7a4d-4e0b-9c55-0d6f1a2b3c4d".
Proof.
  exact (text_change_records_one_event Samples.clock Samples.uuid
           Samples.detectLanguage 300000 Samples.service0 Samples.session0
           Samples.doc0 [Samples.insertion] eq_refl eq_refl eq_refl).
Defined.

Lemma first_change_adds_no_time_witness :
  exists m,
    TrackingService.fileMetrics
      (snd (TrackingService.handleTextChange Samples.clock Samples.uuid
              Samples.detectLanguage 300000
              {| TrackingService.document := Samples.doc0;
                 TrackingService.contentChanges := [Samples.insertion] |}
              Samples.service0))
      !! lit "/work/src/a.ts" = Some m
    /\ totalTimeMs m = -2
    /\ totalTimeMs m <= 0
    /\ lastActive m = 1700000000000
    /\ firstSeen m = 1700000000001.
Proof.
  apply (first_change_adds_no_time Samples.clock Samples.uuid
           Samples.detectLanguage 300000 Samples.service0 Samples.session0
           Samples.doc0 [Samples.insertion] eq_refl eq_refl eq_refl
           eq_refl).
  vm_compute. congruence.
Defined.

Lemma text_change_without_session_throws_witness :
  let s := TrackingService.set_session None Samples.service0 in
  let r := TrackingService.handleTextChange Samples.clock Samples.uuid
             Samples.detectLanguage 300000
             {| TrackingService.document := Samples.doc0;
                TrackingService.contentChanges := [Samples.insertion] |}
             s in
  fst r = TrackingService.Thrown
  /\ TrackingService.session (snd r) = None
  /\ TrackingService.lastTextChangeTime (snd r) = 1699999999999
  /\ TrackingService.lastActivity (snd r) = 1699999999000
  /\ TextChangeEffect.counter pasteCount (snd r) (lit "/work/src/a.ts") = 1
  /\ TextChangeEffect.counter editCount (snd r) (lit "/work/src/a.ts") = 0.
Proof.
  exact (text_change_without_session_throws Samples.clock Samples.uuid
           Samples.detectLanguage 300000
           (TrackingService.set_session None Samples.service0)
           Samples.doc0 [Samples.insertion] eq_refl eq_refl eq_refl).
Defined.

(* ===================================================================== *)
(** * Idleness *)
(* ===================================================================== *)

(** X24.  Activity ends idleness: when two consecutive readings of the
    clock are never further apart than the idle threshold, the service is
    not idle right after [markActivity], nor right after a tracked change
    that is not empty. *)
Theorem not_idle_right_after_activity :
  forall (clock : nat -> Z) (uuid : nat -> jsstring)
         (detectLanguage : jsstring -> jsstring) (idleThresholdMs : Z),
    (forall k, clock (S k) - clock k <= idleThresholdMs) ->
    (forall s : TrackingService.Service,
       fst (TrackingQueries.isIdle clock idleThresholdMs
              (snd (TrackingService.markActivity clock uuid s)))
       = TrackingService.Returned false)
    /\ (forall (s : TrackingService.Service) (x : TrackingSession)
               (doc : TrackingService.TextDocument)
               (cs : list TrackingService.ContentChange),
          TrackingService.shouldTrackDocument doc = true ->
          (TrackingService.totalAdded cs =? 0)
          && (TrackingService.totalDeleted cs =? 0) = false ->
          TrackingService.session s = Some x ->
          fst (TrackingQueries.isIdle clock idleThresholdMs
                 (snd (TrackingService.handleTextChange clock uuid
                         detectLanguage idleThresholdMs
                         {| TrackingService.document := doc;
                            TrackingService.contentChanges := cs |} s)))
          = TrackingService.Returned false).
Proof.
  intros clock uuid detectLanguage idle Hclock.
  assert (Hnot : forall k, (clock (S k) - clock k >? idle) = false).
  { intros k. specialize (Hclock k). lia. }
  split.
  - intros s. rewrite run_markActivity. cbn [snd].
    unfold TrackingQueries.isIdle. rewrite bind_Date_now, bind_get.
    destruct (TextChangeEffect.endsIdle (TrackingService.events s));
      cbv zeta;
      cbn [TrackingService.lastActivity TrackingService.clockReads
           TrackingService.set_clockReads TrackingService.set_lastActivity
           TrackingService.set_events TrackingService.set_uuidReads
           TrackingService.ret fst];
      now rewrite Hnot.
  - intros s x doc cs Htrack Hne Hx.
    rewrite (handleTextChange_tracked clock uuid detectLanguage idle
               doc cs x s Htrack Hne Hx).
    cbn [snd]. unfold TrackingQueries.isIdle.
    rewrite bind_Date_now, bind_get.
    unfold TextChangeEffect.afterTextChange.
    cbn [TrackingService.lastActivity TrackingService.clockReads
         TrackingService.set_clockReads TrackingService.ret fst].
    now rewrite Hnot.
Qed.

Lemma not_idle_right_after_activity_witness :
  fst (TrackingQueries.isIdle Samples.clock 300000
         (snd (TrackingService.markActivity Samples.clock Samples.uuid
                 Samples.service0)))
  = TrackingService.Returned false.
Proof.
  apply (not_idle_right_after_activity Samples.clock Samples.uuid
           Samples.detectLanguage 300000).
  intros k. unfold Samples.clock. lia.
Defined.

(* ===================================================================== *)
(** * Indentation *)
(* ===================================================================== *)

Section IndentationScan.

Import CodeFeatureExtractor Backtracking Indentation.

(** Followed by nothing, the iteration of a class takes the longest run
    of members. *)
Lemma classRun_longest (f : N -> bool) (b : option N) (s : jsstring) :
  exists b',
    classRun f Some b s
    = Some (Cursor b' (skipn (length (longest f s)) s)).
Proof.
  revert b. induction s as [|y t IH]; intros b; [now exists b|].
  cbn [classRun longest]. destruct (f y) eqn:E.
  - destruct (IH (Some y)) as (b' & ->). now exists b'.
  - now exists b.
Qed.

Lemma longest_prefix (f : N -> bool) (s : jsstring) :
  firstn (length s - length (skipn (length (longest f s)) s)) s
  = longest f s.
Proof.
  induction s as [|y t IH]; [reflexivity|].
  cbn [longest]. destruct (f y).
  - cbn [length skipn]. rewrite <- IH at 2.
    assert (H : (length (skipn (length (longest f t)) t) <= length t)%nat)
      by (rewrite length_skipn; lia).
    replace (S (length t) - length (skipn (length (longest f t)) t))%nat
      with (S (length t - length (skipn (length (longest f t)) t)))
      by lia.
    reflexivity.
  - cbn [length skipn]. now rewrite Nat.sub_diag.
Qed.

(** [^\s+] matches at the start of the text only, and there the white
    space that the text starts with. *)
Lemma matchAt_leadingSpace_start (s : jsstring) :
  matchAt leadingSpace (Cursor None s)
  = if indented s
    then matchAt (Star ws) (Cursor (hd_error s) (tl s))
    else None.
Proof.
  destruct s as [|c t]; [reflexivity|].
  unfold indented, matchAt, leadingSpace, Plus, ws.
  cbn [run before rest hd_error tl].
  destruct (isSpace c); reflexivity.
Qed.

Lemma matchAt_leadingSpace_later (p : N) (s : jsstring) :
  matchAt leadingSpace (Cursor (Some p) s) = None.
Proof. reflexivity. Qed.

Lemma search_leadingSpace_later (p : N) (s : jsstring) :
  search leadingSpace (Some p) s = None.
Proof.
  revert p. induction s as [|c t IH]; intros p; [reflexivity|].
  cbn [search]. rewrite matchAt_leadingSpace_later. now rewrite IH.
Qed.

Lemma match1_leadingSpace (s : jsstring) :
  match1 leadingSpace s = if indented s then Some (leading s) else None.
Proof.
  unfold match1. destruct s as [|c t]; [reflexivity|].
  cbn [search]. rewrite matchAt_leadingSpace_start.
  unfold indented, leading. cbn [longest hd_error tl].
  destruct (isSpace c) eqn:E.
  - unfold matchAt, ws. rewrite run_Star_Cls.
    destruct (classRun_longest isSpace (Some c) t) as (b' & ->).
    cbn [rest]. f_equal.
    pose proof (longest_prefix isSpace (c :: t)) as H.
    cbn [longest] in H. rewrite E in H. cbn [length skipn] in H.
    exact H.
  - now rewrite search_leadingSpace_later.
Qed.

Lemma test_leadingSpace (s : jsstring) :
  test leadingSpace s = indented s.
Proof.
  pose proof (match1_leadingSpace s) as H. unfold match1, test in *.
  destruct (search leadingSpace None s) as [[[? ?] ?]|];
    destruct (indented s); congruence.
Qed.

(** The loop over the indented lines, in closed form. *)
Lemma scanIndent_fold (lines : list jsstring) (st : IndentScan) :
  fold_left scanIndent
    (List.filter (fun l => (len l >? 0) && test leadingSpace l) lines) st
  = {| tabCount := tabCount st + len (tabIndented lines);
       spaceCount := spaceCount st + len (spaceIndented lines);
       indentSizes :=
         indentSizes st
         ++ List.map (fun l => len (leading l)) (spaceIndented lines) |}.
Proof.
  revert st. induction lines as [|l lines IH]; intros st.
  - cbn. rewrite !Z.add_0_r, app_nil_r. now destruct st.
  - unfold tabIndented, spaceIndented in *. cbn [List.filter].
    rewrite test_leadingSpace.
    destruct (indented l) eqn:Ei.
    + replace (len l >? 0) with true
        by (destruct l; [discriminate Ei|];
          symmetry; apply Z.gtb_lt; unfold len; rewrite length_cons; lia).
      cbn [andb fold_left]. rewrite IH.
      unfold scanIndent. rewrite match1_leadingSpace, Ei.
      unfold withTab. destruct (includes [9%N] (leading l));
        cbn [negb tabCount spaceCount indentSizes List.map];
        unfold len; rewrite ?length_cons, ?Nat2Z.inj_succ;
        rewrite <- ?app_assoc; cbn [app]; f_equal; lia.
    + rewrite andb_false_r. cbn [andb]. apply IH.
Qed.

Lemma scanIndents_closed (lines : list jsstring) :
  scanIndents lines
  = {| tabCount := len (tabIndented lines);
       spaceCount := len (spaceIndented lines);
       indentSizes :=
         List.map (fun l => len (leading l)) (spaceIndented lines) |}.
Proof. unfold scanIndents. now rewrite scanIndent_fold. Qed.

(** The smallest of a non-empty list of positive integers. *)
Lemma Math_min_cons (z : Z) (more : list Z) :
  Math_min (z :: more) = of_Z (fold_left Z.min more z).
Proof.
  unfold Math_min. cbn [fold_left].
  change (JsNumber.min PosInf (of_Z z)) with (of_Z z).
  revert z. induction more as [|y more IH]; intros z; [reflexivity|].
  cbn [fold_left]. rewrite min_of_Z. apply IH.
Qed.

Lemma fold_min_positive (more : list Z) (z : Z) :
  0 < z -> (forall y, In y more -> 0 < y) -> 0 < fold_left Z.min more z.
Proof.
  revert z. induction more as [|y more IH]; intros z Hz H; [exact Hz|].
  cbn [fold_left]. apply IH.
  - specialize (H y (or_introl eq_refl)). lia.
  - intros x Hx. apply H. now right.
Qed.

Lemma filter_all {A} (f : A -> bool) (l : list A) :
  (forall x, In x l -> f x = true) -> List.filter f l = l.
Proof.
  induction l as [|x l IH]; intros H; [reflexivity|].
  cbn [List.filter]. rewrite (H x) by now left.
  f_equal. apply IH. intros y Hy. apply H. now right.
Qed.

Lemma leading_positive (l : jsstring) :
  indented l = true -> 0 < len (leading l).
Proof.
  destruct l as [|c t]; [discriminate|].
  unfold indented, leading, len. cbn [longest]. intros ->.
  rewrite length_cons. lia.
Qed.

End IndentationScan.

(** X25.  How the indentation is read off the lines.  The lines that
    count are those that start with white space; one counts for the tabs
    when the white space it starts with holds a tab, else for the spaces.
    The style is 'mixed' when both kinds occur, 'tabs' when only the
    first does, 'spaces' otherwise.  The size is the smallest length of
    leading white space among the lines counted for the spaces, capped at
    8, and 2 when there is none. *)
Theorem indentation_is_the_leading_white_space :
  forall lines : list jsstring,
    let m := CodeFeatureExtractor.extractStructuralMetrics lines in
    CodeFeatureExtractor.indentationStyle m
    = match Indentation.tabIndented lines,
            Indentation.spaceIndented lines with
      | _ :: _, _ :: _ => CodeFeatureExtractor.mixed
      | _ :: _, [] => CodeFeatureExtractor.tabs
      | [], _ => CodeFeatureExtractor.spaces
      end
    /\ CodeFeatureExtractor.indentationSize m
       = match List.map (fun l => CodeFeatureExtractor.len
                                    (Indentation.leading l))
                 (Indentation.spaceIndented lines) with
         | [] => of_Z 2
         | z :: more => of_Z (Z.min (fold_left Z.min more z) 8)
         end.
Proof.
  intros lines m. unfold m, CodeFeatureExtractor.extractStructuralMetrics.
  cbn [CodeFeatureExtractor.indentationStyle
       CodeFeatureExtractor.indentationSize].
  rewrite scanIndents_closed.
  cbn [CodeFeatureExtractor.tabCount CodeFeatureExtractor.spaceCount
       CodeFeatureExtractor.indentSizes].
  split.
  - unfold CodeFeatureExtractor.len.
    assert (Hsome : forall n : nat, (Z.of_nat (S n) >? 0) = true)
      by (intros n; apply Z.gtb_lt; lia).
    assert (Hnone : forall n : nat, (Z.of_nat 0 >? Z.of_nat n) = false)
      by (intros n; rewrite Z.gtb_ltb; apply Z.ltb_ge; lia).
    destruct (Indentation.tabIndented lines) as [|a ta];
      destruct (Indentation.spaceIndented lines) as [|b sp];
      rewrite ?length_cons, ?Hsome; cbn [length andb];
      rewrite ?Hnone, ?Hsome; reflexivity.
  - assert (Hpos : forall z,
              In z (List.map (fun l => CodeFeatureExtractor.len
                                         (Indentation.leading l))
                      (Indentation.spaceIndented lines)) -> 0 < z).
    { intros z Hz. apply List.in_map_iff in Hz as (l & <- & Hl).
      apply List.filter_In in Hl as [_ Hl].
      apply andb_prop in Hl as [Hl _]. now apply leading_positive. }
    destruct (List.map _ (Indentation.spaceIndented lines)) as [|z more];
      [reflexivity|].
    replace (CodeFeatureExtractor.len (z :: more) >? 0) with true
      by (symmetry; apply Z.gtb_lt; unfold CodeFeatureExtractor.len;
          rewrite length_cons; lia).
    rewrite filter_all
      by (intros x Hx; specialize (Hpos x Hx); apply Z.gtb_lt; lia).
    rewrite Math_min_cons.
    assert (H : 0 < fold_left Z.min more z).
    { apply fold_min_positive; [apply Hpos; now left|].
      intros y Hy. apply Hpos. now right. }
    change (gtb (of_Z (fold_left Z.min more z)) (of_Z 0))
      with (ltb (of_Z 0) (of_Z (fold_left Z.min more z))).
    rewrite ltb_of_Z.
    replace (0 <? fold_left Z.min more z) with true
      by (symmetry; apply Z.ltb_lt; lia).
    apply min_of_Z.
Qed.
